(** * Pharma BD dashboard: fetch / normalize / aggregate pipeline

    A shallow embedding of the three variants of the dashboard script
    ([app.py], [app_patched.py], [pharma_dashboard_v1.py]) and the
    verification of their retry, normalization and aggregation behaviour.

    - Decoded JSON is an inductive type; the Python operations used on it
      ([.get], [x[0]], truthiness, iteration) are functions into an error
      type carrying the exception raised.
    - HTTP is an oracle: the n-th request of a run receives the response the
      oracle gives for it.  Effects (requests issued, sleeps, user notices)
      are appended to a trace which survives raised exceptions.
    - [pd.to_datetime] is a parameter of the normalizers. *)

From Stdlib Require Import ZArith List String Ascii Bool Lia QArith_base Sorted.
From Stdlib Require Import Floats.PrimFloat.
From Stdlib Require Import DecimalString.
Import ListNotations.

Set Implicit Arguments.
Set Warnings "-register-all".

Local Open Scope string_scope.
Local Open Scope Z_scope.
Local Open Scope list_scope.

(* ===================================================================== *)
(** * Python values and exceptions *)
(* ===================================================================== *)

Module Py.

(** A decoded JSON document, as [json.loads] builds it.  An object is the
    list of its items; keys are unique after decoding and [dict_get]
    returns the first match. *)
Inductive json : Type :=
| JNull
| JBool (b : bool)
| JInt (n : Z)
| JFloat (f : float)
| JStr (s : string)
| JList (items : list json)
| JDict (items : list (string * json)).

(** The exceptions the scripts can meet.  [Timeout], [HTTPError],
    [ConnectionError] and [JSONDecodeError] are the [requests] exceptions
    (all subclasses of [requests.RequestException]); [ValueError] and
    [OverflowError] are what [time.sleep] raises on a duration it does not
    accept; [RuntimeError] carries the [__cause__] set by
    [raise ... from]. *)
Inductive exn : Type :=
| HTTPError (status : Z)
| Timeout
| ConnectionError
| JSONDecodeError
| KeyError (key : string)
| IndexError
| TypeError
| AttributeError
| ValueError
| OverflowError
| RuntimeError (msg : string) (cause : option exn).

(** [isinstance(e, requests.Timeout)] *)
Definition is_Timeout (e : exn) : bool :=
  match e with Timeout => true | _ => false end.

(** [isinstance(e, requests.RequestException)] *)
Definition is_RequestException (e : exn) : bool :=
  match e with
  | HTTPError _ | Timeout | ConnectionError | JSONDecodeError => true
  | _ => false
  end.

(** The outcome of evaluating a Python expression or block. *)
Inductive result (A : Type) : Type :=
| Ok (a : A)
| Raise (e : exn).
Arguments Ok {A} a.
Arguments Raise {A} e.

Definition rbind {A B} (r : result A) (k : A -> result B) : result B :=
  match r with
  | Ok a => k a
  | Raise e => Raise e
  end.

(** [bool(v)] *)
Definition truthy (v : json) : bool :=
  match v with
  | JNull => false
  | JBool b => b
  | JInt n => negb (n =? 0)%Z
  | JFloat f => negb (PrimFloat.eqb f 0%float)
  | JStr s => negb (s =? "")%string
  | JList l => match l with [] => false | _ => true end
  | JDict l => match l with [] => false | _ => true end
  end.

Fixpoint dict_get (items : list (string * json)) (k : string) : option json :=
  match items with
  | [] => None
  | (k', v) :: rest => if (k' =? k)%string then Some v else dict_get rest k
  end.

(** [d.get(k, default)]: only a dict has the method. *)
Definition py_get (d : json) (k : string) (default : json) : result json :=
  match d with
  | JDict items =>
      match dict_get items k with
      | Some v => Ok v
      | None => Ok default
      end
  | _ => Raise AttributeError
  end.

(** [d[k]] for a string key [k]. *)
Definition py_getitem (d : json) (k : string) : result json :=
  match d with
  | JDict items =>
      match dict_get items k with
      | Some v => Ok v
      | None => Raise (KeyError k)
      end
  | _ => Raise TypeError
  end.

(** [v[0]] *)
Definition py_index0 (v : json) : result json :=
  match v with
  | JList [] => Raise IndexError
  | JList (x :: _) => Ok x
  | JStr EmptyString => Raise IndexError
  | JStr (String c _) => Ok (JStr (String c EmptyString))
  | JDict _ => Raise (KeyError "0")   (* no JSON object has the key 0 *)
  | _ => Raise TypeError
  end.

Fixpoint chars (s : string) : list json :=
  match s with
  | EmptyString => []
  | String c rest => JStr (String c EmptyString) :: chars rest
  end.

(** The items a [for x in v] loop visits. *)
Definition py_iter (v : json) : result (list json) :=
  match v with
  | JList l => Ok l
  | JDict items => Ok (map (fun kv => JStr (fst kv)) items)
  | JStr s => Ok (chars s)
  | _ => Raise TypeError
  end.

(** [range(lo, hi)]: [lo, lo+1, ..., hi-1], empty when [hi <= lo]. *)
Definition py_range (lo hi : Z) : list Z :=
  map (fun i => lo + Z.of_nat i) (seq 0 (Z.to_nat (hi - lo))).

(** [str(n)] for an int. *)
Definition str_of_int (n : Z) : string :=
  NilZero.string_of_int (Z.to_int n).

End Py.
Export Py.

Declare Scope result_scope.
Delimit Scope result_scope with result.
Notation "x <- c1 ;; c2" := (rbind c1 (fun x => c2))
  (at level 61, c1 at next level, right associativity) : result_scope.

(* ===================================================================== *)
(** * Effects: HTTP oracle, trace, and the state-and-exception monad *)
(* ===================================================================== *)

Module Eff.

(** The arguments of one [requests.get] call. *)
Record Request : Type := mkRequest {
  req_url : string;
  req_params : list (string * json);
  req_timeout : option Z
}.

(** What one [requests.get] call does: it returns a response with a status
    code and a body ([None] when the body is not JSON), or it raises. *)
Inductive Response : Type :=
| Reply (status : Z) (body : option json)
| Throw (e : exn).

Inductive Level : Type := Warning | Error | Success.

(** Observable effects.  [EvSleep b a] is a completed
    [time.sleep(b ** a)], recorded by base and exponent.  Calls to the
    [logging] module leave no event. *)
Inductive Event : Type :=
| EvGet (r : Request)
| EvSleep (base : Q) (attempt : Z)
| EvNotice (l : Level).

(** Newest event first. *)
Definition Trace : Type := list Event.

(** The upstream services: the response to the [n]-th request of the run
    (counting from 0). *)
Definition World : Type := nat -> Request -> Response.

Definition is_get (e : Event) : bool :=
  match e with EvGet _ => true | _ => false end.

Definition n_requests (tr : Trace) : nat :=
  List.length (filter is_get tr).

(** A block of the script: it runs from a trace, extends it, and either
    yields a value or raises.  The trace is kept in both cases. *)
Definition M (A : Type) : Type := Trace -> result A * Trace.

Definition ret {A} (a : A) : M A := fun tr => (Ok a, tr).

Definition raise {A} (e : exn) : M A := fun tr => (Raise e, tr).

Definition bind {A B} (c : M A) (k : A -> M B) : M B :=
  fun tr =>
    match c tr with
    | (Ok a, tr') => k a tr'
    | (Raise e, tr') => (Raise e, tr')
    end.

Definition lift {A} (r : result A) : M A := fun tr => (r, tr).

(** [try: c  except <all classes the handler accepts> as e: h e]; a handler
    re-raises what no [except] clause matches. *)
Definition try_except {A} (c : M A) (h : exn -> M A) : M A :=
  fun tr =>
    match c tr with
    | (Ok a, tr') => (Ok a, tr')
    | (Raise e, tr') => h e tr'
    end.

Definition emit (e : Event) : M unit := fun tr => (Ok tt, e :: tr).

Definition st_warning : M unit := emit (EvNotice Warning).
Definition st_error : M unit := emit (EvNotice Error).
Definition st_success : M unit := emit (EvNotice Success).

(** The longest duration [time.sleep] accepts, in seconds: the largest
    signed 64-bit count of nanoseconds. *)
Definition max_sleep : Q := 9223372036854775807 # 1000000000.

(** What [time.sleep(base ** attempt)] raises, if anything.  A duration
    beyond [max_sleep] in either direction does not convert to the
    interpreter's clock type ([OverflowError], also what [**] itself
    raises when the power exceeds the float range); a negative duration
    within it is refused ([ValueError]).  The duration is computed here
    on rationals; the float power of the script agrees with it on the
    sign, and on the comparison with [max_sleep] except within rounding
    distance of that bound. *)
Definition sleep_outcome (base : Q) (attempt : Z) : option exn :=
  let duration := Qpower base attempt in
  if negb (Qle_bool duration max_sleep)
     || negb (Qle_bool (Qopp max_sleep) duration)
  then Some OverflowError
  else if negb (Qle_bool 0 duration) then Some ValueError
  else None.

(** [time.sleep(base ** attempt)]: a refused duration raises before any
    time is spent. *)
Definition time_sleep (base : Q) (attempt : Z) : M unit :=
  fun tr =>
    match sleep_outcome base attempt with
    | None => (Ok tt, EvSleep base attempt :: tr)
    | Some e => (Raise e, tr)
    end.

(** [requests.get(url, params=..., timeout=...)] *)
Definition requests_get (http : World) (r : Request) : M (Z * option json) :=
  fun tr =>
    match http (n_requests tr) r with
    | Reply status body => (Ok (status, body), EvGet r :: tr)
    | Throw e => (Raise e, EvGet r :: tr)
    end.

(** [resp.json()] *)
Definition response_json (body : option json) : result json :=
  match body with
  | Some j => Ok j
  | None => Raise JSONDecodeError
  end.

(** [resp.raise_for_status()] *)
Definition raise_for_status (status : Z) : result unit :=
  if (400 <=? status) && (status <? 600) then Raise (HTTPError status)
  else Ok tt.

(** How one pass through a loop body ends: it falls to the next iteration
    (with the current [last_exception]) or the function returns. *)
Inductive step (A : Type) : Type :=
| Continue (last_exception : option exn)
| Return (v : A).
Arguments Continue {A} last_exception.
Arguments Return {A} v.

(** [for x in xs: body], threading [last_exception]. *)
Fixpoint for_each {A X} (xs : list X)
    (body : X -> option exn -> M (step A)) (last_exception : option exn)
    : M (step A) :=
  match xs with
  | [] => ret (Continue last_exception)
  | x :: rest =>
      bind (body x last_exception) (fun s =>
        match s with
        | Return v => ret (Return v)
        | Continue last' => for_each rest body last'
        end)
  end.

End Eff.
Export Eff.

Declare Scope eff_scope.
Delimit Scope eff_scope with eff.
Notation "x <- c1 ;; c2" := (bind c1 (fun x => c2))
  (at level 61, c1 at next level, right associativity) : eff_scope.
Notation "c1 ;;; c2" := (bind c1 (fun _ => c2))
  (at level 61, right associativity) : eff_scope.

(* ===================================================================== *)
(** * Data frames *)
(* ===================================================================== *)

Module Pandas.

(** A [pandas.Timestamp]: a calendar date and the time within the day. *)
Record Timestamp : Type := mkTimestamp {
  ts_year : Z;
  ts_month : Z;
  ts_day : Z;
  ts_nanos : Z
}.

(** A monthly [pandas.Period]. *)
Record Period : Type := mkPeriod {
  p_year : Z;
  p_month : Z
}.

(** A cell of the [date] column: the raw value put there by the
    normalizer, or what [pd.to_datetime] made of it. *)
Inductive date_cell : Type :=
| DRaw (v : json)
| DTime (t : Timestamp)
| NaT.

(** One row: the dict appended to [records].  The two submission columns
    are [None] when the dict has no such key. *)
Record record : Type := mkRecord {
  source : string;
  sponsor : json;
  date : date_cell;
  phase : json;
  trial_id : json;
  submission_type : option json;
  submission_class : option json
}.

Definition DataFrame : Type := list record.

(** [df.empty] *)
Definition df_empty (df : DataFrame) : bool :=
  match df with [] => true | _ => false end.

Definition set_date (r : record) (c : date_cell) : record :=
  mkRecord (source r) (sponsor r) c (phase r) (trial_id r)
           (submission_type r) (submission_class r).

Definition cell_of (t : option Timestamp) : date_cell :=
  match t with Some ts => DTime ts | None => NaT end.

(** [df["date"] = col]: rows are matched by position; a row the column
    does not reach gets a missing value. *)
Fixpoint assign_date (df : DataFrame) (col : list (option Timestamp))
    : DataFrame :=
  match df with
  | [] => []
  | r :: rest =>
      match col with
      | [] => set_date r NaT :: assign_date rest []
      | c :: cs => set_date r (cell_of c) :: assign_date rest cs
      end
  end.

(** [pd.isna] on a date cell. *)
Definition is_na (c : date_cell) : bool :=
  match c with
  | NaT => true
  | DRaw JNull => true
  | DRaw (JFloat f) => negb (PrimFloat.eqb f f)
  | _ => false
  end.

(** [df.dropna(subset=["date"])] *)
Definition dropna_date (df : DataFrame) : DataFrame :=
  filter (fun r => negb (is_na (date r))) df.

(** The tail shared by both normalizers:
<<
    df = pd.DataFrame(records)
    if not df.empty:
        df["date"] = pd.to_datetime(df["date"], errors="coerce")
        df = df.dropna(subset=["date"])
    return df
>> *)
Definition to_frame (to_datetime : list date_cell -> list (option Timestamp))
    (records : list record) : DataFrame :=
  let df := records in
  if negb (df_empty df) then
    dropna_date (assign_date df (to_datetime (map date df)))
  else df.

(** [pd.concat(dfs, ignore_index=True)] *)
Definition pd_concat (dfs : list DataFrame) : DataFrame := List.concat dfs.

(** [ts.to_period("M")] *)
Definition to_period_M (t : Timestamp) : Period :=
  mkPeriod (ts_year t) (ts_month t).

(** [col.dt.to_period("M")]: the [.dt] accessor exists only on a column
    of datetimes. *)
Fixpoint dt_to_period (col : list date_cell) : result (list (option Period)) :=
  match col with
  | [] => Ok []
  | DRaw _ :: _ => Raise AttributeError
  | DTime t :: rest =>
      rbind (dt_to_period rest) (fun ps => Ok (Some (to_period_M t) :: ps))
  | NaT :: rest =>
      rbind (dt_to_period rest) (fun ps => Ok (None :: ps))
  end.

End Pandas.
Export Pandas.

(* ===================================================================== *)
(** * Grouping and counting *)
(* ===================================================================== *)

Module GroupBy.

Section Keyed.
Variable K : Type.
Variable cmp : K -> K -> comparison.

(** Count one more occurrence of [k] in a table kept in key order. *)
Fixpoint bump (k : K) (t : list (K * nat)) : list (K * nat) :=
  match t with
  | [] => [(k, 1%nat)]
  | (k', n) :: rest =>
      match cmp k k' with
      | Lt => (k, 1%nat) :: t
      | Eq => (k', S n) :: rest
      | Gt => (k', n) :: bump k rest
      end
  end.

(** [groupby(keys).size()]: one row per distinct key, in key order
    ([sort=True]), with the number of occurrences. *)
Definition size (keys : list K) : list (K * nat) :=
  fold_left (fun t k => bump k t) keys [].

Fixpoint lookup (k : K) (t : list (K * nat)) : option nat :=
  match t with
  | [] => None
  | (k', n) :: rest =>
      match cmp k k' with
      | Eq => Some n
      | _ => lookup k rest
      end
  end.

(** Number of occurrences of [k] in [keys]. *)
Fixpoint occurrences (k : K) (keys : list K) : nat :=
  match keys with
  | [] => 0%nat
  | k' :: rest =>
      match cmp k k' with
      | Eq => S (occurrences k rest)
      | _ => occurrences k rest
      end
  end.

(** The distinct keys, in order. *)
Definition distinct (keys : list K) : list K := map fst (size keys).
End Keyed.

Definition period_compare (p q : Period) : comparison :=
  match (p_year p ?= p_year q)%Z with
  | Eq => (p_month p ?= p_month q)%Z
  | c => c
  end.

(** Order of the group keys: month first, then source label. *)
Definition key_compare (a b : Period * string) : comparison :=
  match period_compare (fst a) (fst b) with
  | Eq => String.compare (snd a) (snd b)
  | c => c
  end.

(** The keys of [combined.groupby([combined["month"], "source"])]; a row
    whose month is missing belongs to no group. *)
Fixpoint group_keys (month : list (option Period)) (df : DataFrame)
    : list (Period * string) :=
  match month, df with
  | Some p :: ms, r :: rest => (p, source r) :: group_keys ms rest
  | None :: ms, _ :: rest => group_keys ms rest
  | _, _ => []
  end.

(** [combined.groupby([combined["month"], "source"]).size()] *)
Definition monthly_counts (month : list (option Period)) (df : DataFrame)
    : list ((Period * string) * nat) :=
  size key_compare (group_keys month df).

(** A table with one row per month and one column per source. *)
Record Wide : Type := mkWide {
  w_index : list Period;
  w_columns : list string;
  w_values : list (list nat)
}.

(** [.unstack(fill_value=0)] *)
Definition unstack (t : list ((Period * string) * nat)) : Wide :=
  let idx := distinct period_compare (map (fun kn => fst (fst kn)) t) in
  let cols := distinct String.compare (map (fun kn => snd (fst kn)) t) in
  mkWide idx cols
    (map (fun m =>
            map (fun s =>
                   match lookup key_compare (m, s) t with
                   | Some n => n
                   | None => 0%nat
                   end) cols) idx).

End GroupBy.
Export GroupBy.

(* ===================================================================== *)
(** * Normalizers *)
(* ===================================================================== *)

(** [parse_fda] has the same text in the three files; [parse_trials] has
    the same text in [app.py] and [app_patched.py]. *)
Module Normalize.

Local Open Scope result_scope.

Section WithParser.
Variable to_datetime : list date_cell -> list (option Timestamp).

(** The inner loop of [parse_fda]: [for sub in submissions]. *)
Fixpoint fda_submissions (sponsor : json) (subs : list json)
    (records : list record) : result (list record) :=
  match subs with
  | [] => Ok records
  | sub :: rest =>
      approval_date <- py_get sub "submission_date" JNull ;;
      if truthy approval_date then
        sub_type <- py_get sub "submission_type" JNull ;;
        sub_class <- py_get sub "submission_class_code" JNull ;;
        fda_submissions sponsor rest
          (records ++ [mkRecord "FDA" sponsor (DRaw approval_date)
                                JNull JNull
                                (Some sub_type) (Some sub_class)])
      else fda_submissions sponsor rest records
  end.

(** The outer loop of [parse_fda]: [for entry in data]. *)
Fixpoint fda_entries (entries : list json) (records : list record)
    : result (list record) :=
  match entries with
  | [] => Ok records
  | entry :: rest =>
      sponsor <- py_get entry "sponsor_name" JNull ;;
      submissions <- py_get entry "submissions" (JList []) ;;
      subs <- py_iter submissions ;;
      records' <- fda_submissions sponsor subs records ;;
      fda_entries rest records'
  end.

Definition parse_fda (data : json) : result DataFrame :=
  entries <- py_iter data ;;
  records <- fda_entries entries [] ;;
  Ok (to_frame to_datetime records).

(** [trial.get(field, [""])[0]] *)
Definition first_of (trial : json) (field : string) : result json :=
  v <- py_get trial field (JList [JStr ""]) ;;
  py_index0 v.

(** The loop of [parse_trials]; [submission] is what the dict literal
    gives the two submission columns. *)
Fixpoint trial_records (submission : option json) (phase : string)
    (trials : list json) (records : list record) : result (list record) :=
  match trials with
  | [] => Ok records
  | trial :: rest =>
      trial_id <- first_of trial "NCTId" ;;
      sponsor <- first_of trial "Sponsors" ;;
      completion_date <- first_of trial "CompletionDate" ;;
      if truthy completion_date then
        trial_records submission phase rest
          (records ++ [mkRecord "ClinicalTrials.gov" sponsor
                                (DRaw completion_date)
                                (JStr phase) trial_id
                                submission submission])
      else trial_records submission phase rest records
  end.

(** [parse_trials] of [app.py] and [app_patched.py]: the dict has
    ["submission_type": None] and ["submission_class": None]. *)
Definition parse_trials (data : json) (phase : string) : result DataFrame :=
  trials <- py_iter data ;;
  records <- trial_records (Some JNull) phase trials [] ;;
  Ok (to_frame to_datetime records).

(** [parse_trials] of [pharma_dashboard_v1.py]: the dict has no
    submission keys. *)
Definition parse_trials_v1 (data : json) (phase : string)
    : result DataFrame :=
  trials <- py_iter data ;;
  records <- trial_records None phase trials [] ;;
  Ok (to_frame to_datetime records).
End WithParser.

End Normalize.

(* ===================================================================== *)
(** * The aggregation tail of the scripts *)
(* ===================================================================== *)

Module Aggregate.

Local Open Scope eff_scope.

(** What a run leaves behind: the combined table, its [month] column and,
    when the chart branch ran, the two tables it computed: [sizes], the
    value of [combined.groupby([combined["month"], "source"]).size()], and
    [counts], its pivot, which is plotted. *)
Record Output : Type := mkOutput {
  combined : DataFrame;
  month : list (option Period);
  sizes : option (list ((Period * string) * nat));
  counts : option Wide
}.

(** The rows of the grouped count table the run computed; none when the
    chart branch did not run. *)
Definition monthly_table (out : Output) : list ((Period * string) * nat) :=
  match sizes out with
  | Some t => t
  | None => []
  end.

(** [pd.concat(trials_dfs, ignore_index=True) if trials_dfs else pd.DataFrame()] *)
Definition concat_trials (trials_dfs : list DataFrame) : DataFrame :=
  match trials_dfs with
  | [] => []
  | _ => pd_concat trials_dfs
  end.

(** From [combined] on:
<<
    if not combined.empty:
        combined["month"] = combined["date"].dt.to_period("M")
    ...
    if not combined.empty:
        counts = combined.groupby([combined["month"], "source"]).size().unstack(fill_value=0)
        ...plot...
    else:
        st.warning("No data available ...")
>>
    The preview ([st.dataframe]) and the plot calls leave no event. *)
Definition summarize (combined : DataFrame) : M Output :=
  month <- lift (if negb (df_empty combined)
                 then dt_to_period (map date combined)
                 else Ok []) ;;
  if negb (df_empty combined) then
    let sizes := monthly_counts month combined in
    let counts := unstack sizes in
    ret (mkOutput combined month (Some sizes) (Some counts))
  else
    st_warning ;;;
    ret (mkOutput combined month None None).

(** [app.py], lines 102-125. *)
Definition aggregate_app (fda_df : DataFrame) (trials_dfs : list DataFrame)
    : M Output :=
  let trials_df := concat_trials trials_dfs in
  let combined := pd_concat [fda_df; trials_df] in
  summarize combined.

(** [app_patched.py], lines 185-207, and [pharma_dashboard_v1.py],
    lines 142-160. *)
Definition aggregate (fda_df : DataFrame) (trials_dfs : list DataFrame)
    : M Output :=
  let trials_df := concat_trials trials_dfs in
  let combined :=
    if negb (df_empty fda_df) || negb (df_empty trials_df)
    then pd_concat [fda_df; trials_df]
    else [] in
  summarize combined.

End Aggregate.
Export Aggregate.

(* ===================================================================== *)
(** * app.py *)
(* ===================================================================== *)

Module App.

Local Open Scope eff_scope.

Section Run.
Variable to_datetime : list date_cell -> list (option Timestamp).
Variable http : World.

Definition fetch_fda_approvals (limit : Z) : M json :=
  let url := ("https://api.fda.gov/drug/drugsfda.json?search=products.marketing_status:'1'&limit="
              ++ str_of_int limit)%string in
  response <- requests_get http (mkRequest url [] None) ;;
  _ <- lift (raise_for_status (fst response)) ;;
  data <- lift (response_json (snd response)) ;;
  lift (py_get data "results" (JList [])).

Definition trial_params (term phase : string) (max_studies : Z)
    : list (string * json) :=
  [("expr", JStr (term ++ " AND " ++ phase)%string);
   ("fields", JStr "NCTId,Condition,Phase,StartDate,CompletionDate,Sponsors");
   ("min_rnk", JInt 1);
   ("max_rnk", JInt max_studies);
   ("fmt", JStr "json")].

Definition fetch_clinical_trials (term phase : string) (max_studies : Z)
    : M json :=
  let base_url := "https://clinicaltrials.gov/api/query/study_fields" in
  let params := trial_params term phase max_studies in
  response <- requests_get http (mkRequest base_url params None) ;;
  _ <- lift (raise_for_status (fst response)) ;;
  data <- lift (response_json (snd response)) ;;
  fields <- lift (py_getitem data "StudyFieldsResponse") ;;
  lift (py_getitem fields "StudyFields").

Definition parse_fda := Normalize.parse_fda to_datetime.
Definition parse_trials := Normalize.parse_trials to_datetime.

(** [for ph in phases: ... trials_dfs.append(trials)] *)
Fixpoint fetch_phases (term : string) (phases : list string)
    (trials_dfs : list DataFrame) : M (list DataFrame) :=
  match phases with
  | [] => ret trials_dfs
  | ph :: rest =>
      trials_raw <- fetch_clinical_trials term ph 200 ;;
      trials <- lift (parse_trials trials_raw ph) ;;
      fetch_phases term rest (trials_dfs ++ [trials])
  end.

(** The script from line 91 on, for the values the sidebar widgets
    return. *)
Definition pipeline (term : string) (phases : list string) (fda_limit : Z)
    : M Output :=
  fda_raw <- fetch_fda_approvals fda_limit ;;
  fda_df <- lift (parse_fda fda_raw) ;;
  trials_dfs <- fetch_phases term phases [] ;;
  aggregate_app fda_df trials_dfs.
End Run.

End App.

(* ===================================================================== *)
(** * app_patched.py *)
(* ===================================================================== *)

Module AppPatched.

Local Open Scope eff_scope.

(** Lines 18-22 of [fetch_fda_approvals]. *)
Definition effective_limit (limit : option Z) : Z :=
  let limit :=
    match limit with
    | None => 100
    | Some n => if n <=? 0 then 100 else n
    end in
  if limit >? 100 then 100 else limit.

Definition fda_urls (limit : Z) : list string :=
  [("https://api.fda.gov/drug/drugsfda.json?search=products.marketing_status:'1'&limit="
      ++ str_of_int limit)%string;
   ("https://api.fda.gov/drug/drugsfda.json?limit=" ++ str_of_int limit)%string].

(** [requests.get(url, timeout=20)] *)
Definition fda_request (url : string) : Request :=
  mkRequest url [] (Some 20).

Definition fda_err_msg : string :=
  "Failed to fetch FDA approvals after multiple attempts. Check logs for details.".

Definition trials_err_msg : string :=
  "Failed to fetch ClinicalTrials.gov data after retries.".

Section Run.
Variable to_datetime : list date_cell -> list (option Timestamp).
Variable http : World.

(** One pass of the [try] statement of [fetch_fda_approvals]. *)
Definition fda_attempt (url : string) (backoff : Q) (attempt : Z)
    (last_exception : option exn) : M (step json) :=
  try_except
    (resp <- requests_get http (fda_request url) ;;
     if negb (fst resp =? 200) then
       st_warning ;;;
       time_sleep backoff attempt ;;;
       ret (Continue (Some (HTTPError (fst resp))))
     else
       data <- lift (response_json (snd resp)) ;;
       results <- lift (py_get data "results" (JList [])) ;;
       ret (Return results))
    (fun e =>
       if is_Timeout e then
         st_warning ;;;
         time_sleep backoff attempt ;;;
         ret (Continue (Some e))
       else if is_RequestException e then
         st_error ;;;
         time_sleep backoff attempt ;;;
         ret (Continue (Some e))
       else raise e).

Definition fetch_fda_approvals (limit : option Z) (retries : Z)
    (backoff : Q) : M json :=
  let limit := effective_limit limit in
  let urls := fda_urls limit in
  s <- for_each urls
         (fun url last_exception =>
            for_each (py_range 1 (retries + 1))
                     (fda_attempt url backoff) last_exception)
         None ;;
  match s with
  | Return results => ret results
  | Continue last_exception => raise (RuntimeError fda_err_msg last_exception)
  end.

(** One pass of the [try] statement of [fetch_clinical_trials]. *)
Definition trials_attempt (req : Request) (attempt : Z)
    (last_exception : option exn) : M (step json) :=
  try_except
    (response <- requests_get http req ;;
     if negb (fst response =? 200) then
       st_warning ;;;
       time_sleep (3 # 2) attempt ;;;
       ret (Continue (Some (HTTPError (fst response))))
     else
       data <- lift (response_json (snd response)) ;;
       fields <- lift (py_getitem data "StudyFieldsResponse") ;;
       studies <- lift (py_getitem fields "StudyFields") ;;
       ret (Return studies))
    (fun e =>
       if is_Timeout e then
         st_warning ;;;
         time_sleep (3 # 2) attempt ;;;
         ret (Continue (Some e))
       else if is_RequestException e then
         st_error ;;;
         time_sleep (3 # 2) attempt ;;;
         ret (Continue (Some e))
       else raise e).

Definition trials_request (term phase : string) (max_studies : Z)
    : Request :=
  mkRequest "https://clinicaltrials.gov/api/query/study_fields"
            (App.trial_params term phase max_studies) (Some 20).

Definition fetch_clinical_trials (term phase : string) (max_studies : Z)
    (retries : Z) : M json :=
  s <- for_each (py_range 1 (retries + 1))
         (trials_attempt (trials_request term phase max_studies)) None ;;
  match s with
  | Return studies => ret studies
  | Continue last_exception =>
      raise (RuntimeError trials_err_msg last_exception)
  end.

Definition parse_fda := Normalize.parse_fda to_datetime.
Definition parse_trials := Normalize.parse_trials to_datetime.

(** Lines 162-170: the regulatory source. *)
Definition load_fda (fda_limit : Z) : M DataFrame :=
  try_except
    (fda_raw <- fetch_fda_approvals (Some fda_limit) 3 (3 # 2) ;;
     fda_df <- lift (parse_fda fda_raw) ;;
     st_success ;;;
     ret fda_df)
    (fun e => st_error ;;; ret []).

(** Lines 173-183: one trial-registry fetch per selected phase. *)
Fixpoint load_trials (term : string) (phases : list string)
    (trials_dfs : list DataFrame) : M (list DataFrame) :=
  match phases with
  | [] => ret trials_dfs
  | ph :: rest =>
      trials_dfs' <-
        try_except
          (trials_raw <- fetch_clinical_trials term ph 200 2 ;;
           trials <- lift (parse_trials trials_raw ph) ;;
           st_success ;;;
           ret (trials_dfs ++ [trials]))
          (fun e => st_error ;;; ret trials_dfs) ;;
      load_trials term rest trials_dfs'
  end.

(** The script from line 162 on, for the values the sidebar widgets
    return. *)
Definition pipeline (term : string) (phases : list string) (fda_limit : Z)
    : M Output :=
  fda_df <- load_fda fda_limit ;;
  trials_dfs <- load_trials term phases [] ;;
  aggregate fda_df trials_dfs.
End Run.

End AppPatched.

(* ===================================================================== *)
(** * pharma_dashboard_v1.py *)
(* ===================================================================== *)

Module DashboardV1.

Local Open Scope eff_scope.

Definition fda_err_msg : string :=
  "Failed to fetch FDA approvals after multiple attempts.".

Section Run.
Variable to_datetime : list date_cell -> list (option Timestamp).
Variable http : World.

(** One pass of the [try] statement of [fetch_fda_approvals]. *)
Definition fda_attempt (url : string) (backoff : Q) (attempt : Z)
    (last_exception : option exn) : M (step json) :=
  try_except
    (resp <- requests_get http (AppPatched.fda_request url) ;;
     if negb (fst resp =? 200) then
       st_warning ;;;
       time_sleep backoff attempt ;;;
       ret (Continue (Some (HTTPError (fst resp))))
     else
       data <- lift (response_json (snd resp)) ;;
       results <- lift (py_get data "results" (JList [])) ;;
       ret (Return results))
    (fun e =>
       if is_RequestException e then
         st_warning ;;;
         time_sleep backoff attempt ;;;
         ret (Continue (Some e))
       else raise e).

Definition fetch_fda_approvals (limit : option Z) (retries : Z)
    (backoff : Q) : M json :=
  let limit := AppPatched.effective_limit limit in
  let urls := AppPatched.fda_urls limit in
  s <- for_each urls
         (fun url last_exception =>
            for_each (py_range 1 (retries + 1))
                     (fda_attempt url backoff) last_exception)
         None ;;
  match s with
  | Return results => ret results
  | Continue last_exception => raise (RuntimeError fda_err_msg last_exception)
  end.

(** One pass of the [try] statement of [fetch_clinical_trials]. *)
Definition trials_attempt (req : Request) (attempt : Z)
    (last_exception : option exn) : M (step json) :=
  try_except
    (response <- requests_get http req ;;
     if negb (fst response =? 200) then
       st_warning ;;;
       time_sleep (3 # 2) attempt ;;;
       ret (Continue (Some (HTTPError (fst response))))
     else
       data <- lift (response_json (snd response)) ;;
       fields <- lift (py_getitem data "StudyFieldsResponse") ;;
       studies <- lift (py_getitem fields "StudyFields") ;;
       ret (Return studies))
    (fun e =>
       if is_RequestException e then
         st_warning ;;;
         time_sleep (3 # 2) attempt ;;;
         ret (Continue (Some e))
       else raise e).

Definition fetch_clinical_trials (term phase : string) (max_studies : Z)
    (retries : Z) : M json :=
  s <- for_each (py_range 1 (retries + 1))
         (trials_attempt
            (AppPatched.trials_request term phase max_studies)) None ;;
  match s with
  | Return studies => ret studies
  | Continue last_exception =>
      raise (RuntimeError AppPatched.trials_err_msg last_exception)
  end.

Definition parse_fda := Normalize.parse_fda to_datetime.
Definition parse_trials := Normalize.parse_trials_v1 to_datetime.

(** Lines 123-130: the regulatory source. *)
Definition load_fda (fda_limit : Z) : M DataFrame :=
  try_except
    (fda_raw <- fetch_fda_approvals (Some fda_limit) 3 (3 # 2) ;;
     fda_df <- lift (parse_fda fda_raw) ;;
     st_success ;;;
     ret fda_df)
    (fun e => st_error ;;; ret []).

(** Lines 132-140: one trial-registry fetch per selected phase. *)
Fixpoint load_trials (term : string) (phases : list string)
    (trials_dfs : list DataFrame) : M (list DataFrame) :=
  match phases with
  | [] => ret trials_dfs
  | ph :: rest =>
      trials_dfs' <-
        try_except
          (trials_raw <- fetch_clinical_trials term ph 200 2 ;;
           trials_df <- lift (parse_trials trials_raw ph) ;;
           ret (trials_dfs ++ [trials_df]))
          (fun e => st_error ;;; ret trials_dfs) ;;
      load_trials term rest trials_dfs'
  end.

(** The script from line 123 on, for the values the sidebar widgets
    return. *)
Definition pipeline (term : string) (phases : list string) (fda_limit : Z)
    : M Output :=
  fda_df <- load_fda fda_limit ;;
  trials_dfs <- load_trials term phases [] ;;
  aggregate fda_df trials_dfs.
End Run.

End DashboardV1.

(* ===================================================================== *)
(** * A date parser for compact dates *)
(* ===================================================================== *)

(** An instance of the date-parser parameter, used to run the scenarios:
    it reads the eight-digit [YYYYMMDD] strings of the regulatory API and
    coerces every other value to a missing date. *)
Module CompactDate.

Definition digit (c : ascii) : option Z :=
  let n := Z.of_N (N_of_ascii c) in
  if (48 <=? n) && (n <=? 57) then Some (n - 48) else None.

Fixpoint digits (s : string) (acc : Z) : option Z :=
  match s with
  | EmptyString => Some acc
  | String c rest =>
      match digit c with
      | Some d => digits rest (10 * acc + d)
      | None => None
      end
  end.

Definition is_leap (y : Z) : bool :=
  ((y mod 4 =? 0) && negb (y mod 100 =? 0)) || (y mod 400 =? 0).

Definition days_in_month (y m : Z) : Z :=
  if m =? 2 then (if is_leap y then 29 else 28)
  else if (m =? 4) || (m =? 6) || (m =? 9) || (m =? 11) then 30
  else 31.

Definition parse_compact (s : string) : option Timestamp :=
  if (String.length s =? 8)%nat then
    match digits (substring 0 4 s) 0,
          digits (substring 4 2 s) 0,
          digits (substring 6 2 s) 0 with
    | Some y, Some m, Some d =>
        if (1 <=? y) && (1 <=? m) && (m <=? 12)
           && (1 <=? d) && (d <=? days_in_month y m)
        then Some (mkTimestamp y m d 0)
        else None
    | _, _, _ => None
    end
  else None.

Definition parse_cell (c : date_cell) : option Timestamp :=
  match c with
  | DRaw (JStr s) => parse_compact s
  | DTime t => Some t
  | _ => None
  end.

Definition to_datetime (col : list date_cell) : list (option Timestamp) :=
  map parse_cell col.

End CompactDate.

(* ===================================================================== *)
(** * Specification vocabulary *)
(* ===================================================================== *)

Unset Implicit Arguments.

(** ** Retry loops and traces *)

(** A response that sends the retry loops to the next attempt: a status
    other than 200, or a [requests] exception. *)
Definition is_failure (r : Response) : bool :=
  match r with
  | Reply status _ => negb (status =? 200)
  | Throw e => is_RequestException e
  end.

(** [data.get("results", [])] on a decoded object. *)
Definition results_of (d : list (string * json)) : json :=
  match dict_get d "results" with
  | Some v => v
  | None => JList []
  end.

(** The exception the retry loops remember for a failed attempt. *)
Definition failure_exn (r : Response) : exn :=
  match r with
  | Reply status _ => HTTPError status
  | Throw e => e
  end.

(** [last_exception] after [k] failed attempts that started at request
    number [n0], when the [n]-th request leaves [f n]. *)
Definition last_after (f : nat -> exn) (last : option exn) (n0 k : nat)
    : option exn :=
  match k with
  | O => last
  | S j => Some (f (n0 + j)%nat)
  end.

(** The requests of a trace, oldest first. *)
Fixpoint requests_of (tr : Trace) : list Request :=
  match tr with
  | [] => []
  | EvGet r :: rest => requests_of rest ++ [r]
  | _ :: rest => requests_of rest
  end.

(** [tr'] continues [tr] with events that all satisfy [P]. *)
Definition extends (P : Event -> Prop) (tr tr' : Trace) : Prop :=
  exists evs, tr' = evs ++ tr /\ Forall P evs.

(** The first [k] requests from number [n0] on, sent as [req], fail. *)
Definition fails_first (http : World) (req : Request) (n0 k : nat) : Prop :=
  forall i, (i < k)%nat -> is_failure (http (n0 + i)%nat req) = true.

(** Every event that is a request is the request [req]. *)
Definition only_request (req : Request) (e : Event) : Prop :=
  is_get e = true -> e = EvGet req.

(** A duration [base ** attempt] that [time.sleep] accepts whichever way
    the power is computed: between 0 and [2 ** 33] seconds, well inside
    [max_sleep]. *)
Definition quiet_sleep (base : Q) (attempt : Z) : bool :=
  Qle_bool 0 (Qpower base attempt)
  && Qle_bool (Qpower base attempt) (8589934592 # 1).

(** The sleeps after the attempts 1 to [retries] are all accepted. *)
Definition quiet_sleeps (base : Q) (retries : Z) : Prop :=
  forall attempt, 1 <= attempt <= retries -> quiet_sleep base attempt = true.

(** The number of requests of a trace that went to [url]. *)
Definition requests_at (url : string) (tr : Trace) : nat :=
  List.length
    (filter (fun e => match e with
                      | EvGet r => (req_url r =? url)%string
                      | _ => false
                      end) tr).

(** ** Response payloads and the limit *)

(** What [response.json()["StudyFieldsResponse"]["StudyFields"]] gives
    on a decoded object. *)
Definition study_fields (d : list (string * json)) : result json :=
  rbind (py_getitem (JDict d) "StudyFieldsResponse")
        (fun fields => py_getitem fields "StudyFields").

(** A decoded object without the keys the trial-registry client reads:
    no [StudyFieldsResponse], or one that is an object without
    [StudyFields]. *)
Definition lacks_study_fields (d : list (string * json)) (key : string)
    : Prop :=
  (dict_get d "StudyFieldsResponse" = None /\ key = "StudyFieldsResponse")
  \/ (exists d', dict_get d "StudyFieldsResponse" = Some (JDict d')
                 /\ dict_get d' "StudyFields" = None
                 /\ key = "StudyFields").

(** The clamp the specification words: a value outside 1..100 goes to the
    nearest bound. *)
Definition clamp_to_range (n : Z) : Z := Z.max 1 (Z.min n 100).

(** Every request among the events goes to one of [urls]. *)
Definition requests_to (urls : list string) (e : Event) : Prop :=
  is_get e = true ->
  exists url, In url urls /\ e = EvGet (AppPatched.fda_request url).

(** ** Normalized records *)

(** The row carries a parsed date. *)
Definition has_time (r : record) : Prop := exists t, date r = DTime t.

(** The rows kept from [records] for a converted date column: those whose
    position holds a date, with that date. *)
Fixpoint parsed_rows (records : list record) (col : list (option Timestamp))
    : DataFrame :=
  match records, col with
  | r :: rs, Some t :: cs => set_date r (DTime t) :: parsed_rows rs cs
  | _ :: rs, None :: cs => parsed_rows rs cs
  | _, _ => []
  end.

(** [v.get(k, default)] read as a total function: anything that is not an
    object has no keys. *)
Definition field (v : json) (k : string) (default : json) : json :=
  match v with
  | JDict items =>
      match dict_get items k with
      | Some x => x
      | None => default
      end
  | _ => default
  end.

Definition is_dictb (v : json) : bool :=
  match v with JDict _ => true | _ => false end.

(** A raw regulatory entry of the documented shape: an object whose
    [submissions], when present, is a list of objects. *)
Definition wf_entry (entry : json) : bool :=
  is_dictb entry
  && match field entry "submissions" (JList []) with
     | JList subs => forallb is_dictb subs
     | _ => false
     end.

Definition submissions_of (entry : json) : list json :=
  match field entry "submissions" (JList []) with
  | JList subs => subs
  | _ => []
  end.

(** The submission carries a non-empty date. *)
Definition dated (sub : json) : bool :=
  truthy (field sub "submission_date" JNull).

(** The record of one dated submission, with the sponsor of its parent. *)
Definition fda_record (sponsor : json) (sub : json) : record :=
  mkRecord "FDA" sponsor (DRaw (field sub "submission_date" JNull))
           JNull JNull
           (Some (field sub "submission_type" JNull))
           (Some (field sub "submission_class_code" JNull)).

(** One record per dated submission of the entry. *)
Definition entry_records (entry : json) : list record :=
  map (fda_record (field entry "sponsor_name" JNull))
      (filter dated (submissions_of entry)).

Definition dated_records (entries : list json) : list record :=
  flat_map entry_records entries.

Definition is_some {A} (o : option A) : bool :=
  match o with Some _ => true | None => false end.

(** ** Raw inputs used in the scenarios *)

(** The regulatory scenario: one entry of sponsor Acme with one original
    submission dated 20230115. *)
Definition acme_entry : json :=
  JDict [("sponsor_name", JStr "Acme");
         ("submissions",
          JList [JDict [("submission_date", JStr "20230115");
                        ("submission_type", JStr "ORIG")]])].

Definition acme_record : record :=
  mkRecord "FDA" (JStr "Acme") (DTime (mkTimestamp 2023 1 15 0))
           JNull JNull (Some (JStr "ORIG")) (Some JNull).

(** An entry whose only submission has a date that is not a date. *)
Definition undated_entry : json :=
  JDict [("sponsor_name", JStr "Acme");
         ("submissions",
          JList [JDict [("submission_date", JStr "not-a-date");
                        ("submission_type", JStr "ORIG")]])].

(** A trial as the registry returns it when the study has no completion
    date: the field is present and empty. *)
Definition open_trial : json :=
  JDict [("NCTId", JList [JStr "NCT00000001"]);
         ("Sponsors", JList [JStr "Acme"]);
         ("CompletionDate", JList [])].

(** ** Month buckets and count tables *)

(** The month bucket of a row: its date truncated to year and month. *)
Definition bucket (r : record) : option Period :=
  match date r with
  | DTime t => Some (mkPeriod (ts_year t) (ts_month t))
  | _ => None
  end.

(** The number of rows of month [m] and source [s]. *)
Definition rows_in (m : Period) (s : string) (df : DataFrame) : nat :=
  List.length
    (filter (fun r =>
               match bucket r with
               | Some p => (p_year p =? p_year m) && (p_month p =? p_month m)
                           && (source r =? s)%string
               | None => false
               end) df).

(** Rows in month order. *)
Definition month_ascending (t : list ((Period * string) * nat)) : Prop :=
  StronglySorted
    (fun a b => period_compare (fst (fst a)) (fst (fst b)) <> Gt) t.

(** A scenario: January 2023 has two regulatory rows and one trial row,
    February 2023 has two trial rows. *)
Definition fda_row (y m d : Z) : record :=
  mkRecord "FDA" (JStr "Acme") (DTime (mkTimestamp y m d 0))
           JNull JNull (Some (JStr "ORIG")) (Some JNull).

Definition trial_row (y m d : Z) : record :=
  mkRecord "ClinicalTrials.gov" (JStr "Acme") (DTime (mkTimestamp y m d 0))
           (JStr "Phase 3") (JStr "NCT00000001") (Some JNull) (Some JNull).

Definition scenario_fda : DataFrame :=
  [fda_row 2023 1 15; fda_row 2023 1 20].

Definition scenario_trials : list DataFrame :=
  [[trial_row 2023 1 31]; [trial_row 2023 2 1; trial_row 2023 2 28]].

(** ** Sources of a run *)

(** One source of [app_patched.py]: fetch it, then normalize what was
    fetched. *)
Definition patched_fda_source
    (to_datetime : list date_cell -> list (option Timestamp))
    (http : World) (fda_limit : Z) : M DataFrame :=
  bind (AppPatched.fetch_fda_approvals http (Some fda_limit) 3 (3 # 2))
       (fun fda_raw => lift (AppPatched.parse_fda to_datetime fda_raw)).

Definition patched_trial_source
    (to_datetime : list date_cell -> list (option Timestamp))
    (http : World) (term ph : string) : M DataFrame :=
  bind (AppPatched.fetch_clinical_trials http term ph 200 2)
       (fun trials_raw => lift (AppPatched.parse_trials to_datetime trials_raw ph)).

(** One source of [pharma_dashboard_v1.py]. *)
Definition v1_fda_source
    (to_datetime : list date_cell -> list (option Timestamp))
    (http : World) (fda_limit : Z) : M DataFrame :=
  bind (DashboardV1.fetch_fda_approvals http (Some fda_limit) 3 (3 # 2))
       (fun fda_raw => lift (DashboardV1.parse_fda to_datetime fda_raw)).

Definition v1_trial_source
    (to_datetime : list date_cell -> list (option Timestamp))
    (http : World) (term ph : string) : M DataFrame :=
  bind (DashboardV1.fetch_clinical_trials http term ph 200 2)
       (fun trials_raw => lift (DashboardV1.parse_trials to_datetime trials_raw ph)).

Definition is_notice (e : Event) : Prop :=
  match e with EvNotice _ => True | _ => False end.

(** [tr'] is [tr] followed by user notices only. *)
Definition notices (tr tr' : Trace) : Prop := extends is_notice tr tr'.

(** Every source of the list is run, in order, each from the trace the
    previous one left (user notices apart), whatever the outcome of the
    previous ones; [outs] are the outcomes. *)
Inductive source_runs
    : list (M DataFrame) -> Trace -> list (result DataFrame) -> Trace -> Prop :=
| runs_nil tr : source_runs [] tr [] tr
| runs_cons src srcs tr r tr1 tr2 outs tr3 :
    src tr = (r, tr1) ->
    notices tr1 tr2 ->
    source_runs srcs tr2 outs tr3 ->
    source_runs (src :: srcs) tr (r :: outs) tr3.

(** The record sets of the sources that succeeded. *)
Definition frames_of (outs : list (result DataFrame)) : list DataFrame :=
  flat_map (fun r => match r with Ok df => [df] | Raise _ => [] end) outs.

(** Their concatenation. *)
Definition successes (outs : list (result DataFrame)) : DataFrame :=
  List.concat (frames_of outs).

(** ** Upstream behaviours used in the scenarios *)

Definition scenario_studies : json :=
  JList [JDict [("NCTId", JList [JStr "NCT00000001"]);
                ("Sponsors", JList [JStr "Acme"]);
                ("CompletionDate", JList [JStr "20231231"])]].

(** A response body that serves both clients. *)
Definition scenario_body : list (string * json) :=
  [("results", JList [acme_entry]);
   ("StudyFieldsResponse", JDict [("StudyFields", scenario_studies)])].

(** Every request is answered with status 500. *)
Definition down_world : World := fun _ _ => Reply 500 None.

(** The first two requests are answered with status 503, the later ones
    with status 200 and the scenario body. *)
Definition flaky_world : World :=
  fun n _ => if (n <? 2)%nat then Reply 503 None
             else Reply 200 (Some (JDict scenario_body)).

(** What each service answers when it is up: openFDA an object with
    [results] only, the trial registry an object with
    [StudyFieldsResponse] only. *)
Definition openfda_body : list (string * json) :=
  [("results", JList [acme_entry])].

Definition registry_body : list (string * json) :=
  [("StudyFieldsResponse", JDict [("StudyFields", scenario_studies)])].

(** The first two requests are answered with status 503; from the third
    on each service answers with its own body. *)
Definition flaky_services : World :=
  fun n req =>
    if (n <? 2)%nat then Reply 503 None
    else if (req_url req
             =? "https://clinicaltrials.gov/api/query/study_fields")%string
    then Reply 200 (Some (JDict registry_body))
    else Reply 200 (Some (JDict openfda_body)).

(** The first request times out; the later ones are answered with status
    200 and an object that has none of the expected keys. *)
Definition keyless_world : World :=
  fun n _ => if (n <? 1)%nat then Throw Timeout
             else Reply 200 (Some (JDict [("error", JStr "not found")])).

(** The regulatory service is down, the trial registry answers. *)
Definition fda_down_world : World :=
  fun _ req =>
    if (req_url req =? "https://clinicaltrials.gov/api/query/study_fields")%string
    then Reply 200 (Some (JDict scenario_body))
    else Reply 500 None.

(** ** Count tables over an ordered key *)

Section Tables.
Variable K : Type.
Variable cmp : K -> K -> comparison.

(** Rows in strictly increasing key order. *)
Definition key_lt (x y : K * nat) : Prop := cmp (fst x) (fst y) = Lt.
Definition increasing (t : list (K * nat)) : Prop :=
  StronglySorted key_lt t.

(** The count a table gives a key; 0 when the key has no row. *)
Definition count (k : K) (t : list (K * nat)) : nat :=
  match lookup cmp k t with
  | Some n => n
  | None => 0%nat
  end.

Definition positive (t : list (K * nat)) : Prop :=
  Forall (fun kn => (0 < snd kn)%nat) t.
End Tables.

Arguments key_lt {K} cmp x y.
Arguments increasing {K} cmp t.
Arguments count {K} cmp k t.
Arguments positive {K} t.

(** ** Sleeps, trial records and totals *)

(** The sleeps of a trace, oldest first, each as base and exponent. *)
Fixpoint sleeps_of (tr : Trace) : list (Q * Z) :=
  match tr with
  | [] => []
  | EvSleep base attempt :: rest => sleeps_of rest ++ [(base, attempt)]
  | _ :: rest => sleeps_of rest
  end.

(** A field of a raw trial of the documented shape: absent, or a non-empty
    list of values. *)
Definition wf_trial_field (trial : json) (k : string) : bool :=
  match trial with
  | JDict items =>
      match dict_get items k with
      | None => true
      | Some (JList (_ :: _)) => true
      | Some _ => false
      end
  | _ => false
  end.

Definition wf_trial (trial : json) : bool :=
  wf_trial_field trial "NCTId"
  && wf_trial_field trial "Sponsors"
  && wf_trial_field trial "CompletionDate".

(** The first value of a field of a trial, the empty string when the field
    is absent. *)
Definition first_value (trial : json) (k : string) : json :=
  match field trial k (JList [JStr ""]) with
  | JList (x :: _) => x
  | _ => JStr ""
  end.

(** The trial has a completion date. *)
Definition completed (trial : json) : bool :=
  truthy (first_value trial "CompletionDate").

(** The record of one completed trial. *)
Definition trial_record (submission : option json) (phase : string)
    (trial : json) : record :=
  mkRecord "ClinicalTrials.gov" (first_value trial "Sponsors")
           (DRaw (first_value trial "CompletionDate"))
           (JStr phase) (first_value trial "NCTId")
           submission submission.

(** A row a regulatory normalizer emits, the date apart. *)
Definition fda_shaped (r : record) : Prop :=
  source r = "FDA" /\ phase r = JNull /\ trial_id r = JNull.

(** A row a trial normalizer emits for [ph], the date apart. *)
Definition trial_shaped (ph : string) (r : record) : Prop :=
  source r = "ClinicalTrials.gov" /\ phase r = JStr ph.

(** The first three requests are answered with status 503, the later ones
    with status 200 and the scenario body. *)
Definition primary_down_world : World :=
  fun n _ => if (n <? 3)%nat then Reply 503 None
             else Reply 200 (Some (JDict scenario_body)).

(** Every request is answered with status 200 and a JSON list. *)
Definition list_world : World :=
  fun _ _ => Reply 200 (Some (JList [JStr "unexpected"])).

(** Every request is answered with the given status and the scenario
    body. *)
Definition status_world (status : Z) : World :=
  fun _ _ => Reply status (Some (JDict scenario_body)).

(** The rows a source contributes: its record set, nothing when it
    raised. *)
Definition rows_of (out : result DataFrame) : DataFrame :=
  match out with
  | Ok df => df
  | Raise _ => []
  end.

(** One source of [app.py]: fetch it, then normalize what was fetched. *)
Definition app_fda_source
    (to_datetime : list date_cell -> list (option Timestamp))
    (http : World) (fda_limit : Z) : M DataFrame :=
  bind (App.fetch_fda_approvals http fda_limit)
       (fun fda_raw => lift (App.parse_fda to_datetime fda_raw)).

Definition app_trial_source
    (to_datetime : list date_cell -> list (option Timestamp))
    (http : World) (term ph : string) : M DataFrame :=
  bind (App.fetch_clinical_trials http term ph 200)
       (fun trials_raw => lift (App.parse_trials to_datetime trials_raw ph)).

(** The sum of the counts of a table. *)
Definition total {K : Type} (t : list (K * nat)) : nat :=
  fold_right (fun kn acc => (snd kn + acc)%nat) 0%nat t.

(* ===================================================================== *)
(** * Loops, ranges and traces *)
(* ===================================================================== *)

Lemma py_range_length lo hi :
  List.length (py_range lo hi) = Z.to_nat (hi - lo).
Proof. unfold py_range. now rewrite length_map, length_seq. Qed.

Lemma py_range_nil lo hi : hi <= lo -> py_range lo hi = [].
Proof.
  intros H. unfold py_range.
  replace (Z.to_nat (hi - lo)) with O by lia. reflexivity.
Qed.

Lemma py_range_cons lo hi :
  lo < hi -> py_range lo hi = lo :: py_range (lo + 1) hi.
Proof.
  intros H. unfold py_range.
  replace (Z.to_nat (hi - lo)) with (S (Z.to_nat (hi - (lo + 1)))) by lia.
  cbn [seq map]. f_equal; [lia|].
  rewrite <- seq_shift, map_map.
  apply map_ext. intros i. lia.
Qed.

Lemma py_range_snoc lo hi :
  lo < hi -> py_range lo hi = py_range lo (hi - 1) ++ [hi - 1].
Proof.
  intros H. unfold py_range.
  replace (Z.to_nat (hi - lo)) with (S (Z.to_nat (hi - 1 - lo))) by lia.
  rewrite seq_S, map_app. cbn [map]. do 2 f_equal. lia.
Qed.

Lemma py_range_app lo mid hi :
  lo <= mid <= hi -> py_range lo hi = py_range lo mid ++ py_range mid hi.
Proof.
  intros H. remember (Z.to_nat (mid - lo)) as n eqn:Hn.
  revert lo H Hn. induction n as [|n IH]; intros lo H Hn.
  - replace mid with lo by lia. now rewrite (py_range_nil lo lo) by lia.
  - rewrite (py_range_cons lo hi), (py_range_cons lo mid) by lia.
    cbn. f_equal. apply IH; lia.
Qed.

Lemma n_requests_cons e tr :
  n_requests (e :: tr) = ((if is_get e then 1 else 0) + n_requests tr)%nat.
Proof. unfold n_requests. cbn [filter]. now destruct (is_get e). Qed.

Lemma extends_refl P tr : extends P tr tr.
Proof. exists []. split; [reflexivity | constructor]. Qed.

Lemma extends_cons (P : Event -> Prop) e tr tr' :
  P e -> extends P tr tr' -> extends P tr (e :: tr').
Proof.
  intros He (evs & -> & Hall). exists (e :: evs).
  split; [reflexivity | now constructor].
Qed.

Lemma extends_trans P tr1 tr2 tr3 :
  extends P tr1 tr2 -> extends P tr2 tr3 -> extends P tr1 tr3.
Proof.
  intros (e1 & -> & H1) (e2 & -> & H2). exists (e2 ++ e1).
  split; [now rewrite app_assoc | now apply Forall_app].
Qed.

Lemma extends_weaken (P Q : Event -> Prop) tr tr' :
  (forall e, P e -> Q e) -> extends P tr tr' -> extends Q tr tr'.
Proof.
  intros HPQ (evs & -> & Hall). exists evs. split; [reflexivity|].
  eapply Forall_impl; eauto.
Qed.

Lemma requests_of_app tr1 tr2 :
  requests_of (tr1 ++ tr2) = requests_of tr2 ++ requests_of tr1.
Proof.
  induction tr1 as [|e tr1 IH]; cbn.
  - now rewrite app_nil_r.
  - destruct e; cbn; rewrite IH; auto using app_assoc.
Qed.

Lemma py_range_in lo hi x : In x (py_range lo hi) -> lo <= x < hi.
Proof.
  unfold py_range. rewrite in_map_iff. intros (i & <- & Hi).
  apply in_seq in Hi. lia.
Qed.

(** A duration inside the quiet range is accepted. *)
Lemma quiet_sleep_outcome base attempt :
  quiet_sleep base attempt = true -> sleep_outcome base attempt = None.
Proof.
  unfold quiet_sleep, sleep_outcome. cbn zeta.
  rewrite andb_true_iff, !Qle_bool_iff. intros [H0 H1].
  assert (Hmax : Qle (Qpower base attempt) max_sleep).
  { eapply Qle_trans; [exact H1|]. unfold Qle, max_sleep. cbn. lia. }
  assert (Hmin : Qle (Qopp max_sleep) (Qpower base attempt)).
  { eapply Qle_trans; [|exact H0]. unfold Qle, max_sleep. cbn. lia. }
  apply Qle_bool_iff in Hmax, Hmin, H0. now rewrite Hmax, Hmin, H0.
Qed.

Lemma quiet_sleeps_range base retries k :
  quiet_sleeps base retries -> k <= retries ->
  Forall (fun attempt => sleep_outcome base attempt = None)
         (py_range 1 (k + 1)).
Proof.
  intros H Hk. apply Forall_forall. intros a Ha.
  apply py_range_in in Ha. apply quiet_sleep_outcome, H. lia.
Qed.

Lemma sleep_outcome_cases base attempt :
  sleep_outcome base attempt = None
  \/ sleep_outcome base attempt = Some ValueError
  \/ sleep_outcome base attempt = Some OverflowError.
Proof.
  unfold sleep_outcome. cbn zeta.
  destruct (negb _ || negb _); [now right; right|].
  destruct (negb _); [now right; left | now left].
Qed.

(** With base 1.5, the base of the trial-registry client and of the
    drivers' regulatory fetch, the sleeps up to the 56th attempt are
    accepted; the 57th would last longer than [max_sleep]. *)
Lemma trial_sleeps_quiet retries :
  retries <= 56 -> quiet_sleeps (3 # 2) retries.
Proof.
  intros Hr a Ha.
  assert (Hall : forallb (quiet_sleep (3 # 2)) (py_range 1 57) = true)
    by (vm_compute; reflexivity).
  rewrite forallb_forall in Hall. apply Hall.
  unfold py_range. apply in_map_iff. exists (Z.to_nat (a - 1)). split.
  - lia.
  - apply in_seq. lia.
Qed.

Lemma trial_sleep_57_refused : sleep_outcome (3 # 2) 57 = Some OverflowError.
Proof. vm_compute. reflexivity. Qed.

Section ForEach.
Context {A X : Type}.
Variable body : X -> option exn -> M (step A).

Lemma for_each_app (xs ys : list X) last tr :
  for_each (xs ++ ys) body last tr =
  match for_each xs body last tr with
  | (Ok (Continue last'), tr') => for_each ys body last' tr'
  | (Ok (Return v), tr') => (Ok (Return v), tr')
  | (Raise e, tr') => (Raise e, tr')
  end.
Proof.
  revert last tr. induction xs as [|x xs IH]; intros last tr; cbn.
  - reflexivity.
  - unfold bind. destruct (body x last tr) as [[[l|v]|e] tr']; cbn; auto.
Qed.

(** If every pass over an item that meets [G], whose request meets [P],
    falls through with the exception [f] of that request, so does the
    whole loop. *)
Lemma for_each_all_continue (P : nat -> Prop) (G : X -> Prop)
    (f : nat -> exn) :
  (forall x last tr, G x -> P (n_requests tr) ->
     exists tr', body x last tr
                 = (Ok (Continue (Some (f (n_requests tr)))), tr')
                 /\ n_requests tr' = S (n_requests tr)) ->
  forall xs last tr,
    Forall G xs ->
    (forall i, (i < List.length xs)%nat -> P (n_requests tr + i)%nat) ->
    exists tr',
      for_each xs body last tr
      = (Ok (Continue (last_after f last (n_requests tr) (List.length xs))),
         tr')
      /\ n_requests tr' = (n_requests tr + List.length xs)%nat.
Proof.
  intros Hbody. induction xs as [|x xs IH]; intros last tr HG HP.
  - exists tr. cbn. split; [reflexivity | lia].
  - inversion HG as [|? ? Gx Gxs]; subst.
    destruct (Hbody x last tr Gx) as (tr1 & E1 & N1).
    { specialize (HP O). rewrite Nat.add_0_r in HP. apply HP. cbn. lia. }
    destruct (IH (Some (f (n_requests tr))) tr1 Gxs) as (tr2 & E2 & N2).
    { intros i Hi. rewrite N1.
      replace (S (n_requests tr) + i)%nat with (n_requests tr + S i)%nat
        by lia.
      apply HP. cbn. lia. }
    exists tr2. cbn [for_each]. unfold bind at 1. rewrite E1, E2.
    split.
    + do 2 f_equal. rewrite N1.
      destruct xs as [|y ys]; cbn [List.length last_after].
      * now rewrite Nat.add_0_r.
      * now rewrite Nat.add_succ_comm.
    + rewrite N2, N1. cbn. lia.
Qed.

(** After a prefix of passes that all fall through, the loop goes on
    with the rest. *)
Lemma for_each_prefix (P : nat -> Prop) (G : X -> Prop) (f : nat -> exn) :
  (forall x last tr, G x -> P (n_requests tr) ->
     exists tr', body x last tr
                 = (Ok (Continue (Some (f (n_requests tr)))), tr')
                 /\ n_requests tr' = S (n_requests tr)) ->
  forall xs ys last tr,
    Forall G xs ->
    (forall i, (i < List.length xs)%nat -> P (n_requests tr + i)%nat) ->
    exists tr',
      for_each (xs ++ ys) body last tr
      = for_each ys body
          (last_after f last (n_requests tr) (List.length xs)) tr'
      /\ n_requests tr' = (n_requests tr + List.length xs)%nat.
Proof.
  intros Hbody xs ys last tr HG HP.
  destruct (for_each_all_continue P G f Hbody xs last tr HG HP)
    as (tr' & E & N).
  exists tr'. split; [|exact N]. now rewrite for_each_app, E.
Qed.

(** A loop only leaves the events its passes leave. *)
Lemma for_each_extends (P : Event -> Prop) (xs : list X) :
  (forall x last tr, In x xs -> extends P tr (snd (body x last tr))) ->
  forall last tr, extends P tr (snd (for_each xs body last tr)).
Proof.
  induction xs as [|x xs IH]; intros Hbody last tr; cbn.
  - apply extends_refl.
  - unfold bind.
    pose proof (Hbody x last tr (or_introl eq_refl)) as H1.
    destruct (body x last tr) as [[[l|v]|e] tr1]; cbn in *; auto.
    eapply extends_trans; [exact H1|].
    apply IH. intros; apply Hbody; now right.
Qed.
End ForEach.

(* ===================================================================== *)
(** * One attempt of the retry loops *)
(* ===================================================================== *)

Ltac run_attempt :=
  unfold AppPatched.fda_attempt, AppPatched.trials_attempt,
         DashboardV1.fda_attempt, DashboardV1.trials_attempt,
         try_except, bind, requests_get, st_warning, st_error, time_sleep,
         emit, ret, raise, lift.

Ltac trace_steps :=
  repeat (apply extends_cons; [unfold only_request; cbn; congruence|]);
  apply extends_refl.

Ltac sleep_cases :=
  repeat match goal with
         | |- context [sleep_outcome ?b ?a] =>
             let E := fresh "E" in
             destruct (sleep_outcome_cases b a) as [E|[E|E]];
             rewrite E; cbn
         end.

Section Attempts.
Variable http : World.

Lemma patched_fda_attempt_fails url backoff attempt last tr :
  sleep_outcome backoff attempt = None ->
  is_failure (http (n_requests tr) (AppPatched.fda_request url)) = true ->
  exists tr',
    AppPatched.fda_attempt http url backoff attempt last tr
    = (Ok (Continue (Some (failure_exn
             (http (n_requests tr) (AppPatched.fda_request url))))), tr')
    /\ n_requests tr' = S (n_requests tr).
Proof.
  intros Hq. run_attempt. rewrite Hq.
  destruct (http (n_requests tr) (AppPatched.fda_request url))
    as [status body|e]; cbn; intros H.
  - rewrite H. eexists; split; [reflexivity|].
    now rewrite !n_requests_cons.
  - destruct e; cbn in *; try discriminate;
      (eexists; split; [reflexivity | now rewrite !n_requests_cons]).
Qed.

Lemma patched_trials_attempt_fails req attempt last tr :
  sleep_outcome (3 # 2) attempt = None ->
  is_failure (http (n_requests tr) req) = true ->
  exists tr',
    AppPatched.trials_attempt http req attempt last tr
    = (Ok (Continue (Some (failure_exn (http (n_requests tr) req)))), tr')
    /\ n_requests tr' = S (n_requests tr).
Proof.
  intros Hq. run_attempt. rewrite Hq.
  destruct (http (n_requests tr) req) as [status body|e]; cbn; intros H.
  - rewrite H. eexists; split; [reflexivity|].
    now rewrite !n_requests_cons.
  - destruct e; cbn in *; try discriminate;
      (eexists; split; [reflexivity | now rewrite !n_requests_cons]).
Qed.

Lemma v1_fda_attempt_fails url backoff attempt last tr :
  sleep_outcome backoff attempt = None ->
  is_failure (http (n_requests tr) (AppPatched.fda_request url)) = true ->
  exists tr',
    DashboardV1.fda_attempt http url backoff attempt last tr
    = (Ok (Continue (Some (failure_exn
             (http (n_requests tr) (AppPatched.fda_request url))))), tr')
    /\ n_requests tr' = S (n_requests tr).
Proof.
  intros Hq. run_attempt. rewrite Hq.
  destruct (http (n_requests tr) (AppPatched.fda_request url))
    as [status body|e]; cbn; intros H.
  - rewrite H. eexists; split; [reflexivity|].
    now rewrite !n_requests_cons.
  - destruct e; cbn in *; try discriminate;
      (eexists; split; [reflexivity | now rewrite !n_requests_cons]).
Qed.

Lemma v1_trials_attempt_fails req attempt last tr :
  sleep_outcome (3 # 2) attempt = None ->
  is_failure (http (n_requests tr) req) = true ->
  exists tr',
    DashboardV1.trials_attempt http req attempt last tr
    = (Ok (Continue (Some (failure_exn (http (n_requests tr) req)))), tr')
    /\ n_requests tr' = S (n_requests tr).
Proof.
  intros Hq. run_attempt. rewrite Hq.
  destruct (http (n_requests tr) req) as [status body|e]; cbn; intros H.
  - rewrite H. eexists; split; [reflexivity|].
    now rewrite !n_requests_cons.
  - destruct e; cbn in *; try discriminate;
      (eexists; split; [reflexivity | now rewrite !n_requests_cons]).
Qed.

(** A 200 response carrying a JSON object ends the regulatory fetch with
    the object's [results], or [[]] when it has none. *)
Lemma patched_fda_attempt_ok url backoff attempt last tr d :
  http (n_requests tr) (AppPatched.fda_request url)
    = Reply 200 (Some (JDict d)) ->
  AppPatched.fda_attempt http url backoff attempt last tr
  = (Ok (Return (results_of d)),
     EvGet (AppPatched.fda_request url) :: tr).
Proof.
  intros H. run_attempt. rewrite H. cbn. unfold results_of.
  now destruct (dict_get d "results").
Qed.

Lemma v1_fda_attempt_ok url backoff attempt last tr d :
  http (n_requests tr) (AppPatched.fda_request url)
    = Reply 200 (Some (JDict d)) ->
  DashboardV1.fda_attempt http url backoff attempt last tr
  = (Ok (Return (results_of d)),
     EvGet (AppPatched.fda_request url) :: tr).
Proof.
  intros H. run_attempt. rewrite H. cbn. unfold results_of.
  now destruct (dict_get d "results").
Qed.

(** A 200 response carrying a JSON object ends the trial-registry fetch:
    with the study list, or with the exception of the failed lookup. *)
Lemma patched_trials_attempt_200 req attempt last tr d :
  http (n_requests tr) req = Reply 200 (Some (JDict d)) ->
  AppPatched.trials_attempt http req attempt last tr
  = (match study_fields d with
     | Ok v => Ok (Return v)
     | Raise e => Raise e
     end,
     EvGet req :: tr).
Proof.
  intros H. run_attempt. rewrite H. cbn. unfold study_fields. cbn.
  destruct (dict_get d "StudyFieldsResponse") as [fields|]; cbn;
    [|reflexivity].
  destruct fields; cbn; try reflexivity.
  destruct (dict_get items "StudyFields"); reflexivity.
Qed.

Lemma v1_trials_attempt_200 req attempt last tr d :
  http (n_requests tr) req = Reply 200 (Some (JDict d)) ->
  DashboardV1.trials_attempt http req attempt last tr
  = (match study_fields d with
     | Ok v => Ok (Return v)
     | Raise e => Raise e
     end,
     EvGet req :: tr).
Proof.
  intros H. run_attempt. rewrite H. cbn. unfold study_fields. cbn.
  destruct (dict_get d "StudyFieldsResponse") as [fields|]; cbn;
    [|reflexivity].
  destruct fields; cbn; try reflexivity.
  destruct (dict_get items "StudyFields"); reflexivity.
Qed.

(** The lookups on a decoded object raise [KeyError] or [TypeError],
    never a [requests] exception. *)
Lemma study_fields_exn d e :
  study_fields d = Raise e -> is_RequestException e = false.
Proof.
  unfold study_fields. cbn.
  destruct (dict_get d "StudyFieldsResponse") as [fields|]; cbn.
  - destruct fields; cbn; try (intros [= <-]; reflexivity).
    destruct (dict_get items "StudyFields"); intros [= <-]; reflexivity.
  - intros [= <-]; reflexivity.
Qed.

(** Every request an attempt of the regulatory fetch issues goes to its
    [url]. *)
Lemma patched_fda_attempt_extends url backoff attempt last tr :
  extends (only_request (AppPatched.fda_request url)) tr
    (snd (AppPatched.fda_attempt http url backoff attempt last tr)).
Proof.
  run_attempt.
  destruct (http (n_requests tr) (AppPatched.fda_request url))
    as [status body|e]; cbn.
  - destruct (status =? 200); cbn; [|sleep_cases; trace_steps].
    destruct body as [data|]; cbn; [|sleep_cases; trace_steps].
    destruct (py_get data "results" (JList [])) as [v|e]; cbn;
      [trace_steps|].
    destruct e; cbn; sleep_cases; trace_steps.
  - destruct e; cbn; sleep_cases; trace_steps.
Qed.

Lemma v1_fda_attempt_extends url backoff attempt last tr :
  extends (only_request (AppPatched.fda_request url)) tr
    (snd (DashboardV1.fda_attempt http url backoff attempt last tr)).
Proof.
  run_attempt.
  destruct (http (n_requests tr) (AppPatched.fda_request url))
    as [status body|e]; cbn.
  - destruct (status =? 200); cbn; [|sleep_cases; trace_steps].
    destruct body as [data|]; cbn; [|sleep_cases; trace_steps].
    destruct (py_get data "results" (JList [])) as [v|e]; cbn;
      [trace_steps|].
    destruct e; cbn; sleep_cases; trace_steps.
  - destruct e; cbn; sleep_cases; trace_steps.
Qed.
End Attempts.

(* ===================================================================== *)
(** * The source clients *)
(* ===================================================================== *)

Section Clients.
Variable http : World.

Lemma retries_length retries :
  List.length (py_range 1 (retries + 1)) = Z.to_nat retries.
Proof. rewrite py_range_length. f_equal. lia. Qed.

(** The retry loop of the patched regulatory client on one URL, when
    every attempt fails. *)
Lemma patched_fda_loop_fails url backoff retries last tr :
  quiet_sleeps backoff retries ->
  fails_first http (AppPatched.fda_request url) (n_requests tr)
              (Z.to_nat retries) ->
  exists tr',
    for_each (py_range 1 (retries + 1))
             (AppPatched.fda_attempt http url backoff) last tr
    = (Ok (Continue
             (last_after
                (fun n => failure_exn (http n (AppPatched.fda_request url)))
                last (n_requests tr) (Z.to_nat retries))), tr')
    /\ n_requests tr' = (n_requests tr + Z.to_nat retries)%nat.
Proof.
  intros Hq H. rewrite <- (retries_length retries).
  apply for_each_all_continue
    with (P := fun n =>
                 is_failure (http n (AppPatched.fda_request url)) = true)
         (G := fun attempt => sleep_outcome backoff attempt = None).
  - intros x l t Hx Ht. now apply patched_fda_attempt_fails.
  - apply quiet_sleeps_range with (retries := retries); [exact Hq | lia].
  - intros i Hi. apply H. now rewrite <- retries_length.
Qed.

Lemma v1_fda_loop_fails url backoff retries last tr :
  quiet_sleeps backoff retries ->
  fails_first http (AppPatched.fda_request url) (n_requests tr)
              (Z.to_nat retries) ->
  exists tr',
    for_each (py_range 1 (retries + 1))
             (DashboardV1.fda_attempt http url backoff) last tr
    = (Ok (Continue
             (last_after
                (fun n => failure_exn (http n (AppPatched.fda_request url)))
                last (n_requests tr) (Z.to_nat retries))), tr')
    /\ n_requests tr' = (n_requests tr + Z.to_nat retries)%nat.
Proof.
  intros Hq H. rewrite <- (retries_length retries).
  apply for_each_all_continue
    with (P := fun n =>
                 is_failure (http n (AppPatched.fda_request url)) = true)
         (G := fun attempt => sleep_outcome backoff attempt = None).
  - intros x l t Hx Ht. now apply v1_fda_attempt_fails.
  - apply quiet_sleeps_range with (retries := retries); [exact Hq | lia].
  - intros i Hi. apply H. now rewrite <- retries_length.
Qed.

Lemma patched_trials_loop_fails req retries last tr :
  quiet_sleeps (3 # 2) retries ->
  fails_first http req (n_requests tr) (Z.to_nat retries) ->
  exists tr',
    for_each (py_range 1 (retries + 1))
             (AppPatched.trials_attempt http req) last tr
    = (Ok (Continue
             (last_after (fun n => failure_exn (http n req))
                         last (n_requests tr) (Z.to_nat retries))), tr')
    /\ n_requests tr' = (n_requests tr + Z.to_nat retries)%nat.
Proof.
  intros Hq H. rewrite <- (retries_length retries).
  apply for_each_all_continue
    with (P := fun n => is_failure (http n req) = true)
         (G := fun attempt => sleep_outcome (3 # 2) attempt = None).
  - intros x l t Hx Ht. now apply patched_trials_attempt_fails.
  - apply quiet_sleeps_range with (retries := retries); [exact Hq | lia].
  - intros i Hi. apply H. now rewrite <- retries_length.
Qed.

Lemma v1_trials_loop_fails req retries last tr :
  quiet_sleeps (3 # 2) retries ->
  fails_first http req (n_requests tr) (Z.to_nat retries) ->
  exists tr',
    for_each (py_range 1 (retries + 1))
             (DashboardV1.trials_attempt http req) last tr
    = (Ok (Continue
             (last_after (fun n => failure_exn (http n req))
                         last (n_requests tr) (Z.to_nat retries))), tr')
    /\ n_requests tr' = (n_requests tr + Z.to_nat retries)%nat.
Proof.
  intros Hq H. rewrite <- (retries_length retries).
  apply for_each_all_continue
    with (P := fun n => is_failure (http n req) = true)
         (G := fun attempt => sleep_outcome (3 # 2) attempt = None).
  - intros x l t Hx Ht. now apply v1_trials_attempt_fails.
  - apply quiet_sleeps_range with (retries := retries); [exact Hq | lia].
  - intros i Hi. apply H. now rewrite <- retries_length.
Qed.

(** The attempts [1 .. retries] are the attempts [1 .. k], the attempt
    [k+1], and the rest. *)
Lemma retries_split_at (k : nat) retries :
  Z.of_nat k < retries ->
  exists rest,
    py_range 1 (retries + 1)
    = py_range 1 (Z.of_nat k + 1) ++ (Z.of_nat k + 1) :: rest.
Proof.
  intros H. exists (py_range (Z.of_nat k + 1 + 1) (retries + 1)).
  rewrite (py_range_app 1 (Z.of_nat k + 1) (retries + 1)) by lia.
  now rewrite (py_range_cons (Z.of_nat k + 1)) by lia.
Qed.
End Clients.

(** C2 (app_patched.py).  When every attempt on every candidate URL fails
    (a status other than 200, or a network or timeout error) and the sleep
    after each attempt is accepted (a duration [backoff ** attempt]
    between 0 and [2 ** 33] seconds; for the trial-registry client, whose
    base is 1.5, that is [retries <= 56]), the fetch raises the
    exhaustion [RuntimeError] whose cause is the exception of the last
    attempt, after exactly [retries * 2] requests for the regulatory
    client and [retries * 1] for the trial-registry client. *)
Theorem fetch_exhausted_after_all_attempts :
  forall (http : World) (limit : option Z) (retries : Z) (backoff : Q)
         (term phase : string) (max_studies : Z) (tr : Trace),
    (forall n req, is_failure (http n req) = true) ->
    0 <= retries ->
    let urls := AppPatched.fda_urls (AppPatched.effective_limit limit) in
    let fda_last := AppPatched.fda_request (nth 1 urls "") in
    let trials_req := AppPatched.trials_request term phase max_studies in
    (quiet_sleeps backoff retries ->
     exists tr',
       AppPatched.fetch_fda_approvals http limit retries backoff tr
       = (Raise (RuntimeError AppPatched.fda_err_msg
                   (if retries =? 0 then None
                    else Some (failure_exn
                                 (http (n_requests tr + 2 * Z.to_nat retries - 1)%nat
                                       fda_last)))),
          tr')
       /\ Z.of_nat (n_requests tr') - Z.of_nat (n_requests tr) = retries * 2)
    /\
    (retries <= 56 ->
     exists tr',
       AppPatched.fetch_clinical_trials http term phase max_studies retries tr
       = (Raise (RuntimeError AppPatched.trials_err_msg
                   (if retries =? 0 then None
                    else Some (failure_exn
                                 (http (n_requests tr + Z.to_nat retries - 1)%nat
                                       trials_req)))),
          tr')
       /\ Z.of_nat (n_requests tr') - Z.of_nat (n_requests tr) = retries * 1).
Proof.
  intros http limit retries backoff term phase max_studies tr Hfail Hr.
  cbn zeta. split.
  - intros Hq.
    unfold AppPatched.fetch_fda_approvals, AppPatched.fda_urls.
    cbn [for_each nth]. unfold bind.
    set (u1 := String.append _ _). set (u2 := String.append _ _).
    destruct (patched_fda_loop_fails http u1 backoff retries None tr Hq)
      as (tr1 & E1 & N1); [intros i _; apply Hfail|].
    rewrite E1.
    destruct (patched_fda_loop_fails http u2 backoff retries
                (last_after
                   (fun n => failure_exn (http n (AppPatched.fda_request u1)))
                   None (n_requests tr) (Z.to_nat retries)) tr1 Hq)
      as (tr2 & E2 & N2); [intros i _; apply Hfail|].
    rewrite E2. cbn. unfold raise. exists tr2. split; [|lia].
    do 3 f_equal. rewrite N1.
    destruct (Z.to_nat retries) as [|k] eqn:Hk.
    + replace retries with 0 by lia. reflexivity.
    + destruct (Z.eqb_spec retries 0) as [->|_]; [discriminate|].
      cbn [last_after]. do 3 f_equal. lia.
  - intros Hq. apply trial_sleeps_quiet in Hq.
    unfold AppPatched.fetch_clinical_trials, bind.
    destruct (patched_trials_loop_fails http
                (AppPatched.trials_request term phase max_studies)
                retries None tr Hq)
      as (tr1 & E1 & N1); [intros i _; apply Hfail|].
    rewrite E1. unfold raise. exists tr1. split; [|lia].
    do 3 f_equal.
    destruct (Z.to_nat retries) as [|k] eqn:Hk.
    + replace retries with 0 by lia. reflexivity.
    + destruct (Z.eqb_spec retries 0) as [->|_]; [discriminate|].
      cbn [last_after]. do 3 f_equal. lia.
Qed.

Section FirstSuccess.
Variable http : World.

(** [k] failed attempts, then a 200 response carrying a JSON object:
    the regulatory fetch returns on that attempt. *)
Lemma patched_fda_fetch_200 limit retries backoff tr (k : nat) d :
  let req := AppPatched.fda_request
               (nth 0 (AppPatched.fda_urls (AppPatched.effective_limit limit)) "") in
  Z.of_nat k < retries ->
  quiet_sleeps backoff (Z.of_nat k) ->
  fails_first http req (n_requests tr) k ->
  http (n_requests tr + k)%nat req = Reply 200 (Some (JDict d)) ->
  exists tr1,
    n_requests tr1 = (n_requests tr + k)%nat
    /\ AppPatched.fetch_fda_approvals http limit retries backoff tr
       = (Ok (results_of d), EvGet req :: tr1).
Proof.
  cbn zeta. intros Hk Hq Hfirst H200.
  unfold AppPatched.fetch_fda_approvals, AppPatched.fda_urls in *.
  cbn [for_each nth] in *. unfold bind at 1 2.
  set (u1 := String.append _ _) in *.
  destruct (retries_split_at k retries Hk) as (rest & ->).
  destruct (for_each_prefix (AppPatched.fda_attempt http u1 backoff)
              (fun n => is_failure (http n (AppPatched.fda_request u1)) = true)
              (fun attempt => sleep_outcome backoff attempt = None)
              (fun n => failure_exn (http n (AppPatched.fda_request u1)))
              (fun x l t Hx Ht =>
                 patched_fda_attempt_fails http u1 backoff x l t Hx Ht)
              (py_range 1 (Z.of_nat k + 1)) (Z.of_nat k + 1 :: rest) None tr)
    as (tr1 & E & N).
  { apply quiet_sleeps_range with (retries := Z.of_nat k); [exact Hq | lia]. }
  { intros i Hi. apply Hfirst. rewrite py_range_length in Hi. lia. }
  rewrite py_range_length in N.
  replace (Z.to_nat (Z.of_nat k + 1 - 1)) with k in N by lia.
  exists tr1. split; [exact N|].
  rewrite E. cbn [for_each]. unfold bind at 1.
  rewrite (patched_fda_attempt_ok http u1 backoff _ _ tr1 d)
    by (now rewrite N).
  reflexivity.
Qed.

Lemma v1_fda_fetch_200 limit retries backoff tr (k : nat) d :
  let req := AppPatched.fda_request
               (nth 0 (AppPatched.fda_urls (AppPatched.effective_limit limit)) "") in
  Z.of_nat k < retries ->
  quiet_sleeps backoff (Z.of_nat k) ->
  fails_first http req (n_requests tr) k ->
  http (n_requests tr + k)%nat req = Reply 200 (Some (JDict d)) ->
  exists tr1,
    n_requests tr1 = (n_requests tr + k)%nat
    /\ DashboardV1.fetch_fda_approvals http limit retries backoff tr
       = (Ok (results_of d), EvGet req :: tr1).
Proof.
  cbn zeta. intros Hk Hq Hfirst H200.
  unfold DashboardV1.fetch_fda_approvals, AppPatched.fda_urls in *.
  cbn [for_each nth] in *. unfold bind at 1 2.
  set (u1 := String.append _ _) in *.
  destruct (retries_split_at k retries Hk) as (rest & ->).
  destruct (for_each_prefix (DashboardV1.fda_attempt http u1 backoff)
              (fun n => is_failure (http n (AppPatched.fda_request u1)) = true)
              (fun attempt => sleep_outcome backoff attempt = None)
              (fun n => failure_exn (http n (AppPatched.fda_request u1)))
              (fun x l t Hx Ht =>
                 v1_fda_attempt_fails http u1 backoff x l t Hx Ht)
              (py_range 1 (Z.of_nat k + 1)) (Z.of_nat k + 1 :: rest) None tr)
    as (tr1 & E & N).
  { apply quiet_sleeps_range with (retries := Z.of_nat k); [exact Hq | lia]. }
  { intros i Hi. apply Hfirst. rewrite py_range_length in Hi. lia. }
  rewrite py_range_length in N.
  replace (Z.to_nat (Z.of_nat k + 1 - 1)) with k in N by lia.
  exists tr1. split; [exact N|].
  rewrite E. cbn [for_each]. unfold bind at 1.
  rewrite (v1_fda_attempt_ok http u1 backoff _ _ tr1 d)
    by (now rewrite N).
  reflexivity.
Qed.

(** [k] failed attempts, then a 200 response carrying a JSON object:
    the trial-registry fetch ends on that attempt with what the two
    lookups give, a raised lookup error included. *)
Lemma patched_trials_fetch_200 term phase max_studies retries tr (k : nat) d :
  let req := AppPatched.trials_request term phase max_studies in
  Z.of_nat k < retries ->
  (k <= 56)%nat ->
  fails_first http req (n_requests tr) k ->
  http (n_requests tr + k)%nat req = Reply 200 (Some (JDict d)) ->
  exists tr1,
    n_requests tr1 = (n_requests tr + k)%nat
    /\ AppPatched.fetch_clinical_trials http term phase max_studies retries tr
       = (study_fields d, EvGet req :: tr1).
Proof.
  cbn zeta. intros Hk Hq Hfirst H200.
  unfold AppPatched.fetch_clinical_trials. unfold bind at 1.
  set (req := AppPatched.trials_request term phase max_studies) in *.
  destruct (retries_split_at k retries Hk) as (rest & ->).
  destruct (for_each_prefix (AppPatched.trials_attempt http req)
              (fun n => is_failure (http n req) = true)
              (fun attempt => sleep_outcome (3 # 2) attempt = None)
              (fun n => failure_exn (http n req))
              (fun x l t Hx Ht =>
                 patched_trials_attempt_fails http req x l t Hx Ht)
              (py_range 1 (Z.of_nat k + 1)) (Z.of_nat k + 1 :: rest) None tr)
    as (tr1 & E & N).
  { apply quiet_sleeps_range with (retries := Z.of_nat k); [|lia].
    apply trial_sleeps_quiet. lia. }
  { intros i Hi. apply Hfirst. rewrite py_range_length in Hi. lia. }
  rewrite py_range_length in N.
  replace (Z.to_nat (Z.of_nat k + 1 - 1)) with k in N by lia.
  exists tr1. split; [exact N|].
  rewrite E. cbn [for_each]. unfold bind at 1.
  rewrite (patched_trials_attempt_200 http req _ _ tr1 d)
    by (now rewrite N).
  now destruct (study_fields d) as [v|e].
Qed.

Lemma v1_trials_fetch_200 term phase max_studies retries tr (k : nat) d :
  let req := AppPatched.trials_request term phase max_studies in
  Z.of_nat k < retries ->
  (k <= 56)%nat ->
  fails_first http req (n_requests tr) k ->
  http (n_requests tr + k)%nat req = Reply 200 (Some (JDict d)) ->
  exists tr1,
    n_requests tr1 = (n_requests tr + k)%nat
    /\ DashboardV1.fetch_clinical_trials http term phase max_studies retries tr
       = (study_fields d, EvGet req :: tr1).
Proof.
  cbn zeta. intros Hk Hq Hfirst H200.
  unfold DashboardV1.fetch_clinical_trials. unfold bind at 1.
  set (req := AppPatched.trials_request term phase max_studies) in *.
  destruct (retries_split_at k retries Hk) as (rest & ->).
  destruct (for_each_prefix (DashboardV1.trials_attempt http req)
              (fun n => is_failure (http n req) = true)
              (fun attempt => sleep_outcome (3 # 2) attempt = None)
              (fun n => failure_exn (http n req))
              (fun x l t Hx Ht =>
                 v1_trials_attempt_fails http req x l t Hx Ht)
              (py_range 1 (Z.of_nat k + 1)) (Z.of_nat k + 1 :: rest) None tr)
    as (tr1 & E & N).
  { apply quiet_sleeps_range with (retries := Z.of_nat k); [|lia].
    apply trial_sleeps_quiet. lia. }
  { intros i Hi. apply Hfirst. rewrite py_range_length in Hi. lia. }
  rewrite py_range_length in N.
  replace (Z.to_nat (Z.of_nat k + 1 - 1)) with k in N by lia.
  exists tr1. split; [exact N|].
  rewrite E. cbn [for_each]. unfold bind at 1.
  rewrite (v1_trials_attempt_200 http req _ _ tr1 d)
    by (now rewrite N).
  now destruct (study_fields d) as [v|e].
Qed.
End FirstSuccess.

Lemma lacks_study_fields_raises d key :
  lacks_study_fields d key -> study_fields d = Raise (KeyError key).
Proof.
  unfold study_fields. cbn.
  intros [[-> ->] | (d' & -> & H & ->)]; cbn; [reflexivity|].
  now rewrite H.
Qed.

(** C3 (app_patched.py, pharma_dashboard_v1.py).  When the first
    [retries - 1] attempts of a client fail, the sleeps after them are
    accepted, and its attempt number [retries] is answered with status 200
    and a decodable object, the fetch returns what that response carries
    and has issued exactly [retries] requests.  The regulatory clients
    ask nothing more of the object (they return its [results], the empty
    list when it has none); the trial-registry clients return its study
    list when it has one. *)
Theorem fetch_returns_on_last_attempt :
  forall (http : World) (limit : option Z) (retries : Z) (backoff : Q)
         (term phase : string) (max_studies : Z) (tr : Trace),
    0 < retries ->
    let k := Z.to_nat (retries - 1) in
    let fda_req :=
      AppPatched.fda_request
        (nth 0 (AppPatched.fda_urls (AppPatched.effective_limit limit)) "") in
    let trials_req := AppPatched.trials_request term phase max_studies in
    (forall d : list (string * json),
       quiet_sleeps backoff (retries - 1) ->
       fails_first http fda_req (n_requests tr) k ->
       http (n_requests tr + k)%nat fda_req = Reply 200 (Some (JDict d)) ->
       (exists tr',
          AppPatched.fetch_fda_approvals http limit retries backoff tr
          = (Ok (results_of d), tr')
          /\ Z.of_nat (n_requests tr') - Z.of_nat (n_requests tr) = retries)
       /\ (exists tr',
          DashboardV1.fetch_fda_approvals http limit retries backoff tr
          = (Ok (results_of d), tr')
          /\ Z.of_nat (n_requests tr') - Z.of_nat (n_requests tr) = retries))
    /\
    (forall (d : list (string * json)) (studies : json),
       retries - 1 <= 56 ->
       fails_first http trials_req (n_requests tr) k ->
       http (n_requests tr + k)%nat trials_req = Reply 200 (Some (JDict d)) ->
       study_fields d = Ok studies ->
       (exists tr',
          AppPatched.fetch_clinical_trials http term phase max_studies retries tr
          = (Ok studies, tr')
          /\ Z.of_nat (n_requests tr') - Z.of_nat (n_requests tr) = retries)
       /\ (exists tr',
          DashboardV1.fetch_clinical_trials http term phase max_studies retries tr
          = (Ok studies, tr')
          /\ Z.of_nat (n_requests tr') - Z.of_nat (n_requests tr) = retries)).
Proof.
  intros http limit retries backoff term phase max_studies tr Hr.
  cbn zeta.
  assert (Z.of_nat (Z.to_nat (retries - 1)) < retries) as Hk by lia.
  split.
  - intros d Hq Hfirst H200.
    assert (quiet_sleeps backoff (Z.of_nat (Z.to_nat (retries - 1)))) as Hq'
      by (intros a Ha; apply Hq; lia).
    split.
    + destruct (patched_fda_fetch_200 http limit retries backoff tr _ d
                  Hk Hq' Hfirst H200) as (tr1 & N & E).
      eexists. split; [exact E|].
      rewrite n_requests_cons, N. cbn [is_get]. lia.
    + destruct (v1_fda_fetch_200 http limit retries backoff tr _ d
                  Hk Hq' Hfirst H200) as (tr1 & N & E).
      eexists. split; [exact E|].
      rewrite n_requests_cons, N. cbn [is_get]. lia.
  - intros d studies Hq Hfirst H200 Hs.
    assert (Z.to_nat (retries - 1) <= 56)%nat as Hq' by lia.
    split.
    + destruct (patched_trials_fetch_200 http term phase max_studies retries
                  tr _ d Hk Hq' Hfirst H200) as (tr1 & N & E).
      eexists. split; [rewrite E, Hs; reflexivity|].
      rewrite n_requests_cons, N. cbn [is_get]. lia.
    + destruct (v1_trials_fetch_200 http term phase max_studies retries
                  tr _ d Hk Hq' Hfirst H200) as (tr1 & N & E).
      eexists. split; [rewrite E, Hs; reflexivity|].
      rewrite n_requests_cons, N. cbn [is_get]. lia.
Qed.

(** C10.  A 200 response whose decoded object lacks [StudyFieldsResponse]
    (or whose [StudyFieldsResponse] lacks [StudyFields]) makes the
    trial-registry fetch raise [KeyError] on that very attempt: the request
    is the last event of the run, no sleep or notice follows it, no further
    attempt is made and the exception is not wrapped.  The regulatory fetch
    returns the empty list when its 200 response is an object without
    [results].  The attempt in question may come after [k] failed ones
    whose sleeps were accepted. *)
Theorem trial_fetch_key_error_not_retried :
  forall (http : World) (limit : option Z) (retries : Z) (backoff : Q)
         (term phase : string) (max_studies : Z) (k : nat) (tr : Trace),
    Z.of_nat k < retries ->
    let req := AppPatched.trials_request term phase max_studies in
    let fda_req :=
      AppPatched.fda_request
        (nth 0 (AppPatched.fda_urls (AppPatched.effective_limit limit)) "") in
    (forall (d : list (string * json)) (key : string),
       (k <= 56)%nat ->
       fails_first http req (n_requests tr) k ->
       http (n_requests tr + k)%nat req = Reply 200 (Some (JDict d)) ->
       lacks_study_fields d key ->
       (exists tr1,
          n_requests tr1 = (n_requests tr + k)%nat
          /\ AppPatched.fetch_clinical_trials http term phase max_studies
               retries tr
             = (Raise (KeyError key), EvGet req :: tr1))
       /\ (exists tr1,
          n_requests tr1 = (n_requests tr + k)%nat
          /\ DashboardV1.fetch_clinical_trials http term phase max_studies
               retries tr
             = (Raise (KeyError key), EvGet req :: tr1)))
    /\ (forall (d : list (string * json)) (key : string) (tr0 : Trace),
       let req0 := mkRequest (req_url req) (req_params req) None in
       http (n_requests tr0) req0 = Reply 200 (Some (JDict d)) ->
       lacks_study_fields d key ->
       App.fetch_clinical_trials http term phase max_studies tr0
       = (Raise (KeyError key), EvGet req0 :: tr0))
    /\ (forall d : list (string * json),
       quiet_sleeps backoff (Z.of_nat k) ->
       fails_first http fda_req (n_requests tr) k ->
       http (n_requests tr + k)%nat fda_req = Reply 200 (Some (JDict d)) ->
       dict_get d "results" = None ->
       exists tr1,
         n_requests tr1 = (n_requests tr + k)%nat
         /\ AppPatched.fetch_fda_approvals http limit retries backoff tr
            = (Ok (JList []), EvGet fda_req :: tr1)).
Proof.
  intros http limit retries backoff term phase max_studies k tr Hk.
  cbn zeta. split; [|split].
  - intros d key Hq Hfirst H200 Hlack.
    pose proof (lacks_study_fields_raises d key Hlack) as Hs.
    split.
    + destruct (patched_trials_fetch_200 http term phase max_studies retries
                  tr k d Hk Hq Hfirst H200) as (tr1 & N & E).
      exists tr1. split; [exact N|]. now rewrite E, Hs.
    + destruct (v1_trials_fetch_200 http term phase max_studies retries
                  tr k d Hk Hq Hfirst H200) as (tr1 & N & E).
      exists tr1. split; [exact N|]. now rewrite E, Hs.
  - intros d key tr0 H200 Hlack.
    pose proof (lacks_study_fields_raises d key Hlack) as Hs.
    unfold App.fetch_clinical_trials, bind, requests_get, lift.
    cbn [req_url req_params AppPatched.trials_request] in H200.
    rewrite H200. cbn.
    unfold study_fields in Hs. cbn in Hs.
    destruct (dict_get d "StudyFieldsResponse") as [fields|]; cbn in *.
    + now rewrite Hs.
    + now rewrite Hs.
  - intros d Hq Hfirst H200 Hres.
    destruct (patched_fda_fetch_200 http limit retries backoff tr k d
                Hk Hq Hfirst H200) as (tr1 & N & E).
    exists tr1. split; [exact N|]. rewrite E.
    unfold results_of. now rewrite Hres.
Qed.

(* ===================================================================== *)
(** * The limit of the regulatory client *)
(* ===================================================================== *)

Lemma effective_limit_cases limit :
  AppPatched.effective_limit limit
  = match limit with
    | None => 100
    | Some n => if (1 <=? n) && (n <=? 100) then n else 100
    end.
Proof.
  unfold AppPatched.effective_limit. destruct limit as [n|]; [|reflexivity].
  destruct (Z.leb_spec n 0); cbn.
  - destruct (Z.leb_spec 1 n); [lia | reflexivity].
  - destruct (Z.leb_spec 1 n); [|lia]. cbn.
    destruct (Z.gtb_spec n 100), (Z.leb_spec n 100); reflexivity || lia.
Qed.

Lemma effective_limit_range limit :
  1 <= AppPatched.effective_limit limit <= 100.
Proof.
  rewrite effective_limit_cases. destruct limit as [n|]; [|lia].
  destruct (Z.leb_spec 1 n), (Z.leb_spec n 100); cbn; lia.
Qed.

Lemma patched_fetch_fda_extends http limit retries backoff tr :
  extends (requests_to (AppPatched.fda_urls (AppPatched.effective_limit limit)))
    tr (snd (AppPatched.fetch_fda_approvals http limit retries backoff tr)).
Proof.
  unfold AppPatched.fetch_fda_approvals. unfold bind at 1.
  set (urls := AppPatched.fda_urls _).
  set (body := fun url last =>
                 for_each (py_range 1 (retries + 1))
                          (AppPatched.fda_attempt http url backoff) last).
  assert (forall url last t, In url urls ->
            extends (requests_to urls) t (snd (body url last t))) as Hbody.
  { intros url last t Hin. unfold body.
    eapply extends_weaken;
      [| apply for_each_extends; intros; apply patched_fda_attempt_extends].
    intros e He Hg. exists url. split; [exact Hin | now apply He]. }
  pose proof (for_each_extends body (requests_to urls) urls Hbody None tr)
    as H.
  destruct (for_each urls body None tr) as [[[last|v]|e] tr']; exact H.
Qed.

Lemma v1_fetch_fda_extends http limit retries backoff tr :
  extends (requests_to (AppPatched.fda_urls (AppPatched.effective_limit limit)))
    tr (snd (DashboardV1.fetch_fda_approvals http limit retries backoff tr)).
Proof.
  unfold DashboardV1.fetch_fda_approvals. unfold bind at 1.
  set (urls := AppPatched.fda_urls _).
  set (body := fun url last =>
                 for_each (py_range 1 (retries + 1))
                          (DashboardV1.fda_attempt http url backoff) last).
  assert (forall url last t, In url urls ->
            extends (requests_to urls) t (snd (body url last t))) as Hbody.
  { intros url last t Hin. unfold body.
    eapply extends_weaken;
      [| apply for_each_extends; intros; apply v1_fda_attempt_extends].
    intros e He Hg. exists url. split; [exact Hin | now apply He]. }
  pose proof (for_each_extends body (requests_to urls) urls Hbody None tr)
    as H.
  destruct (for_each urls body None tr) as [[[last|v]|e] tr']; exact H.
Qed.

(** C5, as the code has it.  In [app_patched.py] and
    [pharma_dashboard_v1.py] a limit that is [None] or not positive is
    replaced by the default 100 and a limit above 100 is capped at 100; a
    limit within 1..100 is kept.  The limit sent is therefore always within
    1..100, nothing is rejected, and every request of the fetch carries it.
    [app.py] sends the limit it was given. *)
Theorem limit_defaulted_or_capped :
  forall (http : World) (limit : option Z) (retries : Z) (backoff : Q)
         (n : Z) (tr : Trace),
    let l := AppPatched.effective_limit limit in
    l = match limit with
        | None => 100
        | Some n => if (1 <=? n) && (n <=? 100) then n else 100
        end
    /\ 1 <= l <= 100
    /\ extends (requests_to (AppPatched.fda_urls l)) tr
         (snd (AppPatched.fetch_fda_approvals http limit retries backoff tr))
    /\ extends (requests_to (AppPatched.fda_urls l)) tr
         (snd (DashboardV1.fetch_fda_approvals http limit retries backoff tr))
    /\ snd (App.fetch_fda_approvals http n tr)
       = EvGet (mkRequest
                  ("https://api.fda.gov/drug/drugsfda.json?search=products.marketing_status:'1'&limit="
                   ++ str_of_int n)%string [] None) :: tr.
Proof.
  intros http limit retries backoff n tr. cbn zeta.
  split; [apply effective_limit_cases|].
  split; [apply effective_limit_range|].
  split; [apply patched_fetch_fda_extends|].
  split; [apply v1_fetch_fda_extends|].
  unfold App.fetch_fda_approvals, bind, requests_get, lift.
  destruct (http (n_requests tr) _) as [status body|e]; [|reflexivity].
  cbn [fst snd]. destruct (raise_for_status status); [|reflexivity].
  destruct (response_json body) as [data|e]; [|reflexivity].
  now destruct (py_get data "results" (JList [])).
Qed.

(** C5 as worded fails: a limit of 0 is sent as 100, not as the nearest
    bound 1, and [app.py] sends 200 unchanged. *)
Lemma limit_zero_becomes_default :
  AppPatched.effective_limit (Some 0) = 100
  /\ AppPatched.effective_limit (Some 0) <> clamp_to_range 0
  /\ requests_of (snd (App.fetch_fda_approvals (fun _ _ => Reply 200 None)
                         200 []))
     = [mkRequest
          "https://api.fda.gov/drug/drugsfda.json?search=products.marketing_status:'1'&limit=200"
          [] None].
Proof. repeat split. discriminate. Qed.

(* ===================================================================== *)
(** * The normalizers *)
(* ===================================================================== *)

Section NormalizerFacts.
Variable to_datetime : list date_cell -> list (option Timestamp).

Lemma assign_date_cells df col :
  Forall (fun r => date r = NaT \/ has_time r) (assign_date df col).
Proof.
  revert col. induction df as [|r df IH]; intros col; cbn; [constructor|].
  destruct col as [|[t|] cs]; constructor; cbn; auto;
    right; now exists t.
Qed.

Lemma to_frame_dated records :
  Forall has_time (to_frame to_datetime records).
Proof.
  unfold to_frame. destruct records as [|r rs]; cbn [df_empty negb];
    [constructor|].
  unfold dropna_date. apply Forall_forall. intros x Hx.
  apply filter_In in Hx. destruct Hx as [Hin Hna].
  pose proof (assign_date_cells (r :: rs)
                (to_datetime (map date (r :: rs)))) as Hc.
  rewrite Forall_forall in Hc. destruct (Hc x Hin) as [E|E]; [|exact E].
  rewrite E in Hna. discriminate.
Qed.

Lemma to_frame_parsed records :
  to_frame to_datetime records
  = parsed_rows records (to_datetime (map date records)).
Proof.
  unfold to_frame. destruct records as [|r rs]; [reflexivity|].
  cbn [df_empty negb]. generalize (to_datetime (map date (r :: rs))).
  generalize (r :: rs). clear. intros df. unfold dropna_date.
  induction df as [|r df IH]; intros col; [reflexivity|].
  destruct col as [|[t|] cs]; cbn.
  - clear IH. induction df as [|r' df IH]; cbn; auto.
  - f_equal. apply IH.
  - apply IH.
Qed.

Lemma parsed_rows_length records col :
  List.length (parsed_rows records col)
  = List.length (filter is_some (firstn (List.length records) col)).
Proof.
  revert col. induction records as [|r rs IH]; intros col; [reflexivity|].
  destruct col as [|[t|] cs]; cbn; auto.
Qed.

Lemma parse_fda_dated data df :
  Normalize.parse_fda to_datetime data = Ok df -> Forall has_time df.
Proof.
  unfold Normalize.parse_fda, rbind.
  destruct (py_iter data); [|discriminate].
  destruct (Normalize.fda_entries a []); [|discriminate].
  intros [= <-]. apply to_frame_dated.
Qed.

Lemma parse_trials_dated data ph df :
  Normalize.parse_trials to_datetime data ph = Ok df -> Forall has_time df.
Proof.
  unfold Normalize.parse_trials, rbind.
  destruct (py_iter data); [|discriminate].
  destruct (Normalize.trial_records _ _ _ _); [|discriminate].
  intros [= <-]. apply to_frame_dated.
Qed.

Lemma parse_trials_v1_dated data ph df :
  Normalize.parse_trials_v1 to_datetime data ph = Ok df ->
  Forall has_time df.
Proof.
  unfold Normalize.parse_trials_v1, rbind.
  destruct (py_iter data); [|discriminate].
  destruct (Normalize.trial_records _ _ _ _); [|discriminate].
  intros [= <-]. apply to_frame_dated.
Qed.

Lemma py_get_field items k default :
  py_get (JDict items) k default = Ok (field (JDict items) k default).
Proof. cbn. now destruct (dict_get items k). Qed.

(** The inner loop appends one record per dated submission. *)
Lemma fda_submissions_spec sponsor subs records :
  forallb is_dictb subs = true ->
  Normalize.fda_submissions sponsor subs records
  = Ok (records ++ map (fda_record sponsor) (filter dated subs)).
Proof.
  revert records. induction subs as [|sub subs IH]; intros records Hwf.
  - cbn. now rewrite app_nil_r.
  - cbn in Hwf. apply andb_true_iff in Hwf. destruct Hwf as [Hd Hwf].
    destruct sub; try discriminate.
    cbn [Normalize.fda_submissions filter].
    rewrite !py_get_field. cbn [rbind]. unfold dated at 1.
    destruct (truthy (field (JDict items) "submission_date" JNull)).
    + rewrite IH by exact Hwf. now rewrite <- app_assoc.
    + now apply IH.
Qed.

(** The outer loop appends the records of each entry in turn. *)
Lemma fda_entries_spec entries records :
  forallb wf_entry entries = true ->
  Normalize.fda_entries entries records
  = Ok (records ++ dated_records entries).
Proof.
  revert records. induction entries as [|entry entries IH];
    intros records Hwf.
  - cbn. now rewrite app_nil_r.
  - cbn in Hwf. apply andb_true_iff in Hwf. destruct Hwf as [He Hwf].
    unfold wf_entry in He. apply andb_true_iff in He.
    destruct He as [Hd Hs]. destruct entry; try discriminate.
    cbn [Normalize.fda_entries]. rewrite !py_get_field. cbn [rbind].
    unfold dated_records. cbn [flat_map]. fold (dated_records entries).
    unfold entry_records, submissions_of.
    destruct (field (JDict items) "submissions" (JList []));
      try discriminate.
    cbn [py_iter rbind]. rewrite fda_submissions_spec by exact Hs.
    cbn [rbind]. rewrite IH by exact Hwf. now rewrite <- app_assoc.
Qed.
End NormalizerFacts.

Lemma entry_records_none entry :
  existsb dated (submissions_of entry) = false -> entry_records entry = [].
Proof.
  unfold entry_records. generalize (submissions_of entry). intros subs.
  induction subs as [|sub subs IH]; cbn; [reflexivity|].
  destruct (dated sub); cbn; [discriminate | exact IH].
Qed.

(** C7, as the code has it.  On raw regulatory entries of the documented
    shape, [parse_fda] returns, in order, one record per nested submission
    whose date is non-empty and is read as a date by the date parser; the
    sponsor of a record is that of the parent entry.  The Acme scenario
    gives exactly its one record, and an entry with no dated submission
    gives no record. *)
Theorem parse_fda_one_record_per_parsed_submission :
  forall (to_datetime : list date_cell -> list (option Timestamp))
         (entries : list json),
    forallb wf_entry entries = true ->
    to_datetime [DRaw (JStr "20230115")] = [Some (mkTimestamp 2023 1 15 0)] ->
    let records := dated_records entries in
    let col := to_datetime (map date records) in
    Normalize.parse_fda to_datetime (JList entries)
    = Ok (parsed_rows records col)
    /\ List.length (parsed_rows records col)
       = List.length (filter is_some (firstn (List.length records) col))
    /\ (forall entry,
          existsb dated (submissions_of entry) = false ->
          entry_records entry = [])
    /\ Normalize.parse_fda to_datetime (JList [acme_entry])
       = Ok [acme_record].
Proof.
  intros to_datetime entries Hwf Hscn. cbn zeta. repeat split.
  - unfold Normalize.parse_fda. cbn [py_iter rbind].
    rewrite fda_entries_spec by exact Hwf. cbn [rbind app].
    now rewrite to_frame_parsed.
  - apply parsed_rows_length.
  - apply entry_records_none.
  - unfold Normalize.parse_fda. cbn [py_iter rbind].
    rewrite fda_entries_spec by reflexivity. cbn [rbind app].
    rewrite to_frame_parsed. cbn. rewrite Hscn. reflexivity.
Qed.

Lemma parse_fda_scenario_witness :
  Normalize.parse_fda CompactDate.to_datetime (JList [acme_entry])
  = Ok [acme_record].
Proof.
  apply (parse_fda_one_record_per_parsed_submission
           CompactDate.to_datetime [acme_entry]); reflexivity.
Defined.

(** C7 as worded fails: a submission whose date is non-empty but is not a
    date yields no record. *)
Lemma parse_fda_drops_unparsed_date :
  List.length (dated_records [undated_entry]) = 1%nat
  /\ Normalize.parse_fda CompactDate.to_datetime (JList [undated_entry])
     = Ok [].
Proof. split; reflexivity. Qed.

(** C4: the normalizers are not total.  A trial whose [CompletionDate] is
    present and empty makes [parse_trials] raise [IndexError] (in all three
    files), and an entry whose [submissions] is null makes [parse_fda]
    raise [TypeError]. *)
Theorem parse_trials_raises_on_empty_field :
  forall (to_datetime : list date_cell -> list (option Timestamp)),
    Normalize.parse_trials to_datetime (JList [open_trial]) "Phase 3"
    = Raise IndexError
    /\ Normalize.parse_trials_v1 to_datetime (JList [open_trial]) "Phase 3"
       = Raise IndexError
    /\ Normalize.parse_fda to_datetime
         (JList [JDict [("sponsor_name", JStr "Acme");
                        ("submissions", JNull)]])
       = Raise TypeError.
Proof. intros to_datetime. repeat split. Qed.

(* ===================================================================== *)
(** * Grouped counts *)
(* ===================================================================== *)

Section Counting.
Variable K : Type.
Variable cmp : K -> K -> comparison.
Hypothesis cmp_eq : forall a b, cmp a b = Eq -> a = b.
Hypothesis cmp_refl : forall a, cmp a a = Eq.
Hypothesis cmp_antisym : forall a b, cmp a b = CompOpp (cmp b a).
Hypothesis cmp_trans :
  forall a b c, cmp a b = Lt -> cmp b c = Lt -> cmp a c = Lt.

Lemma bump_keys k t kn :
  In kn (bump cmp k t) ->
  fst kn = k \/ exists kn', In kn' t /\ fst kn' = fst kn.
Proof.
  induction t as [|[k' n] t IH]; cbn.
  - intros [<-|[]]. now left.
  - destruct (cmp k k') eqn:E.
    + intros [<-|H]; right.
      * exists (k', n). cbn. auto.
      * exists kn. auto.
    + intros [<-|H]; [now left|]. right. exists kn. auto.
    + intros [<-|H].
      * right. exists (k', n). cbn. auto.
      * destruct (IH H) as [|(kn' & Hin & Hk)]; [now left|].
        right. exists kn'. auto.
Qed.

Lemma bump_increasing k t : increasing cmp t -> increasing cmp (bump cmp k t).
Proof.
  unfold increasing. induction t as [|[k' n] t IH]; intros Hs; cbn.
  - repeat constructor.
  - apply StronglySorted_inv in Hs. destruct Hs as [Hs Hall].
    destruct (cmp k k') eqn:E.
    + constructor; [exact Hs|]. eapply Forall_impl; [|exact Hall].
      intros a Ha. exact Ha.
    + constructor; [now constructor|]. constructor; [exact E|].
      eapply Forall_impl; [|exact Hall].
      intros a Ha. unfold key_lt in *. cbn in *. eauto.
    + constructor; [now apply IH|]. apply Forall_forall. intros kn Hin.
      destruct (bump_keys k t kn Hin) as [Hk|(kn' & Hin' & Hk)].
      * unfold key_lt. cbn. rewrite Hk, cmp_antisym, E. reflexivity.
      * rewrite Forall_forall in Hall. specialize (Hall kn' Hin').
        unfold key_lt in *. now rewrite <- Hk.
Qed.

Lemma bump_positive k t : positive t -> positive (bump cmp k t).
Proof.
  unfold positive. induction t as [|[k' n] t IH]; intros Hp; cbn.
  - repeat constructor.
  - inversion Hp as [|? ? Hn Ht]; subst. destruct (cmp k k').
    + constructor; [cbn; lia | exact Ht].
    + constructor; [cbn; lia | exact Hp].
    + constructor; [exact Hn | now apply IH].
Qed.

Lemma lookup_above k t :
  Forall (fun kn => cmp k (fst kn) = Lt) t -> lookup cmp k t = None.
Proof.
  induction 1 as [|[k' n] t Hk Ht IH]; cbn; [reflexivity|].
  cbn in Hk. now rewrite Hk.
Qed.

Lemma count_bump k k' t :
  increasing cmp t ->
  count cmp k' (bump cmp k t)
  = (count cmp k' t + match cmp k' k with Eq => 1 | _ => 0 end)%nat.
Proof.
  unfold increasing, count. induction t as [|[x n] t IH]; intros Hs.
  - cbn. destruct (cmp k' k); reflexivity.
  - apply StronglySorted_inv in Hs. destruct Hs as [Hs Hall].
    cbn [bump]. destruct (cmp k x) eqn:E.
    + apply cmp_eq in E. subst x. cbn [lookup].
      destruct (cmp k' k); lia.
    + cbn [lookup]. destruct (cmp k' k) eqn:E'; try lia.
      apply cmp_eq in E'. subst k'. rewrite E.
      rewrite lookup_above; [reflexivity|].
      eapply Forall_impl; [|exact Hall].
      intros a Ha. unfold key_lt in Ha. cbn in Ha. eauto.
    + cbn [lookup]. destruct (cmp k' x) eqn:E'.
      * apply cmp_eq in E'. subst k'.
        rewrite cmp_antisym, E. cbn. lia.
      * now apply IH.
      * now apply IH.
Qed.

Lemma size_invariant keys t :
  increasing cmp t -> positive t ->
  let t' := fold_left (fun t k => bump cmp k t) keys t in
  increasing cmp t' /\ positive t'
  /\ forall k, count cmp k t' = (count cmp k t + occurrences cmp k keys)%nat.
Proof.
  revert t. induction keys as [|k0 keys IH]; intros t Hs Hp; cbn.
  - repeat split; auto.
  - destruct (IH (bump cmp k0 t) (bump_increasing k0 t Hs)
                 (bump_positive k0 t Hp)) as (Hs' & Hp' & Hc).
    repeat split; auto. intros k. rewrite Hc, count_bump by exact Hs.
    destruct (cmp k k0); lia.
Qed.

Lemma lookup_positive k t n :
  positive t -> lookup cmp k t = Some n -> (0 < n)%nat.
Proof.
  induction 1 as [|[k' m] t Hm Ht IH]; cbn; [discriminate|].
  destruct (cmp k k'); auto. intros [= <-]. exact Hm.
Qed.

Lemma size_increasing keys : increasing cmp (size cmp keys).
Proof.
  apply (size_invariant keys []); constructor.
Qed.

(** A key has a row exactly when it occurs, and the row holds the number
    of its occurrences. *)
Lemma lookup_size k keys :
  lookup cmp k (size cmp keys)
  = match occurrences cmp k keys with
    | O => None
    | S n => Some (S n)
    end.
Proof.
  destruct (size_invariant keys []) as (_ & Hp & Hc);
    [constructor | constructor |].
  specialize (Hc k). unfold count in Hc. cbn in Hc. fold (size cmp keys) in *.
  destruct (lookup cmp k (size cmp keys)) as [n|] eqn:E.
  - pose proof (lookup_positive k _ n Hp E) as Hn.
    rewrite <- Hc. destruct n; [lia | reflexivity].
  - now rewrite <- Hc.
Qed.
End Counting.

(** ** The order of the group keys *)

Lemma ascii_compare_refl c : Ascii.compare c c = Eq.
Proof. unfold Ascii.compare. apply N.compare_refl. Qed.

Lemma ascii_compare_trans a b c :
  Ascii.compare a b = Lt -> Ascii.compare b c = Lt -> Ascii.compare a c = Lt.
Proof.
  unfold Ascii.compare. rewrite !N.compare_lt_iff. apply N.lt_trans.
Qed.

Lemma string_compare_refl s : String.compare s s = Eq.
Proof.
  induction s as [|c s IH]; cbn; [reflexivity|].
  now rewrite ascii_compare_refl.
Qed.

Lemma string_compare_trans a b c :
  String.compare a b = Lt -> String.compare b c = Lt ->
  String.compare a c = Lt.
Proof.
  revert b c. induction a as [|x a IH]; intros [|y b] [|z c]; cbn;
    try discriminate; auto.
  destruct (Ascii.compare x y) eqn:Exy; try discriminate;
    destruct (Ascii.compare y z) eqn:Eyz; try discriminate; intros Hab Hbc.
  - apply Ascii.compare_eq_iff in Exy, Eyz. subst.
    rewrite ascii_compare_refl. eauto.
  - apply Ascii.compare_eq_iff in Exy. subst. now rewrite Eyz.
  - apply Ascii.compare_eq_iff in Eyz. subst. now rewrite Exy.
  - now rewrite (ascii_compare_trans x y z Exy Eyz).
Qed.

Lemma period_compare_eq p q : period_compare p q = Eq -> p = q.
Proof.
  unfold period_compare. destruct p as [y m], q as [y' m']; cbn.
  destruct (Z.compare_spec y y') as [Hy|Hy|Hy]; try discriminate.
  intros Hm. apply Z.compare_eq_iff in Hm. now subst.
Qed.

Lemma period_compare_refl p : period_compare p p = Eq.
Proof. unfold period_compare. now rewrite !Z.compare_refl. Qed.

Lemma period_compare_antisym p q :
  period_compare p q = CompOpp (period_compare q p).
Proof.
  unfold period_compare.
  rewrite (Z.compare_antisym (p_year q) (p_year p)).
  rewrite (Z.compare_antisym (p_month q) (p_month p)).
  destruct (p_year q ?= p_year p); reflexivity.
Qed.

Lemma period_compare_trans p q r :
  period_compare p q = Lt -> period_compare q r = Lt ->
  period_compare p r = Lt.
Proof.
  unfold period_compare.
  destruct (Z.compare_spec (p_year p) (p_year q));
    destruct (Z.compare_spec (p_year q) (p_year r));
    destruct (Z.compare_spec (p_year p) (p_year r));
    try discriminate; try lia; auto;
    rewrite !Z.compare_lt_iff; lia.
Qed.

Lemma key_compare_eq a b : key_compare a b = Eq -> a = b.
Proof.
  unfold key_compare. destruct a as [p s], b as [q t]; cbn.
  destruct (period_compare p q) eqn:E; try discriminate.
  intros H. apply period_compare_eq in E. apply String.compare_eq_iff in H.
  now subst.
Qed.

Lemma key_compare_refl a : key_compare a a = Eq.
Proof.
  unfold key_compare. rewrite period_compare_refl.
  apply string_compare_refl.
Qed.

Lemma key_compare_antisym a b : key_compare a b = CompOpp (key_compare b a).
Proof.
  unfold key_compare.
  rewrite (period_compare_antisym (fst a) (fst b)).
  rewrite (String.compare_antisym (snd a) (snd b)).
  destruct (period_compare (fst b) (fst a)); reflexivity.
Qed.

Lemma key_compare_trans a b c :
  key_compare a b = Lt -> key_compare b c = Lt -> key_compare a c = Lt.
Proof.
  unfold key_compare.
  destruct (period_compare (fst a) (fst b)) eqn:Eab; try discriminate;
    destruct (period_compare (fst b) (fst c)) eqn:Ebc; try discriminate;
    intros Hab Hbc.
  - apply period_compare_eq in Eab, Ebc. rewrite Eab, Ebc.
    rewrite period_compare_refl. eapply string_compare_trans; eauto.
  - apply period_compare_eq in Eab. now rewrite Eab, Ebc.
  - apply period_compare_eq in Ebc. now rewrite <- Ebc, Eab.
  - now rewrite (period_compare_trans _ _ _ Eab Ebc).
Qed.

Ltac key_order :=
  first [ exact key_compare_eq | exact key_compare_refl
        | exact key_compare_antisym | exact key_compare_trans ].

Lemma key_compare_eqb (p m : Period) (s s' : string) :
  key_compare (m, s') (p, s)
  = Eq <-> (p_year p =? p_year m) && (p_month p =? p_month m)
           && (s =? s')%string = true.
Proof.
  rewrite !andb_true_iff, !Z.eqb_eq, String.eqb_eq. split.
  - intros H. apply key_compare_eq in H. now inversion H.
  - intros [[Hy Hm] ->]. destruct p, m; cbn in *. subst.
    apply key_compare_refl.
Qed.

Lemma dt_to_period_dated df :
  Forall has_time df -> dt_to_period (map date df) = Ok (map bucket df).
Proof.
  induction 1 as [|r df [t Ht] Hdf IH]; cbn; [reflexivity|].
  unfold bucket at 1. rewrite Ht, IH. reflexivity.
Qed.

Lemma occurrences_rows_in m s df :
  occurrences key_compare (m, s) (group_keys (map bucket df) df)
  = rows_in m s df.
Proof.
  unfold rows_in. induction df as [|r df IH]; cbn; [reflexivity|].
  destruct (bucket r) as [p|] eqn:Eb; cbn; [|exact IH].
  pose proof (key_compare_eqb p m (source r) s) as H.
  destruct (key_compare (m, s) (p, source r)).
  - replace ((p_year p =? p_year m) && (p_month p =? p_month m)
             && (source r =? s)%string) with true
      by (symmetry; now apply H).
    cbn. now rewrite IH.
  - destruct ((p_year p =? p_year m) && (p_month p =? p_month m)
              && (source r =? s)%string); [|exact IH].
    discriminate (proj2 H eq_refl).
  - destruct ((p_year p =? p_year m) && (p_month p =? p_month m)
              && (source r =? s)%string); [|exact IH].
    discriminate (proj2 H eq_refl).
Qed.

Lemma increasing_month_ascending t :
  increasing key_compare t -> month_ascending t.
Proof.
  unfold increasing, month_ascending.
  induction 1 as [|a t Hs IH Hall]; constructor; auto.
  eapply Forall_impl; [|exact Hall]. intros b Hb. unfold key_lt in Hb.
  unfold key_compare in Hb.
  destruct (period_compare (fst (fst a)) (fst (fst b)));
    congruence.
Qed.

(* ===================================================================== *)
(** * The aggregator *)
(* ===================================================================== *)

Lemma concat_trials_rows trials_dfs :
  concat_trials trials_dfs = List.concat trials_dfs.
Proof. now destruct trials_dfs. Qed.

Lemma aggregate_rows fda_df trials_dfs :
  aggregate fda_df trials_dfs = summarize (fda_df ++ List.concat trials_dfs).
Proof.
  unfold aggregate, pd_concat. rewrite concat_trials_rows. cbn [List.concat].
  rewrite app_nil_r.
  destruct fda_df as [|r fda]; [|reflexivity].
  now destruct (List.concat trials_dfs).
Qed.

Lemma aggregate_app_rows fda_df trials_dfs :
  aggregate_app fda_df trials_dfs
  = summarize (fda_df ++ List.concat trials_dfs).
Proof.
  unfold aggregate_app, pd_concat. rewrite concat_trials_rows.
  cbn [List.concat]. now rewrite app_nil_r.
Qed.

Lemma summarize_dated df tr :
  Forall has_time df ->
  summarize df tr
  = match df with
    | [] => (Ok (mkOutput [] [] None None), EvNotice Warning :: tr)
    | _ => (Ok (mkOutput df (map bucket df)
                         (Some (monthly_counts (map bucket df) df))
                         (Some (unstack (monthly_counts (map bucket df) df)))),
            tr)
    end.
Proof.
  intros H. unfold summarize, bind, lift. destruct df as [|r df];
    [reflexivity|].
  cbn [df_empty negb]. now rewrite (dt_to_period_dated _ H).
Qed.

(** C8.  On a non-empty combined table the aggregator gives each row the
    month of its date (year and month, the day dropped) and counts the
    rows of every (month, source) pair: the grouped count table the run
    computes, of which the plotted table is the pivot, has one row per
    pair that occurs, holding the number of its rows, in month order, and
    no row for a pair that does not occur.  The run on the scenario
    computes (2023-01, trial) 1, (2023-01, regulatory) 2 and
    (2023-02, trial) 2, and nothing for (2023-02, regulatory). *)
Theorem monthly_counts_by_month_and_source :
  forall (fda_df : DataFrame) (trials_dfs : list DataFrame) (tr : Trace),
    let table := fda_df ++ List.concat trials_dfs in
    table <> [] ->
    Forall has_time table ->
    (exists out,
       aggregate fda_df trials_dfs tr = (Ok out, tr)
       /\ aggregate_app fda_df trials_dfs tr = (Ok out, tr)
       /\ combined out = table
       /\ Forall2 (fun r m =>
                     exists t, date r = DTime t
                               /\ m = Some (mkPeriod (ts_year t) (ts_month t)))
                  table (month out)
       /\ sizes out = Some (monthly_table out)
       /\ counts out = Some (unstack (monthly_table out))
       /\ increasing key_compare (monthly_table out)
       /\ month_ascending (monthly_table out)
       /\ (forall m s,
             lookup key_compare (m, s) (monthly_table out)
             = match rows_in m s table with
               | O => None
               | S n => Some (S n)
               end))
    /\ (exists out,
         aggregate scenario_fda scenario_trials tr = (Ok out, tr)
         /\ aggregate_app scenario_fda scenario_trials tr = (Ok out, tr)
         /\ monthly_table out
            = [((mkPeriod 2023 1, "ClinicalTrials.gov"), 1%nat);
               ((mkPeriod 2023 1, "FDA"), 2%nat);
               ((mkPeriod 2023 2, "ClinicalTrials.gov"), 2%nat)]).
Proof.
  intros fda_df trials_dfs tr table Hne Hdated. split.
  - rewrite aggregate_rows, aggregate_app_rows. fold table.
    rewrite (summarize_dated table tr Hdated).
    destruct table as [|r rest] eqn:Et; [congruence|]. rewrite <- Et in *.
    eexists. split; [reflexivity|]. split; [reflexivity|].
    unfold monthly_table. cbn [combined month sizes counts].
    split; [reflexivity|]. split.
    { clear Et Hne. induction Hdated as [|x l (t & Hx) Hl IH]; cbn [map];
        constructor; [|exact IH].
      exists t. split; [exact Hx|]. unfold bucket. now rewrite Hx. }
    split; [reflexivity|]. split; [reflexivity|].
    assert (increasing key_compare (monthly_counts (map bucket table) table))
      as Hinc.
    { apply size_increasing; key_order. }
    split; [exact Hinc|].
    split; [now apply increasing_month_ascending|].
    intros m s. unfold monthly_counts.
    rewrite lookup_size by key_order.
    now rewrite occurrences_rows_in.
  - rewrite aggregate_rows, aggregate_app_rows.
    rewrite summarize_dated
      by (repeat constructor; eexists; reflexivity).
    eexists. split; [reflexivity|]. split; reflexivity.
Qed.

Lemma monthly_counts_scenario_witness :
  exists out,
    aggregate scenario_fda scenario_trials [] = (Ok out, [])
    /\ sizes out
       = Some [((mkPeriod 2023 1, "ClinicalTrials.gov"), 1%nat);
               ((mkPeriod 2023 1, "FDA"), 2%nat);
               ((mkPeriod 2023 2, "ClinicalTrials.gov"), 2%nat)]
    /\ lookup key_compare (mkPeriod 2023 2, "FDA") (monthly_table out) = None.
Proof.
  destruct (monthly_counts_by_month_and_source scenario_fda scenario_trials [])
    as ((out & E & _ & Ec & Em & Es & _ & _ & _ & Hl) & _).
  - discriminate.
  - repeat constructor; eexists; reflexivity.
  - exists out. split; [exact E|]. split.
    + unfold aggregate in E. cbn in E. injection E as <-. reflexivity.
    + rewrite Hl. reflexivity.
Defined.

(** The table handed to the chart is the pivot of the grouped counts, one
    row per month and one column per source, with 0 where a pair has no
    row. *)
Lemma unstack_fills_zero :
  unstack (monthly_counts
             (map bucket (scenario_fda ++ List.concat scenario_trials))
             (scenario_fda ++ List.concat scenario_trials))
  = mkWide [mkPeriod 2023 1; mkPeriod 2023 2]
           ["ClinicalTrials.gov"; "FDA"]
           [[1%nat; 2%nat]; [2%nat; 0%nat]].
Proof. reflexivity. Qed.

Lemma concat_repeat_nil (A : Type) n : List.concat (repeat (@nil A) n) = [].
Proof. induction n; cbn; auto. Qed.

(** C9.  When no source contributed a record, the aggregation completes
    with an empty combined table and an empty count table. *)
Theorem aggregate_empty :
  forall (n : nat) (tr : Trace),
    let out := mkOutput [] [] None None in
    aggregate [] (repeat [] n) tr = (Ok out, EvNotice Warning :: tr)
    /\ aggregate_app [] (repeat [] n) tr = (Ok out, EvNotice Warning :: tr)
    /\ combined out = []
    /\ monthly_table out = [].
Proof.
  intros n tr. cbn zeta. rewrite aggregate_rows, aggregate_app_rows.
  rewrite concat_repeat_nil. repeat split.
Qed.

(* ===================================================================== *)
(** * The pipeline drivers *)
(* ===================================================================== *)

Lemma notices_one l tr : notices tr (EvNotice l :: tr).
Proof. apply extends_cons; [exact I | apply extends_refl]. Qed.

Lemma summarize_output df tr :
  Forall has_time df ->
  exists out tr',
    summarize df tr = (Ok out, tr')
    /\ notices tr tr'
    /\ combined out = df
    /\ month out = map bucket df.
Proof.
  intros H. rewrite (summarize_dated df tr H). destruct df as [|r df].
  - do 2 eexists. split; [reflexivity|].
    split; [apply notices_one | split; reflexivity].
  - do 2 eexists. split; [reflexivity|].
    split; [apply extends_refl | split; reflexivity].
Qed.

Section Loader.
(** A loop over the selected phases that tries one source per phase and
    keeps the record sets of those that succeed. *)
Variable src : string -> M DataFrame.
Variable load : list string -> list DataFrame -> M (list DataFrame).
Hypothesis load_nil : forall acc tr, load [] acc tr = (Ok acc, tr).
Hypothesis load_cons :
  forall ph rest acc tr,
    exists tr2,
      notices (snd (src ph tr)) tr2
      /\ load (ph :: rest) acc tr
         = load rest (acc ++ frames_of [fst (src ph tr)]) tr2.
Hypothesis src_dated :
  forall ph tr df tr1, src ph tr = (Ok df, tr1) -> Forall has_time df.

Lemma loader_runs phases :
  forall acc tr,
    exists outs tr',
      source_runs (map src phases) tr outs tr'
      /\ load phases acc tr = (Ok (acc ++ frames_of outs), tr')
      /\ Forall (Forall has_time) (frames_of outs).
Proof.
  induction phases as [|ph rest IH]; intros acc tr.
  - exists [], tr. rewrite load_nil. cbn. rewrite app_nil_r.
    repeat split; constructor.
  - destruct (load_cons ph rest acc tr) as (tr2 & Hn & E).
    destruct (src ph tr) as [r tr1] eqn:Es. cbn [fst snd] in *.
    destruct (IH (acc ++ frames_of [r]) tr2) as (outs & tr' & Hr & El & Hd).
    exists (r :: outs), tr'. split; [|split].
    + cbn [map]. eapply runs_cons; eauto.
    + rewrite E, El. f_equal. f_equal. rewrite <- app_assoc. f_equal.
      unfold frames_of. cbn. now rewrite app_nil_r.
    + unfold frames_of in *. cbn [flat_map]. apply Forall_app. split; auto.
      destruct r as [df|e]; constructor; [|constructor].
      eapply src_dated; eauto.
Qed.
End Loader.

Section Drivers.
Variable to_datetime : list date_cell -> list (option Timestamp).
Variable http : World.

Lemma patched_fda_source_dated fda_limit tr df tr1 :
  patched_fda_source to_datetime http fda_limit tr = (Ok df, tr1) ->
  Forall has_time df.
Proof.
  unfold patched_fda_source, bind, lift.
  destruct (AppPatched.fetch_fda_approvals _ _ _ _ _) as [[raw|e] t];
    [|discriminate].
  intros [= E _]. eapply parse_fda_dated; eauto.
Qed.

Lemma v1_fda_source_dated fda_limit tr df tr1 :
  v1_fda_source to_datetime http fda_limit tr = (Ok df, tr1) ->
  Forall has_time df.
Proof.
  unfold v1_fda_source, bind, lift.
  destruct (DashboardV1.fetch_fda_approvals _ _ _ _ _) as [[raw|e] t];
    [|discriminate].
  intros [= E _]. eapply parse_fda_dated; eauto.
Qed.

Lemma patched_trial_source_dated term ph tr df tr1 :
  patched_trial_source to_datetime http term ph tr = (Ok df, tr1) ->
  Forall has_time df.
Proof.
  unfold patched_trial_source, bind, lift.
  destruct (AppPatched.fetch_clinical_trials _ _ _ _ _ _) as [[raw|e] t];
    [|discriminate].
  intros [= E _]. eapply parse_trials_dated; eauto.
Qed.

Lemma v1_trial_source_dated term ph tr df tr1 :
  v1_trial_source to_datetime http term ph tr = (Ok df, tr1) ->
  Forall has_time df.
Proof.
  unfold v1_trial_source, bind, lift.
  destruct (DashboardV1.fetch_clinical_trials _ _ _ _ _ _) as [[raw|e] t];
    [|discriminate].
  intros [= E _]. eapply parse_trials_v1_dated; eauto.
Qed.

(** The [try] statement around the regulatory source: the record set on
    success, an empty frame on any exception, a notice either way. *)
Lemma patched_load_fda_run fda_limit tr :
  exists tr2,
    notices (snd (patched_fda_source to_datetime http fda_limit tr)) tr2
    /\ AppPatched.load_fda to_datetime http fda_limit tr
       = (Ok (List.concat
                (frames_of
                   [fst (patched_fda_source to_datetime http fda_limit tr)])),
          tr2).
Proof.
  unfold AppPatched.load_fda, patched_fda_source, try_except, bind, lift,
    st_success, st_error, emit, ret.
  destruct (AppPatched.fetch_fda_approvals _ _ _ _ _) as [[raw|e] t]; cbn.
  - destruct (AppPatched.parse_fda to_datetime raw) as [df|e]; cbn;
      eexists; (split; [apply notices_one|]);
      now rewrite ?app_nil_r.
  - eexists. split; [apply notices_one | reflexivity].
Qed.

Lemma v1_load_fda_run fda_limit tr :
  exists tr2,
    notices (snd (v1_fda_source to_datetime http fda_limit tr)) tr2
    /\ DashboardV1.load_fda to_datetime http fda_limit tr
       = (Ok (List.concat
                (frames_of
                   [fst (v1_fda_source to_datetime http fda_limit tr)])),
          tr2).
Proof.
  unfold DashboardV1.load_fda, v1_fda_source, try_except, bind, lift,
    st_success, st_error, emit, ret.
  destruct (DashboardV1.fetch_fda_approvals _ _ _ _ _) as [[raw|e] t]; cbn.
  - destruct (DashboardV1.parse_fda to_datetime raw) as [df|e]; cbn;
      eexists; (split; [apply notices_one|]);
      now rewrite ?app_nil_r.
  - eexists. split; [apply notices_one | reflexivity].
Qed.

Lemma patched_load_trials_cons term ph rest acc tr :
  exists tr2,
    notices (snd (patched_trial_source to_datetime http term ph tr)) tr2
    /\ AppPatched.load_trials to_datetime http term (ph :: rest) acc tr
       = AppPatched.load_trials to_datetime http term rest
           (acc ++ frames_of
                     [fst (patched_trial_source to_datetime http term ph tr)])
           tr2.
Proof.
  cbn [AppPatched.load_trials].
  unfold patched_trial_source, try_except, bind, lift,
    st_success, st_error, emit, ret.
  destruct (AppPatched.fetch_clinical_trials _ _ _ _ _ _) as [[raw|e] t];
    cbn.
  - destruct (AppPatched.parse_trials to_datetime raw ph) as [df|e]; cbn;
      eexists; (split; [apply notices_one|]);
      now rewrite ?app_nil_r.
  - eexists. split; [apply notices_one|]. now rewrite app_nil_r.
Qed.

Lemma v1_load_trials_cons term ph rest acc tr :
  exists tr2,
    notices (snd (v1_trial_source to_datetime http term ph tr)) tr2
    /\ DashboardV1.load_trials to_datetime http term (ph :: rest) acc tr
       = DashboardV1.load_trials to_datetime http term rest
           (acc ++ frames_of
                     [fst (v1_trial_source to_datetime http term ph tr)])
           tr2.
Proof.
  cbn [DashboardV1.load_trials].
  unfold v1_trial_source, try_except, bind, lift,
    st_success, st_error, emit, ret.
  destruct (DashboardV1.fetch_clinical_trials _ _ _ _ _ _) as [[raw|e] t];
    cbn.
  - destruct (DashboardV1.parse_trials to_datetime raw ph) as [df|e]; cbn;
      eexists; (split; [|now rewrite ?app_nil_r]);
      [apply extends_refl | apply notices_one].
  - eexists. split; [apply notices_one|]. now rewrite app_nil_r.
Qed.
End Drivers.

Section Pipelines.
Variable to_datetime : list date_cell -> list (option Timestamp).
Variable http : World.

Lemma frames_of_one_dated (src : M DataFrame) tr :
  (forall df tr1, src tr = (Ok df, tr1) -> Forall has_time df) ->
  Forall has_time (List.concat (frames_of [fst (src tr)])).
Proof.
  intros H. destruct (src tr) as [[df|e] tr1]; cbn.
  - rewrite app_nil_r. eapply H; eauto.
  - constructor.
Qed.

Lemma patched_pipeline_runs term phases fda_limit tr :
  exists outs out tr1 tr',
    source_runs (patched_fda_source to_datetime http fda_limit
                   :: map (patched_trial_source to_datetime http term) phases)
                tr outs tr1
    /\ AppPatched.pipeline to_datetime http term phases fda_limit tr
       = (Ok out, tr')
    /\ notices tr1 tr'
    /\ combined out = successes outs
    /\ Forall has_time (combined out)
    /\ month out = map bucket (combined out).
Proof.
  unfold AppPatched.pipeline. unfold bind at 1.
  destruct (patched_load_fda_run to_datetime http fda_limit tr)
    as (tr2 & Hn & E).
  rewrite E. unfold bind at 1.
  destruct (loader_runs
              (patched_trial_source to_datetime http term)
              (AppPatched.load_trials to_datetime http term)
              (fun acc t => eq_refl)
              (patched_load_trials_cons to_datetime http term)
              (patched_trial_source_dated to_datetime http term)
              phases [] tr2) as (outs & tr3 & Hr & El & Hd).
  rewrite El. cbn [app]. rewrite aggregate_rows.
  pose proof (frames_of_one_dated
                (patched_fda_source to_datetime http fda_limit) tr
                (patched_fda_source_dated to_datetime http fda_limit tr))
    as Hf.
  destruct (summarize_output
              (List.concat
                 (frames_of
                    [fst (patched_fda_source to_datetime http fda_limit tr)])
               ++ List.concat (frames_of outs)) tr3)
    as (out & tr' & Es & Hn' & Ec & Em).
  { apply Forall_app. split; [exact Hf | now apply Forall_concat]. }
  destruct (patched_fda_source to_datetime http fda_limit tr)
    as [r tr1] eqn:Esrc.
  cbn [fst snd] in *.
  exists (r :: outs), out, tr3, tr'.
  split; [eapply runs_cons; eauto|].
  split; [exact Es|]. split; [exact Hn'|].
  assert (combined out = successes (r :: outs)) as Hc.
  { rewrite Ec. unfold successes, frames_of. cbn [flat_map].
    rewrite !concat_app. cbn [List.concat]. now rewrite !app_nil_r. }
  split; [exact Hc|]. split; [|now rewrite Em, Ec].
  rewrite Ec. apply Forall_app. split; [exact Hf | now apply Forall_concat].
Qed.

Lemma v1_pipeline_runs term phases fda_limit tr :
  exists outs out tr1 tr',
    source_runs (v1_fda_source to_datetime http fda_limit
                   :: map (v1_trial_source to_datetime http term) phases)
                tr outs tr1
    /\ DashboardV1.pipeline to_datetime http term phases fda_limit tr
       = (Ok out, tr')
    /\ notices tr1 tr'
    /\ combined out = successes outs
    /\ Forall has_time (combined out)
    /\ month out = map bucket (combined out).
Proof.
  unfold DashboardV1.pipeline. unfold bind at 1.
  destruct (v1_load_fda_run to_datetime http fda_limit tr)
    as (tr2 & Hn & E).
  rewrite E. unfold bind at 1.
  destruct (loader_runs
              (v1_trial_source to_datetime http term)
              (DashboardV1.load_trials to_datetime http term)
              (fun acc t => eq_refl)
              (v1_load_trials_cons to_datetime http term)
              (v1_trial_source_dated to_datetime http term)
              phases [] tr2) as (outs & tr3 & Hr & El & Hd).
  rewrite El. cbn [app]. rewrite aggregate_rows.
  pose proof (frames_of_one_dated
                (v1_fda_source to_datetime http fda_limit) tr
                (v1_fda_source_dated to_datetime http fda_limit tr))
    as Hf.
  destruct (summarize_output
              (List.concat
                 (frames_of
                    [fst (v1_fda_source to_datetime http fda_limit tr)])
               ++ List.concat (frames_of outs)) tr3)
    as (out & tr' & Es & Hn' & Ec & Em).
  { apply Forall_app. split; [exact Hf | now apply Forall_concat]. }
  destruct (v1_fda_source to_datetime http fda_limit tr)
    as [r tr1] eqn:Esrc.
  cbn [fst snd] in *.
  exists (r :: outs), out, tr3, tr'.
  split; [eapply runs_cons; eauto|].
  split; [exact Es|]. split; [exact Hn'|].
  assert (combined out = successes (r :: outs)) as Hc.
  { rewrite Ec. unfold successes, frames_of. cbn [flat_map].
    rewrite !concat_app. cbn [List.concat]. now rewrite !app_nil_r. }
  split; [exact Hc|]. split; [|now rewrite Em, Ec].
  rewrite Ec. apply Forall_app. split; [exact Hf | now apply Forall_concat].
Qed.

(** [app.py]: the record sets gathered by the phase loop, when it
    completes, all come from the normalizer. *)
Lemma app_fetch_phases_dated term phases :
  forall acc tr dfs tr',
    Forall (Forall has_time) acc ->
    App.fetch_phases to_datetime http term phases acc tr = (Ok dfs, tr') ->
    Forall (Forall has_time) dfs.
Proof.
  induction phases as [|ph rest IH]; intros acc tr dfs tr' Hacc.
  - cbn. unfold ret. now intros [= <- _].
  - cbn [App.fetch_phases]. unfold bind at 1.
    destruct (App.fetch_clinical_trials http term ph 200 tr)
      as [[raw|e] tr1]; [|discriminate].
    unfold bind at 1, lift at 1.
    destruct (App.parse_trials to_datetime raw ph) as [df|e] eqn:Ep;
      [|discriminate].
    apply IH. apply Forall_app. split; [exact Hacc|].
    constructor; [|constructor]. eapply parse_trials_dated; eauto.
Qed.

Lemma app_pipeline_dated term phases fda_limit tr out tr' :
  App.pipeline to_datetime http term phases fda_limit tr = (Ok out, tr') ->
  Forall has_time (combined out) /\ month out = map bucket (combined out).
Proof.
  unfold App.pipeline. unfold bind at 1.
  destruct (App.fetch_fda_approvals http fda_limit tr) as [[raw|e] tr1];
    [|discriminate].
  unfold bind at 1, lift at 1.
  destruct (App.parse_fda to_datetime raw) as [fda_df|e] eqn:Ep;
    [|discriminate].
  unfold bind at 1.
  destruct (App.fetch_phases to_datetime http term phases [] tr1)
    as [[dfs|e] tr2] eqn:Ef; [|discriminate].
  rewrite aggregate_app_rows.
  assert (Forall has_time (fda_df ++ List.concat dfs)) as Hd.
  { apply Forall_app. split.
    - eapply parse_fda_dated; eauto.
    - apply Forall_concat.
      eapply app_fetch_phases_dated; [|exact Ef]. constructor. }
  destruct (summarize_output _ tr2 Hd) as (out' & tr'' & Es & _ & Ec & Em).
  rewrite Es. intros [= <- _]. rewrite Ec. now split.
Qed.
End Pipelines.

(* ===================================================================== *)
(** * Runs of the clients and of the pipeline *)
(* ===================================================================== *)

Lemma fetch_exhausted_witness :
  (exists tr',
     AppPatched.fetch_fda_approvals down_world (Some 50) 3 (3 # 2) []
     = (Raise (RuntimeError AppPatched.fda_err_msg (Some (HTTPError 500))), tr')
     /\ n_requests tr' = 6%nat)
  /\ (exists tr',
     AppPatched.fetch_clinical_trials down_world "oncology" "Phase 3" 200 3 []
     = (Raise (RuntimeError AppPatched.trials_err_msg (Some (HTTPError 500))),
        tr')
     /\ n_requests tr' = 3%nat).
Proof.
  destruct (fetch_exhausted_after_all_attempts
              down_world (Some 50) 3 (3 # 2) "oncology" "Phase 3" 200 [])
    as [Hfda Htrials].
  - reflexivity.
  - lia.
  - split.
    + destruct Hfda as (tr' & E & N).
      * intros a Ha.
        assert (a = 1 \/ a = 2 \/ a = 3) as [->|[->| ->]] by lia;
          reflexivity.
      * exists tr'. split; [exact E|]. cbn in N. lia.
    + destruct Htrials as (tr' & E & N).
      * lia.
      * exists tr'. split; [exact E|]. cbn in N. lia.
Defined.

Lemma fetch_returns_on_last_attempt_witness :
  (exists tr',
     AppPatched.fetch_fda_approvals flaky_services (Some 50) 3 (3 # 2) []
     = (Ok (JList [acme_entry]), tr')
     /\ n_requests tr' = 3%nat)
  /\ (exists tr',
     AppPatched.fetch_clinical_trials flaky_services "oncology" "Phase 3"
       200 3 []
     = (Ok scenario_studies, tr')
     /\ n_requests tr' = 3%nat).
Proof.
  destruct (fetch_returns_on_last_attempt
              flaky_services (Some 50) 3 (3 # 2) "oncology" "Phase 3" 200 [])
    as [Hfda Htrials].
  - lia.
  - split.
    + destruct (Hfda openfda_body) as [(tr' & E & N) _].
      * intros a Ha.
        assert (a = 1 \/ a = 2) as [->| ->] by lia; reflexivity.
      * intros i Hi. cbn in Hi.
        destruct i as [|[|i]]; [reflexivity ..|lia].
      * reflexivity.
      * exists tr'. split; [exact E|]. cbn in N. lia.
    + destruct (Htrials registry_body scenario_studies)
        as [(tr' & E & N) _].
      * lia.
      * intros i Hi. cbn in Hi.
        destruct i as [|[|i]]; [reflexivity ..|lia].
      * reflexivity.
      * reflexivity.
      * exists tr'. split; [exact E|]. cbn in N. lia.
Defined.

Lemma trial_fetch_key_error_witness :
  (exists tr1,
     n_requests tr1 = 1%nat
     /\ AppPatched.fetch_clinical_trials keyless_world "oncology" "Phase 3"
          200 2 []
        = (Raise (KeyError "StudyFieldsResponse"),
           EvGet (AppPatched.trials_request "oncology" "Phase 3" 200) :: tr1))
  /\ (exists tr1,
     n_requests tr1 = 1%nat
     /\ AppPatched.fetch_fda_approvals keyless_world (Some 50) 2 (3 # 2) []
        = (Ok (JList []),
           EvGet (AppPatched.fda_request
                    (nth 0 (AppPatched.fda_urls 50) "")) :: tr1)).
Proof.
  destruct (trial_fetch_key_error_not_retried
              keyless_world (Some 50) 2 (3 # 2) "oncology" "Phase 3" 200 1 [])
    as (Htrials & _ & Hfda).
  - lia.
  - split.
    + destruct (Htrials [("error", JStr "not found")] "StudyFieldsResponse")
        as [(tr1 & N & E) _].
      * lia.
      * intros i Hi. destruct i as [|i]; [reflexivity | lia].
      * reflexivity.
      * left. split; reflexivity.
      * exists tr1. split; [exact N | exact E].
    + destruct (Hfda [("error", JStr "not found")]) as (tr1 & N & E).
      * intros a Ha. assert (a = 1) as -> by lia. reflexivity.
      * intros i Hi. destruct i as [|i]; [reflexivity | lia].
      * reflexivity.
      * reflexivity.
      * exists tr1. split; [exact N | exact E].
Defined.

(** C1, as the code has it.  In [app_patched.py] and
    [pharma_dashboard_v1.py], whatever the outcome of each source, every
    source is run (the regulatory one, then one per selected phase), the
    run completes, and the combined table is the concatenation of the
    record sets of the sources whose fetch and normalization succeeded. *)
Theorem pipeline_isolates_source_failures :
  forall (to_datetime : list date_cell -> list (option Timestamp))
         (http : World) (term : string) (phases : list string)
         (fda_limit : Z) (tr : Trace),
    (exists outs out tr1 tr',
       source_runs (patched_fda_source to_datetime http fda_limit
                      :: map (patched_trial_source to_datetime http term) phases)
                   tr outs tr1
       /\ AppPatched.pipeline to_datetime http term phases fda_limit tr
          = (Ok out, tr')
       /\ notices tr1 tr'
       /\ combined out = successes outs)
    /\ (exists outs out tr1 tr',
       source_runs (v1_fda_source to_datetime http fda_limit
                      :: map (v1_trial_source to_datetime http term) phases)
                   tr outs tr1
       /\ DashboardV1.pipeline to_datetime http term phases fda_limit tr
          = (Ok out, tr')
       /\ notices tr1 tr'
       /\ combined out = successes outs).
Proof.
  intros to_datetime http term phases fda_limit tr. split.
  - destruct (patched_pipeline_runs to_datetime http term phases fda_limit tr)
      as (outs & out & tr1 & tr' & Hr & E & Hn & Hc & _).
    exists outs, out, tr1, tr'. auto.
  - destruct (v1_pipeline_runs to_datetime http term phases fda_limit tr)
      as (outs & out & tr1 & tr' & Hr & E & Hn & Hc & _).
    exists outs, out, tr1, tr'. auto.
Qed.

(** C1 as worded fails on [app.py]: with the regulatory service down the
    run ends with the [HTTPError] of the first request, and the trial
    registry, which would have answered, is never asked. *)
Lemma app_pipeline_aborts_on_failed_fetch :
  App.pipeline CompactDate.to_datetime fda_down_world "oncology" ["Phase 3"] 50 []
  = (Raise (HTTPError 500),
     [EvGet (mkRequest
               "https://api.fda.gov/drug/drugsfda.json?search=products.marketing_status:'1'&limit=50"
               [] None)])
  /\ fst (App.fetch_clinical_trials fda_down_world "oncology" "Phase 3" 200 [])
     = Ok scenario_studies.
Proof. split; reflexivity. Qed.

(** C6.  Every row of the combined table carries a parsed date, and its
    month is the month of that date: the normalizers return only rows whose
    date was read, and the drivers combine nothing else.  In
    [app_patched.py] and [pharma_dashboard_v1.py] the run always produces
    such a table; in [app.py] it does whenever the run completes. *)
Theorem combined_rows_have_dates :
  forall (to_datetime : list date_cell -> list (option Timestamp))
         (http : World) (term : string) (phases : list string)
         (fda_limit : Z) (tr : Trace),
    (exists out tr',
       AppPatched.pipeline to_datetime http term phases fda_limit tr
       = (Ok out, tr')
       /\ Forall has_time (combined out)
       /\ month out = map bucket (combined out))
    /\ (exists out tr',
       DashboardV1.pipeline to_datetime http term phases fda_limit tr
       = (Ok out, tr')
       /\ Forall has_time (combined out)
       /\ month out = map bucket (combined out))
    /\ (forall out tr',
       App.pipeline to_datetime http term phases fda_limit tr = (Ok out, tr') ->
       Forall has_time (combined out)
       /\ month out = map bucket (combined out))
    /\ (forall data df,
       Normalize.parse_fda to_datetime data = Ok df -> Forall has_time df)
    /\ (forall data ph df,
       Normalize.parse_trials to_datetime data ph = Ok df ->
       Forall has_time df)
    /\ (forall data ph df,
       Normalize.parse_trials_v1 to_datetime data ph = Ok df ->
       Forall has_time df).
Proof.
  intros to_datetime http term phases fda_limit tr. repeat split.
  - destruct (patched_pipeline_runs to_datetime http term phases fda_limit tr)
      as (outs & out & tr1 & tr' & _ & E & _ & _ & Hd & Hm).
    exists out, tr'. auto.
  - destruct (v1_pipeline_runs to_datetime http term phases fda_limit tr)
      as (outs & out & tr1 & tr' & _ & E & _ & _ & Hd & Hm).
    exists out, tr'. auto.
  - eapply app_pipeline_dated; eauto.
  - eapply app_pipeline_dated; eauto.
  - apply parse_fda_dated.
  - apply parse_trials_dated.
  - apply parse_trials_v1_dated.
Qed.

Lemma combined_rows_have_dates_witness :
  Forall has_time
    (combined
       (mkOutput [acme_record] [Some (mkPeriod 2023 1)]
                 (Some [((mkPeriod 2023 1, "FDA"), 1%nat)])
                 (Some (mkWide [mkPeriod 2023 1] ["FDA"] [[1%nat]])))).
Proof.
  destruct (combined_rows_have_dates
              CompactDate.to_datetime (fun _ _ => Reply 200 (Some (JDict scenario_body)))
              "oncology" [] 50 [])
    as (_ & _ & H & _).
  apply (H _ [EvGet (mkRequest
               "https://api.fda.gov/drug/drugsfda.json?search=products.marketing_status:'1'&limit=50"
               [] None)]).
  reflexivity.
Defined.

(* ===================================================================== *)
(** * Further properties of the source clients *)
(* ===================================================================== *)

Section ForEachBounds.
Context {A X : Type}.
Variable body : X -> option exn -> M (step A).

(** A count over the trace that each pass raises by at most [c] is
    raised by at most [c] per item by the loop, and never lowered. *)
Lemma for_each_count_le (mu : Trace -> nat) (c : nat) (xs : list X) :
  (forall x last tr,
     (mu tr <= mu (snd (body x last tr)) <= mu tr + c)%nat) ->
  forall last tr,
    (mu tr <= mu (snd (for_each xs body last tr))
     <= mu tr + c * List.length xs)%nat.
Proof.
  intros Hbody. induction xs as [|x xs IH]; intros last tr.
  - unfold for_each, ret. cbn [snd List.length]. lia.
  - cbn [for_each List.length]. unfold bind.
    pose proof (Hbody x last tr) as H1.
    destruct (body x last tr) as [[[l|v]|e] tr1]; unfold ret;
      cbn [snd] in *; try lia.
    specialize (IH l tr1). lia.
Qed.

(** A loop whose passes issue at most [c] requests each issues at most
    [c] requests per item, and never removes one. *)
Lemma for_each_requests_le (c : nat) (xs : list X) :
  (forall x last tr,
     (n_requests tr <= n_requests (snd (body x last tr)) <= n_requests tr + c)%nat) ->
  forall last tr,
    (n_requests tr <= n_requests (snd (for_each xs body last tr))
     <= n_requests tr + c * List.length xs)%nat.
Proof. apply for_each_count_le. Qed.

(** Passes that all fail leave one sleep each, in order. *)
Lemma for_each_failed_sleeps (P : nat -> Prop) (G : X -> Prop)
    (g : X -> Q * Z) :
  (forall x last tr, G x -> P (n_requests tr) ->
     exists e lvl req,
       body x last tr
       = (Ok (Continue (Some e)),
          EvSleep (fst (g x)) (snd (g x)) :: EvNotice lvl :: EvGet req :: tr)) ->
  forall xs last tr,
    Forall G xs ->
    (forall i, (i < List.length xs)%nat -> P (n_requests tr + i)%nat) ->
    exists last' tr',
      for_each xs body last tr = (Ok (Continue last'), tr')
      /\ n_requests tr' = (n_requests tr + List.length xs)%nat
      /\ sleeps_of tr' = sleeps_of tr ++ map g xs.
Proof.
  intros Hbody. induction xs as [|x xs IH]; intros last tr HG HP.
  - exists last, tr. cbn. rewrite app_nil_r. repeat split; lia.
  - inversion HG as [|? ? Gx Gxs]; subst.
    destruct (Hbody x last tr Gx) as (e & lvl & req & E1).
    { specialize (HP O). rewrite Nat.add_0_r in HP. apply HP. cbn. lia. }
    set (tr1 := EvSleep (fst (g x)) (snd (g x)) :: EvNotice lvl
                  :: EvGet req :: tr) in *.
    assert (n_requests tr1 = S (n_requests tr)) as N1
      by (unfold tr1; now rewrite !n_requests_cons).
    destruct (IH (Some e) tr1 Gxs) as (last' & tr2 & E2 & N2 & S2).
    { intros i Hi. rewrite N1.
      replace (S (n_requests tr) + i)%nat with (n_requests tr + S i)%nat
        by lia.
      apply HP. cbn. lia. }
    exists last', tr2. cbn [for_each]. unfold bind at 1. rewrite E1, E2.
    split; [reflexivity|]. split; [rewrite N2, N1; cbn; lia|].
    rewrite S2. unfold tr1. cbn [sleeps_of map].
    rewrite <- app_assoc. cbn. now destruct (g x).
Qed.
End ForEachBounds.

Ltac count_req :=
  first [ reflexivity | now rewrite !n_requests_cons ].

Section AttemptTraces.
Variable http : World.

Lemma patched_fda_attempt_fails_trace url backoff attempt last tr :
  sleep_outcome backoff attempt = None ->
  is_failure (http (n_requests tr) (AppPatched.fda_request url)) = true ->
  exists e lvl req,
    AppPatched.fda_attempt http url backoff attempt last tr
    = (Ok (Continue (Some e)),
       EvSleep backoff attempt :: EvNotice lvl :: EvGet req :: tr).
Proof.
  intros Hq. run_attempt. rewrite Hq.
  destruct (http (n_requests tr) (AppPatched.fda_request url))
    as [status body|e]; cbn; intros H.
  - rewrite H. do 3 eexists. reflexivity.
  - destruct e; cbn in *; try discriminate; do 3 eexists; reflexivity.
Qed.

Lemma v1_fda_attempt_fails_trace url backoff attempt last tr :
  sleep_outcome backoff attempt = None ->
  is_failure (http (n_requests tr) (AppPatched.fda_request url)) = true ->
  exists e lvl req,
    DashboardV1.fda_attempt http url backoff attempt last tr
    = (Ok (Continue (Some e)),
       EvSleep backoff attempt :: EvNotice lvl :: EvGet req :: tr).
Proof.
  intros Hq. run_attempt. rewrite Hq.
  destruct (http (n_requests tr) (AppPatched.fda_request url))
    as [status body|e]; cbn; intros H.
  - rewrite H. do 3 eexists. reflexivity.
  - destruct e; cbn in *; try discriminate; do 3 eexists; reflexivity.
Qed.

Lemma patched_trials_attempt_fails_trace req attempt last tr :
  sleep_outcome (3 # 2) attempt = None ->
  is_failure (http (n_requests tr) req) = true ->
  exists e lvl req',
    AppPatched.trials_attempt http req attempt last tr
    = (Ok (Continue (Some e)),
       EvSleep (3 # 2) attempt :: EvNotice lvl :: EvGet req' :: tr).
Proof.
  intros Hq. run_attempt. rewrite Hq.
  destruct (http (n_requests tr) req) as [status body|e]; cbn; intros H.
  - rewrite H. do 3 eexists. reflexivity.
  - destruct e; cbn in *; try discriminate; do 3 eexists; reflexivity.
Qed.

Lemma v1_trials_attempt_fails_trace req attempt last tr :
  sleep_outcome (3 # 2) attempt = None ->
  is_failure (http (n_requests tr) req) = true ->
  exists e lvl req',
    DashboardV1.trials_attempt http req attempt last tr
    = (Ok (Continue (Some e)),
       EvSleep (3 # 2) attempt :: EvNotice lvl :: EvGet req' :: tr).
Proof.
  intros Hq. run_attempt. rewrite Hq.
  destruct (http (n_requests tr) req) as [status body|e]; cbn; intros H.
  - rewrite H. do 3 eexists. reflexivity.
  - destruct e; cbn in *; try discriminate; do 3 eexists; reflexivity.
Qed.

(** Whatever the response, one attempt issues exactly one request. *)
Lemma patched_fda_attempt_one_request url backoff attempt last tr :
  n_requests (snd (AppPatched.fda_attempt http url backoff attempt last tr))
  = S (n_requests tr).
Proof.
  run_attempt.
  destruct (http (n_requests tr) (AppPatched.fda_request url))
    as [status body|e]; cbn.
  - destruct (status =? 200); cbn; [|sleep_cases; count_req].
    destruct body as [data|]; cbn; [|sleep_cases; count_req].
    destruct (py_get data "results" (JList [])) as [v|e]; cbn;
      [count_req|].
    destruct e; cbn; sleep_cases; count_req.
  - destruct e; cbn; sleep_cases; count_req.
Qed.

Lemma v1_fda_attempt_one_request url backoff attempt last tr :
  n_requests (snd (DashboardV1.fda_attempt http url backoff attempt last tr))
  = S (n_requests tr).
Proof.
  run_attempt.
  destruct (http (n_requests tr) (AppPatched.fda_request url))
    as [status body|e]; cbn.
  - destruct (status =? 200); cbn; [|sleep_cases; count_req].
    destruct body as [data|]; cbn; [|sleep_cases; count_req].
    destruct (py_get data "results" (JList [])) as [v|e]; cbn;
      [count_req|].
    destruct e; cbn; sleep_cases; count_req.
  - destruct e; cbn; sleep_cases; count_req.
Qed.

Lemma patched_trials_attempt_one_request req attempt last tr :
  n_requests (snd (AppPatched.trials_attempt http req attempt last tr))
  = S (n_requests tr)
  /\ extends (only_request req) tr
       (snd (AppPatched.trials_attempt http req attempt last tr)).
Proof.
  run_attempt.
  destruct (http (n_requests tr) req) as [status body|e]; cbn.
  - destruct (status =? 200); cbn;
      [|sleep_cases; (split; [count_req | trace_steps])].
    destruct body as [data|]; cbn;
      [|sleep_cases; (split; [count_req | trace_steps])].
    destruct (py_getitem data "StudyFieldsResponse") as [fields|e]; cbn.
    + destruct (py_getitem fields "StudyFields") as [v|e]; cbn;
        [split; [count_req | trace_steps]|].
      destruct e; cbn; sleep_cases; (split; [count_req | trace_steps]).
    + destruct e; cbn; sleep_cases; (split; [count_req | trace_steps]).
  - destruct e; cbn; sleep_cases; (split; [count_req | trace_steps]).
Qed.

Lemma v1_trials_attempt_one_request req attempt last tr :
  n_requests (snd (DashboardV1.trials_attempt http req attempt last tr))
  = S (n_requests tr)
  /\ extends (only_request req) tr
       (snd (DashboardV1.trials_attempt http req attempt last tr)).
Proof.
  run_attempt.
  destruct (http (n_requests tr) req) as [status body|e]; cbn.
  - destruct (status =? 200); cbn;
      [|sleep_cases; (split; [count_req | trace_steps])].
    destruct body as [data|]; cbn;
      [|sleep_cases; (split; [count_req | trace_steps])].
    destruct (py_getitem data "StudyFieldsResponse") as [fields|e]; cbn.
    + destruct (py_getitem fields "StudyFields") as [v|e]; cbn;
        [split; [count_req | trace_steps]|].
      destruct e; cbn; sleep_cases; (split; [count_req | trace_steps]).
    + destruct e; cbn; sleep_cases; (split; [count_req | trace_steps]).
  - destruct e; cbn; sleep_cases; (split; [count_req | trace_steps]).
Qed.
End AttemptTraces.

(** X1 (pharma_dashboard_v1.py).  When every attempt fails and the sleep
    after each attempt is accepted, both clients of this file raise the
    exhaustion [RuntimeError] whose cause is the exception of the last
    attempt, after [retries * 2] requests for the regulatory client and
    [retries] for the trial-registry client. *)
Theorem v1_fetch_exhausted_after_all_attempts :
  forall (http : World) (limit : option Z) (retries : Z) (backoff : Q)
         (term phase : string) (max_studies : Z) (tr : Trace),
    (forall n req, is_failure (http n req) = true) ->
    0 <= retries ->
    let urls := AppPatched.fda_urls (AppPatched.effective_limit limit) in
    let fda_last := AppPatched.fda_request (nth 1 urls "") in
    let trials_req := AppPatched.trials_request term phase max_studies in
    (quiet_sleeps backoff retries ->
     exists tr',
       DashboardV1.fetch_fda_approvals http limit retries backoff tr
       = (Raise (RuntimeError DashboardV1.fda_err_msg
                   (if retries =? 0 then None
                    else Some (failure_exn
                                 (http (n_requests tr + 2 * Z.to_nat retries - 1)%nat
                                       fda_last)))),
          tr')
       /\ Z.of_nat (n_requests tr') - Z.of_nat (n_requests tr) = retries * 2)
    /\
    (retries <= 56 ->
     exists tr',
       DashboardV1.fetch_clinical_trials http term phase max_studies retries tr
       = (Raise (RuntimeError AppPatched.trials_err_msg
                   (if retries =? 0 then None
                    else Some (failure_exn
                                 (http (n_requests tr + Z.to_nat retries - 1)%nat
                                       trials_req)))),
          tr')
       /\ Z.of_nat (n_requests tr') - Z.of_nat (n_requests tr) = retries).
Proof.
  intros http limit retries backoff term phase max_studies tr Hfail Hr.
  cbn zeta. split.
  - intros Hq.
    unfold DashboardV1.fetch_fda_approvals, AppPatched.fda_urls.
    cbn [for_each nth]. unfold bind.
    set (u1 := String.append _ _). set (u2 := String.append _ _).
    destruct (v1_fda_loop_fails http u1 backoff retries None tr Hq)
      as (tr1 & E1 & N1); [intros i _; apply Hfail|].
    rewrite E1.
    destruct (v1_fda_loop_fails http u2 backoff retries
                (last_after
                   (fun n => failure_exn (http n (AppPatched.fda_request u1)))
                   None (n_requests tr) (Z.to_nat retries)) tr1 Hq)
      as (tr2 & E2 & N2); [intros i _; apply Hfail|].
    rewrite E2. cbn. unfold raise. exists tr2. split; [|lia].
    do 3 f_equal. rewrite N1.
    destruct (Z.to_nat retries) as [|k] eqn:Hk.
    + replace retries with 0 by lia. reflexivity.
    + destruct (Z.eqb_spec retries 0) as [->|_]; [discriminate|].
      cbn [last_after]. do 3 f_equal. lia.
  - intros Hq. apply trial_sleeps_quiet in Hq.
    unfold DashboardV1.fetch_clinical_trials, bind.
    destruct (v1_trials_loop_fails http
                (AppPatched.trials_request term phase max_studies)
                retries None tr Hq)
      as (tr1 & E1 & N1); [intros i _; apply Hfail|].
    rewrite E1. unfold raise. exists tr1. split; [|lia].
    do 3 f_equal.
    destruct (Z.to_nat retries) as [|k] eqn:Hk.
    + replace retries with 0 by lia. reflexivity.
    + destruct (Z.eqb_spec retries 0) as [->|_]; [discriminate|].
      cbn [last_after]. do 3 f_equal. lia.
Qed.

Lemma v1_fetch_exhausted_witness :
  (exists tr',
     DashboardV1.fetch_fda_approvals down_world (Some 50) 2 (3 # 2) []
     = (Raise (RuntimeError DashboardV1.fda_err_msg (Some (HTTPError 500))),
        tr')
     /\ n_requests tr' = 4%nat)
  /\ (exists tr',
     DashboardV1.fetch_clinical_trials down_world "oncology" "Phase 2" 200 2 []
     = (Raise (RuntimeError AppPatched.trials_err_msg (Some (HTTPError 500))),
        tr')
     /\ n_requests tr' = 2%nat).
Proof.
  destruct (v1_fetch_exhausted_after_all_attempts
              down_world (Some 50) 2 (3 # 2) "oncology" "Phase 2" 200 [])
    as [Hfda Htrials].
  - reflexivity.
  - lia.
  - split.
    + destruct Hfda as (tr' & E & N).
      * intros a Ha. assert (a = 1 \/ a = 2) as [->| ->] by lia; reflexivity.
      * exists tr'. split; [exact E|]. cbn in N. lia.
    + destruct Htrials as (tr' & E & N).
      * lia.
      * exists tr'. split; [exact E|]. cbn in N. lia.
Defined.

(** X2.  With a retry count of zero or less the retrying clients issue no
    request at all: they raise the exhaustion [RuntimeError] at once, with
    no cause, and leave the trace as it was. *)
Theorem no_attempt_without_retries :
  forall (http : World) (limit : option Z) (retries : Z) (backoff : Q)
         (term phase : string) (max_studies : Z) (tr : Trace),
    retries <= 0 ->
    AppPatched.fetch_fda_approvals http limit retries backoff tr
    = (Raise (RuntimeError AppPatched.fda_err_msg None), tr)
    /\ DashboardV1.fetch_fda_approvals http limit retries backoff tr
       = (Raise (RuntimeError DashboardV1.fda_err_msg None), tr)
    /\ AppPatched.fetch_clinical_trials http term phase max_studies retries tr
       = (Raise (RuntimeError AppPatched.trials_err_msg None), tr)
    /\ DashboardV1.fetch_clinical_trials http term phase max_studies retries tr
       = (Raise (RuntimeError AppPatched.trials_err_msg None), tr).
Proof.
  intros http limit retries backoff term phase max_studies tr Hr.
  unfold AppPatched.fetch_fda_approvals, DashboardV1.fetch_fda_approvals,
    AppPatched.fetch_clinical_trials, DashboardV1.fetch_clinical_trials,
    AppPatched.fda_urls.
  rewrite (py_range_nil 1 (retries + 1)) by lia.
  repeat split.
Qed.

Lemma no_attempt_without_retries_witness :
  AppPatched.fetch_fda_approvals flaky_world (Some 50) (-1) (3 # 2) []
  = (Raise (RuntimeError AppPatched.fda_err_msg None), []).
Proof.
  apply (no_attempt_without_retries
           flaky_world (Some 50) (-1) (3 # 2) "oncology" "Phase 2" 200 []).
  lia.
Defined.

(** X3.  When the primary query fails on all its attempts, the sleeps
    after them are accepted, and the first attempt of the secondary query
    (no search clause) is answered with status 200 and a decodable object,
    the regulatory fetch returns that object's results after [retries + 1]
    requests, the last one sent to the secondary URL. *)
Theorem fda_fetch_falls_back_to_second_url :
  forall (http : World) (limit : option Z) (retries : Z) (backoff : Q)
         (d : list (string * json)) (tr : Trace),
    let urls := AppPatched.fda_urls (AppPatched.effective_limit limit) in
    let primary := AppPatched.fda_request (nth 0 urls "") in
    let secondary := AppPatched.fda_request (nth 1 urls "") in
    fails_first http primary (n_requests tr) (Z.to_nat retries) ->
    http (n_requests tr + Z.to_nat retries)%nat secondary
      = Reply 200 (Some (JDict d)) ->
    0 < retries ->
    quiet_sleeps backoff retries ->
    (exists tr1,
       n_requests tr1 = (n_requests tr + Z.to_nat retries)%nat
       /\ AppPatched.fetch_fda_approvals http limit retries backoff tr
          = (Ok (results_of d), EvGet secondary :: tr1))
    /\ (exists tr1,
       n_requests tr1 = (n_requests tr + Z.to_nat retries)%nat
       /\ DashboardV1.fetch_fda_approvals http limit retries backoff tr
          = (Ok (results_of d), EvGet secondary :: tr1)).
Proof.
  intros http limit retries backoff d tr. cbn zeta.
  unfold AppPatched.fetch_fda_approvals, DashboardV1.fetch_fda_approvals,
    AppPatched.fda_urls.
  cbn [for_each nth].
  set (u1 := String.append _ _). set (u2 := String.append _ _).
  intros Hfirst H200 Hpos Hq. split.
  - unfold bind at 1 2.
    destruct (patched_fda_loop_fails http u1 backoff retries None tr Hq Hfirst)
      as (tr1 & E1 & N1).
    rewrite E1. rewrite (py_range_cons 1 (retries + 1)) by lia.
    cbn [for_each]. unfold bind at 1 2.
    rewrite (patched_fda_attempt_ok http u2 backoff _ _ tr1 d)
      by (now rewrite N1).
    exists tr1. split; [exact N1 | reflexivity].
  - unfold bind at 1 2.
    destruct (v1_fda_loop_fails http u1 backoff retries None tr Hq Hfirst)
      as (tr1 & E1 & N1).
    rewrite E1. rewrite (py_range_cons 1 (retries + 1)) by lia.
    cbn [for_each]. unfold bind at 1 2.
    rewrite (v1_fda_attempt_ok http u2 backoff _ _ tr1 d)
      by (now rewrite N1).
    exists tr1. split; [exact N1 | reflexivity].
Qed.

Lemma fda_fetch_falls_back_witness :
  exists tr1,
    n_requests tr1 = 3%nat
    /\ AppPatched.fetch_fda_approvals primary_down_world (Some 50) 3 (3 # 2) []
       = (Ok (JList [acme_entry]),
          EvGet (AppPatched.fda_request
                   "https://api.fda.gov/drug/drugsfda.json?limit=50") :: tr1).
Proof.
  destruct (fda_fetch_falls_back_to_second_url
              primary_down_world (Some 50) 3 (3 # 2) scenario_body [])
    as [(tr1 & N & E) _].
  - intros i Hi. cbn in Hi. destruct i as [|[|[|i]]]; [reflexivity ..|lia].
  - reflexivity.
  - lia.
  - intros a Ha.
    assert (a = 1 \/ a = 2 \/ a = 3) as [->|[->| ->]] by lia; reflexivity.
  - exists tr1. split; [exact N | exact E].
Defined.

(** X4.  When every attempt fails and every sleep is accepted, the fetch
    sleeps once after each failed attempt, the last one included, for
    [backoff ** attempt] with [attempt] counting 1, 2, ..., [retries]; the
    regulatory client starts the count again for its second URL, and the
    trial-registry client uses base 1.5. *)
Theorem backoff_schedule_on_exhaustion :
  forall (http : World) (limit : option Z) (retries : Z) (backoff : Q)
         (term phase : string) (max_studies : Z) (tr : Trace),
    (forall n req, is_failure (http n req) = true) ->
    let attempts := py_range 1 (retries + 1) in
    (quiet_sleeps backoff retries ->
     sleeps_of (snd (AppPatched.fetch_fda_approvals http limit retries backoff tr))
     = sleeps_of tr ++ map (pair backoff) attempts ++ map (pair backoff) attempts
     /\ sleeps_of (snd (DashboardV1.fetch_fda_approvals http limit retries backoff tr))
        = sleeps_of tr ++ map (pair backoff) attempts ++ map (pair backoff) attempts)
    /\ (retries <= 56 ->
        sleeps_of (snd (AppPatched.fetch_clinical_trials
                          http term phase max_studies retries tr))
        = sleeps_of tr ++ map (pair (3 # 2)) attempts
        /\ sleeps_of (snd (DashboardV1.fetch_clinical_trials
                             http term phase max_studies retries tr))
           = sleeps_of tr ++ map (pair (3 # 2)) attempts).
Proof.
  intros http limit retries backoff term phase max_studies tr Hfail.
  cbn zeta.
  unfold AppPatched.fetch_fda_approvals, DashboardV1.fetch_fda_approvals,
    AppPatched.fetch_clinical_trials, DashboardV1.fetch_clinical_trials,
    AppPatched.fda_urls.
  cbn [for_each]. set (u1 := String.append _ _). set (u2 := String.append _ _).
  split.
  - intros Hq.
    pose proof (quiet_sleeps_range backoff retries retries Hq (Z.le_refl _))
      as Hall.
    split.
    + unfold bind at 1 2.
      destruct (for_each_failed_sleeps
                  (AppPatched.fda_attempt http u1 backoff)
                  (fun _ => True)
                  (fun a => sleep_outcome backoff a = None) (pair backoff)
                  (fun x l t Hx _ => patched_fda_attempt_fails_trace
                                       http u1 backoff x l t Hx (Hfail _ _))
                  (py_range 1 (retries + 1)) None tr Hall (fun _ _ => I))
        as (l1 & tr1 & E1 & _ & S1).
      rewrite E1. unfold bind at 1.
      destruct (for_each_failed_sleeps
                  (AppPatched.fda_attempt http u2 backoff)
                  (fun _ => True)
                  (fun a => sleep_outcome backoff a = None) (pair backoff)
                  (fun x l t Hx _ => patched_fda_attempt_fails_trace
                                       http u2 backoff x l t Hx (Hfail _ _))
                  (py_range 1 (retries + 1)) l1 tr1 Hall (fun _ _ => I))
        as (l2 & tr2 & E2 & _ & S2).
      rewrite E2. cbn. now rewrite S2, S1, <- app_assoc.
    + unfold bind at 1 2.
      destruct (for_each_failed_sleeps
                  (DashboardV1.fda_attempt http u1 backoff)
                  (fun _ => True)
                  (fun a => sleep_outcome backoff a = None) (pair backoff)
                  (fun x l t Hx _ => v1_fda_attempt_fails_trace
                                       http u1 backoff x l t Hx (Hfail _ _))
                  (py_range 1 (retries + 1)) None tr Hall (fun _ _ => I))
        as (l1 & tr1 & E1 & _ & S1).
      rewrite E1. unfold bind at 1.
      destruct (for_each_failed_sleeps
                  (DashboardV1.fda_attempt http u2 backoff)
                  (fun _ => True)
                  (fun a => sleep_outcome backoff a = None) (pair backoff)
                  (fun x l t Hx _ => v1_fda_attempt_fails_trace
                                       http u2 backoff x l t Hx (Hfail _ _))
                  (py_range 1 (retries + 1)) l1 tr1 Hall (fun _ _ => I))
        as (l2 & tr2 & E2 & _ & S2).
      rewrite E2. cbn. now rewrite S2, S1, <- app_assoc.
  - intros Hr.
    pose proof (quiet_sleeps_range (3 # 2) retries retries
                  (trial_sleeps_quiet retries Hr) (Z.le_refl _)) as Hall.
    split.
    + unfold bind.
      destruct (for_each_failed_sleeps
                  (AppPatched.trials_attempt http
                     (AppPatched.trials_request term phase max_studies))
                  (fun _ => True)
                  (fun a => sleep_outcome (3 # 2) a = None) (pair (3 # 2))
                  (fun x l t Hx _ => patched_trials_attempt_fails_trace
                                       http _ x l t Hx (Hfail _ _))
                  (py_range 1 (retries + 1)) None tr Hall (fun _ _ => I))
        as (l1 & tr1 & E1 & _ & S1).
      rewrite E1. cbn. exact S1.
    + unfold bind.
      destruct (for_each_failed_sleeps
                  (DashboardV1.trials_attempt http
                     (AppPatched.trials_request term phase max_studies))
                  (fun _ => True)
                  (fun a => sleep_outcome (3 # 2) a = None) (pair (3 # 2))
                  (fun x l t Hx _ => v1_trials_attempt_fails_trace
                                       http _ x l t Hx (Hfail _ _))
                  (py_range 1 (retries + 1)) None tr Hall (fun _ _ => I))
        as (l1 & tr1 & E1 & _ & S1).
      rewrite E1. cbn. exact S1.
Qed.

Lemma backoff_schedule_witness :
  sleeps_of (snd (AppPatched.fetch_fda_approvals
                    down_world (Some 50) 3 (3 # 2) []))
  = [(3 # 2, 1); (3 # 2, 2); (3 # 2, 3); (3 # 2, 1); (3 # 2, 2); (3 # 2, 3)]
  /\ sleeps_of (snd (AppPatched.fetch_clinical_trials
                       down_world "oncology" "Phase 2" 200 3 []))
     = [(3 # 2, 1); (3 # 2, 2); (3 # 2, 3)].
Proof.
  destruct (backoff_schedule_on_exhaustion
              down_world (Some 50) 3 (3 # 2) "oncology" "Phase 2" 200 [])
    as [Hfda Htrials].
  - reflexivity.
  - split.
    + apply Hfda. intros a Ha.
      assert (a = 1 \/ a = 2 \/ a = 3) as [->|[->| ->]] by lia; reflexivity.
    + apply Htrials. lia.
Defined.

(** The request counts of the retrying clients are bounded by their
    retry count, whatever the upstream answers. *)
Lemma fetch_request_bounds :
  forall (http : World) (limit : option Z) (retries : Z) (backoff : Q)
         (term phase : string) (max_studies : Z) (tr : Trace),
    (n_requests tr
     <= n_requests (snd (AppPatched.fetch_fda_approvals
                           http limit retries backoff tr))
     <= n_requests tr + 2 * Z.to_nat retries)%nat
    /\ (n_requests tr
        <= n_requests (snd (DashboardV1.fetch_fda_approvals
                              http limit retries backoff tr))
        <= n_requests tr + 2 * Z.to_nat retries)%nat
    /\ (n_requests tr
        <= n_requests (snd (AppPatched.fetch_clinical_trials
                              http term phase max_studies retries tr))
        <= n_requests tr + Z.to_nat retries)%nat
    /\ (n_requests tr
        <= n_requests (snd (DashboardV1.fetch_clinical_trials
                              http term phase max_studies retries tr))
        <= n_requests tr + Z.to_nat retries)%nat.
Proof.
  intros http limit retries backoff term phase max_studies tr.
  assert (forall body : Z -> option exn -> M (step json),
            (forall x l t, n_requests (snd (body x l t)) = S (n_requests t)) ->
            forall l t,
              (n_requests t
               <= n_requests (snd (for_each (py_range 1 (retries + 1)) body l t))
               <= n_requests t + Z.to_nat retries)%nat) as Hloop.
  { intros body Hb l t.
    pose proof (for_each_requests_le body 1 (py_range 1 (retries + 1))
                  (fun x l' t' => ltac:(rewrite Hb; lia)) l t) as H.
    rewrite retries_length in H. lia. }
  unfold AppPatched.fetch_fda_approvals, DashboardV1.fetch_fda_approvals,
    AppPatched.fetch_clinical_trials, DashboardV1.fetch_clinical_trials.
  repeat split.
  all: unfold bind at 1;
    match goal with
    | |- context [for_each ?xs ?b ?l ?t] =>
        let H := fresh "H" in
        first
          [ pose proof (for_each_requests_le b (Z.to_nat retries) xs
                          ltac:(intros; apply Hloop; intros;
                                first [ apply patched_fda_attempt_one_request
                                      | apply v1_fda_attempt_one_request ])
                          l t) as H
          | pose proof (Hloop b
                          ltac:(intros;
                                first [ apply patched_trials_attempt_one_request
                                      | apply v1_trials_attempt_one_request ])
                          l t) as H ];
        destruct (for_each xs b l t) as [[[last|v]|e] tr'];
        unfold ret, raise; cbn [snd AppPatched.fda_urls List.length] in *; lia
    end.
Qed.

Lemma requests_at_cons url e tr :
  requests_at url (e :: tr)
  = ((match e with
      | EvGet r => if (req_url r =? url)%string then 1 else 0
      | _ => 0
      end) + requests_at url tr)%nat.
Proof.
  unfold requests_at. cbn [filter].
  destruct e as [r| |]; [|reflexivity ..].
  now destruct (req_url r =? url)%string.
Qed.

(** Events that only request [req] add to the count of its URL what they
    add to the count of requests, and nothing to any other URL. *)
Lemma requests_at_extends req url tr tr' :
  extends (only_request req) tr tr' ->
  exists k,
    n_requests tr' = (n_requests tr + k)%nat
    /\ requests_at url tr'
       = (requests_at url tr
          + (if (req_url req =? url)%string then k else 0))%nat.
Proof.
  intros (evs & -> & Hall).
  induction Hall as [|e evs He Hall (k & Hn & Hr)]; cbn [app].
  - exists 0%nat. split; [lia|]. destruct (req_url req =? url)%string; lia.
  - rewrite requests_at_cons, n_requests_cons, Hn, Hr.
    destruct e as [r| |]; cbn [is_get].
    + specialize (He eq_refl). injection He as ->.
      exists (S k). split; [lia|].
      destruct (req_url req =? url)%string; lia.
    + exists k. split; lia.
    + exists k. split; lia.
Qed.

Lemma fda_urls_distinct (limit : string) :
  ("https://api.fda.gov/drug/drugsfda.json?search=products.marketing_status:'1'&limit="
     ++ limit)%string
  <> ("https://api.fda.gov/drug/drugsfda.json?limit=" ++ limit)%string.
Proof. cbn. discriminate. Qed.

Section RequestsPerUrl.
Variable http : World.

(** One attempt on [u] adds one request to the count of [u] and none to
    the count of another URL. *)
Lemma patched_fda_attempt_requests_at url u backoff attempt last tr :
  requests_at url (snd (AppPatched.fda_attempt http u backoff attempt last tr))
  = (requests_at url tr + (if (u =? url)%string then 1 else 0))%nat.
Proof.
  destruct (requests_at_extends (AppPatched.fda_request u) url tr _
              (patched_fda_attempt_extends http u backoff attempt last tr))
    as (k & Hn & Hr).
  rewrite patched_fda_attempt_one_request in Hn.
  replace k with 1%nat in Hr by lia. exact Hr.
Qed.

Lemma v1_fda_attempt_requests_at url u backoff attempt last tr :
  requests_at url (snd (DashboardV1.fda_attempt http u backoff attempt last tr))
  = (requests_at url tr + (if (u =? url)%string then 1 else 0))%nat.
Proof.
  destruct (requests_at_extends (AppPatched.fda_request u) url tr _
              (v1_fda_attempt_extends http u backoff attempt last tr))
    as (k & Hn & Hr).
  rewrite v1_fda_attempt_one_request in Hn.
  replace k with 1%nat in Hr by lia. exact Hr.
Qed.

(** The retry loop on [u] adds at most [retries] requests to the count
    of [u] and none to the count of another URL. *)
Lemma fda_loop_requests_at (body : Z -> option exn -> M (step json))
    url u retries last tr :
  (forall attempt l t,
     requests_at url (snd (body attempt l t))
     = (requests_at url t + (if (u =? url)%string then 1 else 0))%nat) ->
  (requests_at url tr
   <= requests_at url
        (snd (for_each (py_range 1 (retries + 1)) body last tr))
   <= requests_at url tr
      + (if (u =? url)%string then Z.to_nat retries else 0))%nat.
Proof.
  intros Hbody.
  pose proof (for_each_count_le body (requests_at url)
                (if (u =? url)%string then 1 else 0)
                (py_range 1 (retries + 1))
                (fun x l t => ltac:(rewrite Hbody; lia)) last tr) as H.
  rewrite retries_length in H.
  destruct (u =? url)%string; lia.
Qed.

(** Two retry loops, one per candidate URL: any one URL receives at most
    [retries] requests. *)
Lemma fda_fetch_requests_at (body : string -> Z -> option exn -> M (step json))
    url limit retries tr :
  (forall u attempt l t,
     requests_at url (snd (body u attempt l t))
     = (requests_at url t + (if (u =? url)%string then 1 else 0))%nat) ->
  (requests_at url tr
   <= requests_at url
        (snd (for_each (AppPatched.fda_urls limit)
                (fun u last =>
                   for_each (py_range 1 (retries + 1)) (body u) last)
                None tr))
   <= requests_at url tr + Z.to_nat retries)%nat.
Proof.
  intros Hbody. unfold AppPatched.fda_urls. cbn [for_each].
  set (u1 := String.append _ _). set (u2 := String.append _ _).
  assert ((u1 =? url)%string = true -> (u2 =? url)%string = true -> False)
    as Hne.
  { rewrite !String.eqb_eq. intros H1 H2.
    apply (fda_urls_distinct (str_of_int limit)).
    fold u1 u2. congruence. }
  unfold bind.
  pose proof (fda_loop_requests_at (body u1) url u1 retries None tr
                (Hbody u1)) as H1.
  destruct (for_each (py_range 1 (retries + 1)) (body u1) None tr)
    as [[[l1|v]|e] tr1]; unfold ret; cbn [snd] in *.
  - pose proof (fda_loop_requests_at (body u2) url u2 retries l1 tr1
                  (Hbody u2)) as H2.
    destruct (for_each (py_range 1 (retries + 1)) (body u2) l1 tr1)
      as [[[l2|v]|e] tr2]; cbn [snd] in *;
      destruct (u1 =? url)%string, (u2 =? url)%string;
      try (exfalso; now apply Hne); lia.
  - destruct (u1 =? url)%string; lia.
  - destruct (u1 =? url)%string; lia.
Qed.
End RequestsPerUrl.

(** X5.  Whatever the upstream answers, the retrying clients never issue
    more than [retries] requests to any one URL (none when [retries] is
    not positive): the regulatory client at most [retries] to each of its
    two candidate URLs, hence at most [2 * retries] in all, and the
    trial-registry client, which has one URL, at most [retries]. *)
Theorem fetch_request_budget :
  forall (http : World) (limit : option Z) (retries : Z) (backoff : Q)
         (term phase : string) (max_studies : Z) (tr : Trace),
    (forall url,
       (requests_at url tr
        <= requests_at url (snd (AppPatched.fetch_fda_approvals
                                   http limit retries backoff tr))
        <= requests_at url tr + Z.to_nat retries)%nat)
    /\ (forall url,
       (requests_at url tr
        <= requests_at url (snd (DashboardV1.fetch_fda_approvals
                                   http limit retries backoff tr))
        <= requests_at url tr + Z.to_nat retries)%nat)
    /\ (n_requests tr
        <= n_requests (snd (AppPatched.fetch_fda_approvals
                              http limit retries backoff tr))
        <= n_requests tr + 2 * Z.to_nat retries)%nat
    /\ (n_requests tr
        <= n_requests (snd (DashboardV1.fetch_fda_approvals
                              http limit retries backoff tr))
        <= n_requests tr + 2 * Z.to_nat retries)%nat
    /\ (n_requests tr
        <= n_requests (snd (AppPatched.fetch_clinical_trials
                              http term phase max_studies retries tr))
        <= n_requests tr + Z.to_nat retries)%nat
    /\ (n_requests tr
        <= n_requests (snd (DashboardV1.fetch_clinical_trials
                              http term phase max_studies retries tr))
        <= n_requests tr + Z.to_nat retries)%nat.
Proof.
  intros http limit retries backoff term phase max_studies tr.
  split; [|split].
  - intros url.
    pose proof (fda_fetch_requests_at
                  (fun u => AppPatched.fda_attempt http u backoff)
                  url (AppPatched.effective_limit limit) retries tr
                  (fun u a l t =>
                     patched_fda_attempt_requests_at http url u backoff a l t))
      as H.
    unfold AppPatched.fetch_fda_approvals. cbn zeta. unfold bind.
    destruct (for_each _ _ None tr) as [[[l|v]|e] tr'];
      unfold ret, raise; exact H.
  - intros url.
    pose proof (fda_fetch_requests_at
                  (fun u => DashboardV1.fda_attempt http u backoff)
                  url (AppPatched.effective_limit limit) retries tr
                  (fun u a l t =>
                     v1_fda_attempt_requests_at http url u backoff a l t))
      as H.
    unfold DashboardV1.fetch_fda_approvals. cbn zeta. unfold bind.
    destruct (for_each _ _ None tr) as [[[l|v]|e] tr'];
      unfold ret, raise; exact H.
  - apply fetch_request_bounds.
Qed.

(** X6.  Every request the trial-registry client issues is the same query:
    the study-fields endpoint with [expr = term AND phase], ranks 1 to
    [max_studies], JSON format and a timeout of 20, whatever the outcome of
    the attempts before it. *)
Theorem trial_requests_are_one_query :
  forall (http : World) (term phase : string) (max_studies retries : Z)
         (tr : Trace),
    let req :=
      mkRequest "https://clinicaltrials.gov/api/query/study_fields"
                [("expr", JStr (term ++ " AND " ++ phase)%string);
                 ("fields",
                  JStr "NCTId,Condition,Phase,StartDate,CompletionDate,Sponsors");
                 ("min_rnk", JInt 1);
                 ("max_rnk", JInt max_studies);
                 ("fmt", JStr "json")]
                (Some 20) in
    extends (only_request req) tr
      (snd (AppPatched.fetch_clinical_trials
              http term phase max_studies retries tr))
    /\ extends (only_request req) tr
         (snd (DashboardV1.fetch_clinical_trials
                 http term phase max_studies retries tr)).
Proof.
  intros http term phase max_studies retries tr. cbn zeta.
  unfold AppPatched.fetch_clinical_trials, DashboardV1.fetch_clinical_trials.
  split; unfold bind at 1.
  - pose proof (for_each_extends
                  (AppPatched.trials_attempt http
                     (AppPatched.trials_request term phase max_studies))
                  (only_request (AppPatched.trials_request term phase max_studies))
                  (py_range 1 (retries + 1))
                  (fun x l t _ =>
                     proj2 (patched_trials_attempt_one_request http _ x l t))
                  None tr) as H.
    destruct (for_each _ _ None tr) as [[[last|v]|e] tr']; exact H.
  - pose proof (for_each_extends
                  (DashboardV1.trials_attempt http
                     (AppPatched.trials_request term phase max_studies))
                  (only_request (AppPatched.trials_request term phase max_studies))
                  (py_range 1 (retries + 1))
                  (fun x l t _ =>
                     proj2 (v1_trials_attempt_one_request http _ x l t))
                  None tr) as H.
    destruct (for_each _ _ None tr) as [[[last|v]|e] tr']; exact H.
Qed.

Lemma fda_attempt_non_object http url backoff attempt last tr data :
  http (n_requests tr) (AppPatched.fda_request url) = Reply 200 (Some data) ->
  is_dictb data = false ->
  AppPatched.fda_attempt http url backoff attempt last tr
  = (Raise AttributeError, EvGet (AppPatched.fda_request url) :: tr)
  /\ DashboardV1.fda_attempt http url backoff attempt last tr
     = (Raise AttributeError, EvGet (AppPatched.fda_request url) :: tr).
Proof.
  intros H Hd. run_attempt. rewrite H. cbn.
  destruct data; try discriminate; split; reflexivity.
Qed.

(** X7.  A 200 response whose body decodes to something other than an
    object (a list, a string, a number, null) makes the regulatory fetch
    raise [AttributeError] on that attempt: the error is not retried, the
    fallback URL is not tried and no exhaustion [RuntimeError] wraps it.
    The attempt may come after [k] failed ones whose sleeps were
    accepted. *)
Theorem fda_fetch_non_object_body_raises :
  forall (http : World) (limit : option Z) (retries : Z) (backoff : Q)
         (data : json) (k : nat) (tr : Trace),
    let req := AppPatched.fda_request
                 (nth 0 (AppPatched.fda_urls (AppPatched.effective_limit limit)) "") in
    Z.of_nat k < retries ->
    quiet_sleeps backoff (Z.of_nat k) ->
    fails_first http req (n_requests tr) k ->
    http (n_requests tr + k)%nat req = Reply 200 (Some data) ->
    is_dictb data = false ->
    (exists tr1,
       n_requests tr1 = (n_requests tr + k)%nat
       /\ AppPatched.fetch_fda_approvals http limit retries backoff tr
          = (Raise AttributeError, EvGet req :: tr1))
    /\ (exists tr1,
       n_requests tr1 = (n_requests tr + k)%nat
       /\ DashboardV1.fetch_fda_approvals http limit retries backoff tr
          = (Raise AttributeError, EvGet req :: tr1)).
Proof.
  intros http limit retries backoff data k tr. cbn zeta.
  intros Hk Hq Hfirst H200 Hd.
  pose proof (quiet_sleeps_range backoff (Z.of_nat k) (Z.of_nat k) Hq
                (Z.le_refl _)) as Hall.
  unfold AppPatched.fetch_fda_approvals, DashboardV1.fetch_fda_approvals,
    AppPatched.fda_urls in *.
  cbn [for_each nth] in *.
  set (u1 := String.append _ _) in *.
  destruct (retries_split_at k retries Hk) as (rest & ->).
  split; unfold bind at 1 2.
  - destruct (for_each_prefix (AppPatched.fda_attempt http u1 backoff)
                (fun n => is_failure (http n (AppPatched.fda_request u1)) = true)
                (fun a => sleep_outcome backoff a = None)
                (fun n => failure_exn (http n (AppPatched.fda_request u1)))
                (fun x l t Hx Ht =>
                   patched_fda_attempt_fails http u1 backoff x l t Hx Ht)
                (py_range 1 (Z.of_nat k + 1)) (Z.of_nat k + 1 :: rest) None tr
                Hall)
      as (tr1 & E & N).
    { intros i Hi. apply Hfirst. rewrite py_range_length in Hi. lia. }
    rewrite py_range_length in N.
    replace (Z.to_nat (Z.of_nat k + 1 - 1)) with k in N by lia.
    exists tr1. split; [exact N|].
    rewrite E. cbn [for_each]. unfold bind at 1.
    destruct (fda_attempt_non_object http u1 backoff (Z.of_nat k + 1)
                (last_after
                   (fun n => failure_exn (http n (AppPatched.fda_request u1)))
                   None (n_requests tr)
                   (List.length (py_range 1 (Z.of_nat k + 1))))
                tr1 data) as [Ea _]; [now rewrite N | exact Hd |].
    now rewrite Ea.
  - destruct (for_each_prefix (DashboardV1.fda_attempt http u1 backoff)
                (fun n => is_failure (http n (AppPatched.fda_request u1)) = true)
                (fun a => sleep_outcome backoff a = None)
                (fun n => failure_exn (http n (AppPatched.fda_request u1)))
                (fun x l t Hx Ht =>
                   v1_fda_attempt_fails http u1 backoff x l t Hx Ht)
                (py_range 1 (Z.of_nat k + 1)) (Z.of_nat k + 1 :: rest) None tr
                Hall)
      as (tr1 & E & N).
    { intros i Hi. apply Hfirst. rewrite py_range_length in Hi. lia. }
    rewrite py_range_length in N.
    replace (Z.to_nat (Z.of_nat k + 1 - 1)) with k in N by lia.
    exists tr1. split; [exact N|].
    rewrite E. cbn [for_each]. unfold bind at 1.
    destruct (fda_attempt_non_object http u1 backoff (Z.of_nat k + 1)
                (last_after
                   (fun n => failure_exn (http n (AppPatched.fda_request u1)))
                   None (n_requests tr)
                   (List.length (py_range 1 (Z.of_nat k + 1))))
                tr1 data) as [_ Ea]; [now rewrite N | exact Hd |].
    now rewrite Ea.
Qed.

Lemma fda_fetch_non_object_witness :
  exists tr1,
    n_requests tr1 = 0%nat
    /\ AppPatched.fetch_fda_approvals list_world (Some 50) 3 (3 # 2) []
       = (Raise AttributeError,
          EvGet (AppPatched.fda_request
                   "https://api.fda.gov/drug/drugsfda.json?search=products.marketing_status:'1'&limit=50")
            :: tr1).
Proof.
  destruct (fda_fetch_non_object_body_raises
              list_world (Some 50) 3 (3 # 2)
              (JList [JStr "unexpected"]) 0 [])
    as [(tr1 & N & E) _].
  - lia.
  - intros a Ha. lia.
  - intros i Hi. lia.
  - reflexivity.
  - reflexivity.
  - exists tr1. split; [exact N | exact E].
Defined.

(** A negative base within range is refused at the first attempt. *)
Lemma negative_backoff_refused (backoff : Q) :
  (- (8589934592 # 1) <= backoff)%Q -> (backoff < 0)%Q ->
  sleep_outcome backoff 1 = Some ValueError.
Proof.
  intros Hlo Hneg. unfold sleep_outcome. cbn zeta.
  change (Qpower backoff 1) with backoff.
  assert (Qle_bool backoff max_sleep = true) as ->.
  { apply Qle_bool_iff. apply Qlt_le_weak.
    eapply Qlt_le_trans; [exact Hneg|]. unfold Qle, max_sleep. cbn. lia. }
  assert (Qle_bool (Qopp max_sleep) backoff = true) as ->.
  { apply Qle_bool_iff. eapply Qle_trans; [|exact Hlo].
    unfold Qle, max_sleep. cbn. lia. }
  destruct (Qle_bool 0 backoff) eqn:E; [|reflexivity].
  apply Qle_bool_iff in E. exfalso. exact (Qlt_not_le _ _ Hneg E).
Qed.

Lemma fda_attempt_sleep_refused http url backoff attempt last tr :
  sleep_outcome backoff attempt = Some ValueError ->
  is_failure (http (n_requests tr) (AppPatched.fda_request url)) = true ->
  (exists lvl,
     AppPatched.fda_attempt http url backoff attempt last tr
     = (Raise ValueError,
        EvNotice lvl :: EvGet (AppPatched.fda_request url) :: tr))
  /\ DashboardV1.fda_attempt http url backoff attempt last tr
     = (Raise ValueError,
        EvNotice Warning :: EvGet (AppPatched.fda_request url) :: tr).
Proof.
  intros Hs. run_attempt. rewrite Hs.
  destruct (http (n_requests tr) (AppPatched.fda_request url))
    as [status body|e]; cbn; intros H.
  - rewrite H. cbn. split; [eexists|]; reflexivity.
  - destruct e; cbn in *; try discriminate;
      (split; [eexists|]; reflexivity).
Qed.

(** X17.  With a negative backoff the regulatory client does not retry:
    after its first failed attempt (one request, one notice)
    [time.sleep(backoff ** 1)] refuses the negative duration and the
    [ValueError] leaves the fetch as it is, with no second attempt, no
    fallback URL and no exhaustion [RuntimeError]. *)
Theorem negative_backoff_ends_fetch :
  forall (http : World) (limit : option Z) (retries : Z) (backoff : Q)
         (tr : Trace),
    let req := AppPatched.fda_request
                 (nth 0 (AppPatched.fda_urls (AppPatched.effective_limit limit)) "") in
    (- (8589934592 # 1) <= backoff)%Q -> (backoff < 0)%Q ->
    0 < retries ->
    is_failure (http (n_requests tr) req) = true ->
    (exists lvl,
       AppPatched.fetch_fda_approvals http limit retries backoff tr
       = (Raise ValueError, EvNotice lvl :: EvGet req :: tr))
    /\ DashboardV1.fetch_fda_approvals http limit retries backoff tr
       = (Raise ValueError, EvNotice Warning :: EvGet req :: tr).
Proof.
  intros http limit retries backoff tr. cbn zeta.
  intros Hlo Hneg Hr Hfail.
  pose proof (negative_backoff_refused backoff Hlo Hneg) as Hs.
  unfold AppPatched.fetch_fda_approvals, DashboardV1.fetch_fda_approvals,
    AppPatched.fda_urls in *.
  cbn [for_each nth] in *.
  set (u1 := String.append _ _) in *.
  rewrite (py_range_cons 1 (retries + 1)) by lia. cbn [for_each].
  destruct (fda_attempt_sleep_refused http u1 backoff 1 None tr Hs Hfail)
    as ((lvl & Ep) & Ev).
  split.
  - exists lvl. unfold bind. now rewrite Ep.
  - unfold bind. now rewrite Ev.
Qed.

Lemma negative_backoff_witness :
  AppPatched.fetch_fda_approvals down_world (Some 50) 3 (- 3 # 2) []
  = (Raise ValueError,
     [EvNotice Warning;
      EvGet (AppPatched.fda_request
               "https://api.fda.gov/drug/drugsfda.json?search=products.marketing_status:'1'&limit=50")])
  /\ DashboardV1.fetch_fda_approvals down_world (Some 50) 3 (- 3 # 2) []
     = (Raise ValueError,
        [EvNotice Warning;
         EvGet (AppPatched.fda_request
                  "https://api.fda.gov/drug/drugsfda.json?search=products.marketing_status:'1'&limit=50")]).
Proof.
  destruct (negative_backoff_ends_fetch down_world (Some 50) 3 (- 3 # 2) [])
    as [(lvl & Ep) Ev].
  - unfold Qle. cbn. lia.
  - reflexivity.
  - lia.
  - reflexivity.
  - split; [reflexivity | exact Ev].
Defined.

(** X8 (app.py).  The clients of the first version issue exactly one
    request whatever the upstream does.  A status from 400 to 599 raises
    [HTTPError] for that status; any other status, 200 or not, is taken as
    success and the decoded object's payload is returned. *)
Theorem app_fetch_single_request :
  forall (http : World) (limit : Z) (term phase : string) (max_studies : Z)
         (tr : Trace),
    n_requests (snd (App.fetch_fda_approvals http limit tr))
    = S (n_requests tr)
    /\ n_requests (snd (App.fetch_clinical_trials http term phase max_studies tr))
       = S (n_requests tr)
    /\ (forall status d,
          (forall req, http (n_requests tr) req = Reply status (Some (JDict d))) ->
          fst (App.fetch_fda_approvals http limit tr)
          = (if (400 <=? status) && (status <? 600)
             then Raise (HTTPError status)
             else Ok (results_of d))
          /\ fst (App.fetch_clinical_trials http term phase max_studies tr)
             = (if (400 <=? status) && (status <? 600)
                then Raise (HTTPError status)
                else study_fields d)).
Proof.
  intros http limit term phase max_studies tr.
  unfold App.fetch_fda_approvals, App.fetch_clinical_trials, bind,
    requests_get, lift.
  split; [|split].
  - destruct (http (n_requests tr) _) as [status body|e]; cbn [fst snd];
      [|cbn [fst snd]; now rewrite n_requests_cons].
    destruct (raise_for_status status); [|cbn [fst snd]; now rewrite n_requests_cons].
    destruct (response_json body) as [data|e]; [|cbn [fst snd]; now rewrite n_requests_cons].
    destruct (py_get data "results" (JList [])); cbn [fst snd]; now rewrite n_requests_cons.
  - destruct (http (n_requests tr) _) as [status body|e]; cbn [fst snd];
      [|cbn [fst snd]; now rewrite n_requests_cons].
    destruct (raise_for_status status); [|cbn [fst snd]; now rewrite n_requests_cons].
    destruct (response_json body) as [data|e]; [|cbn [fst snd]; now rewrite n_requests_cons].
    destruct (py_getitem data "StudyFieldsResponse") as [fields|e];
      [|cbn [fst snd]; now rewrite n_requests_cons].
    destruct (py_getitem fields "StudyFields"); cbn [fst snd]; now rewrite n_requests_cons.
  - intros status d H. rewrite !H. cbn [fst snd]. unfold raise_for_status.
    destruct ((400 <=? status) && (status <? 600)); cbn [fst snd rbind].
    + split; reflexivity.
    + unfold response_json, results_of, study_fields.
      cbn [py_get py_getitem rbind].
      destruct (dict_get d "results"); cbn [fst snd];
        (destruct (dict_get d "StudyFieldsResponse") as [fields|];
         cbn [fst snd rbind];
         [destruct (py_getitem fields "StudyFields") | ];
         split; reflexivity).
Qed.

Lemma app_fetch_single_request_witness :
  fst (App.fetch_fda_approvals (status_world 204) 50 [])
  = Ok (JList [acme_entry])
  /\ fst (App.fetch_fda_approvals (status_world 503) 50 [])
     = Raise (HTTPError 503).
Proof.
  destruct (app_fetch_single_request
              (status_world 204) 50 "oncology" "Phase 2" 200 [])
    as (_ & _ & H204).
  destruct (app_fetch_single_request
              (status_world 503) 50 "oncology" "Phase 2" 200 [])
    as (_ & _ & H503).
  split.
  - apply (H204 204 scenario_body). reflexivity.
  - apply (H503 503 scenario_body). reflexivity.
Defined.

(* ===================================================================== *)
(** * Further properties of the normalizers *)
(* ===================================================================== *)

Section TrialNormalizer.
Variable to_datetime : list date_cell -> list (option Timestamp).

Lemma first_of_value trial k :
  wf_trial_field trial k = true ->
  Normalize.first_of trial k = Ok (first_value trial k).
Proof.
  unfold wf_trial_field, Normalize.first_of, first_value.
  destruct trial; try discriminate. cbn [py_get field rbind].
  destruct (dict_get items k) as [v|]; cbn; [|reflexivity].
  destruct v; try discriminate. destruct items0; [discriminate|reflexivity].
Qed.

(** The loop appends one record per completed trial. *)
Lemma trial_records_spec submission ph trials records :
  forallb wf_trial trials = true ->
  Normalize.trial_records submission ph trials records
  = Ok (records ++ map (trial_record submission ph) (filter completed trials)).
Proof.
  revert records. induction trials as [|trial trials IH]; intros records Hwf.
  - cbn. now rewrite app_nil_r.
  - cbn in Hwf. apply andb_true_iff in Hwf. destruct Hwf as [Ht Hwf].
    unfold wf_trial in Ht. apply andb_true_iff in Ht. destruct Ht as [Ht Hc].
    apply andb_true_iff in Ht. destruct Ht as [Hn Hs].
    cbn [Normalize.trial_records filter].
    rewrite !first_of_value by assumption. cbn [rbind]. unfold completed at 1.
    destruct (truthy (first_value trial "CompletionDate")).
    + rewrite IH by exact Hwf. now rewrite <- app_assoc.
    + now apply IH.
Qed.

Lemma filter_none {A} (f : A -> bool) l : existsb f l = false -> filter f l = [].
Proof.
  induction l as [|a l IH]; cbn; [reflexivity|].
  destruct (f a); cbn; [discriminate | exact IH].
Qed.

(** Rows keep every column but the date through the date conversion. *)
Lemma to_frame_keeps (P : record -> Prop) records :
  (forall r c, P r -> P (set_date r c)) ->
  Forall P records -> Forall P (to_frame to_datetime records).
Proof.
  intros Hset Hall. unfold to_frame.
  destruct (negb (df_empty records)); [|exact Hall].
  unfold dropna_date. apply Forall_forall. intros x Hx.
  apply filter_In in Hx. destruct Hx as [Hin _]. revert x Hin.
  apply Forall_forall. generalize (to_datetime (map date records)).
  induction Hall as [|r rs Hr Hrs IH]; intros col; cbn; [constructor|].
  destruct col as [|c cs]; constructor; auto.
Qed.

Lemma fda_submissions_shaped sponsor subs :
  forall records records',
    Forall fda_shaped records ->
    Normalize.fda_submissions sponsor subs records = Ok records' ->
    Forall fda_shaped records'.
Proof.
  induction subs as [|sub subs IH]; intros records records' Hall.
  - cbn. now intros [= <-].
  - cbn [Normalize.fda_submissions]. unfold rbind at 1.
    destruct (py_get sub "submission_date" JNull) as [d|e]; [|discriminate].
    destruct (truthy d); [|now apply IH].
    unfold rbind at 1.
    destruct (py_get sub "submission_type" JNull) as [ty|e]; [|discriminate].
    unfold rbind at 1.
    destruct (py_get sub "submission_class_code" JNull) as [cl|e];
      [|discriminate].
    apply IH. apply Forall_app. split; [exact Hall|].
    constructor; [|constructor]. repeat split.
Qed.

Lemma fda_entries_shaped entries :
  forall records records',
    Forall fda_shaped records ->
    Normalize.fda_entries entries records = Ok records' ->
    Forall fda_shaped records'.
Proof.
  induction entries as [|entry entries IH]; intros records records' Hall.
  - cbn. now intros [= <-].
  - cbn [Normalize.fda_entries]. unfold rbind at 1.
    destruct (py_get entry "sponsor_name" JNull) as [sp|e]; [|discriminate].
    unfold rbind at 1.
    destruct (py_get entry "submissions" (JList [])) as [ss|e]; [|discriminate].
    unfold rbind at 1.
    destruct (py_iter ss) as [subs|e]; [|discriminate].
    unfold rbind at 1.
    destruct (Normalize.fda_submissions sp subs records) as [recs|e] eqn:Es;
      [|discriminate].
    apply IH. eapply fda_submissions_shaped; eauto.
Qed.

Lemma trial_records_shaped submission ph trials :
  forall records records',
    Forall (trial_shaped ph) records ->
    Normalize.trial_records submission ph trials records = Ok records' ->
    Forall (trial_shaped ph) records'.
Proof.
  induction trials as [|trial trials IH]; intros records records' Hall.
  - cbn. now intros [= <-].
  - cbn [Normalize.trial_records]. unfold rbind at 1.
    destruct (Normalize.first_of trial "NCTId") as [id|e]; [|discriminate].
    unfold rbind at 1.
    destruct (Normalize.first_of trial "Sponsors") as [sp|e]; [|discriminate].
    unfold rbind at 1.
    destruct (Normalize.first_of trial "CompletionDate") as [cd|e];
      [|discriminate].
    destruct (truthy cd); [|now apply IH].
    apply IH. apply Forall_app. split; [exact Hall|].
    constructor; [|constructor]. split; reflexivity.
Qed.

Lemma parse_fda_shaped data df :
  Normalize.parse_fda to_datetime data = Ok df -> Forall fda_shaped df.
Proof.
  unfold Normalize.parse_fda, rbind.
  destruct (py_iter data) as [entries|e]; [|discriminate].
  destruct (Normalize.fda_entries entries []) as [records|e] eqn:E;
    [|discriminate].
  intros [= <-]. apply to_frame_keeps.
  - intros r c H. exact H.
  - eapply fda_entries_shaped; [|exact E]. constructor.
Qed.

Lemma parse_trials_shaped data ph df :
  Normalize.parse_trials to_datetime data ph = Ok df ->
  Forall (trial_shaped ph) df.
Proof.
  unfold Normalize.parse_trials, rbind.
  destruct (py_iter data) as [trials|e]; [|discriminate].
  destruct (Normalize.trial_records _ ph trials []) as [records|e] eqn:E;
    [|discriminate].
  intros [= <-]. apply to_frame_keeps.
  - intros r c H. exact H.
  - eapply trial_records_shaped; [|exact E]. constructor.
Qed.

Lemma parse_trials_v1_shaped data ph df :
  Normalize.parse_trials_v1 to_datetime data ph = Ok df ->
  Forall (trial_shaped ph) df.
Proof.
  unfold Normalize.parse_trials_v1, rbind.
  destruct (py_iter data) as [trials|e]; [|discriminate].
  destruct (Normalize.trial_records _ ph trials []) as [records|e] eqn:E;
    [|discriminate].
  intros [= <-]. apply to_frame_keeps.
  - intros r c H. exact H.
  - eapply trial_records_shaped; [|exact E]. constructor.
Qed.
End TrialNormalizer.

(** X9.  On raw trials of the documented shape (objects whose [NCTId],
    [Sponsors] and [CompletionDate], when present, are non-empty lists),
    [parse_trials] returns, in order, one record per trial whose first
    completion date is non-empty and is read as a date by the date parser;
    identifier, sponsor and date are the first value of their field, and
    the phase is the one passed in.  Trials without a completion date (the
    key absent, or its first value empty) give no record. *)
Theorem parse_trials_one_record_per_completed_trial :
  forall (to_datetime : list date_cell -> list (option Timestamp))
         (trials : list json) (ph : string),
    forallb wf_trial trials = true ->
    let records := map (trial_record (Some JNull) ph) (filter completed trials) in
    let records_v1 := map (trial_record None ph) (filter completed trials) in
    Normalize.parse_trials to_datetime (JList trials) ph
    = Ok (parsed_rows records (to_datetime (map date records)))
    /\ Normalize.parse_trials_v1 to_datetime (JList trials) ph
       = Ok (parsed_rows records_v1 (to_datetime (map date records_v1)))
    /\ (existsb completed trials = false ->
        Normalize.parse_trials to_datetime (JList trials) ph = Ok []
        /\ Normalize.parse_trials_v1 to_datetime (JList trials) ph = Ok []).
Proof.
  intros to_datetime trials ph Hwf. cbn zeta.
  unfold Normalize.parse_trials, Normalize.parse_trials_v1.
  cbn [py_iter rbind]. rewrite !trial_records_spec by exact Hwf.
  cbn [rbind app]. rewrite !to_frame_parsed.
  split; [reflexivity|]. split; [reflexivity|].
  intros Hnone. rewrite (filter_none _ _ Hnone). split; reflexivity.
Qed.

Lemma parse_trials_witness :
  Normalize.parse_trials CompactDate.to_datetime
    (JList [JDict [("NCTId", JList [JStr "NCT00000002"]);
                   ("Sponsors", JList [JStr "Beta"; JStr "Gamma"])];
            JDict [("NCTId", JList [JStr "NCT00000001"]);
                   ("Sponsors", JList [JStr "Acme"]);
                   ("CompletionDate", JList [JStr "20231231"])]])
    "Phase 3"
  = Ok [mkRecord "ClinicalTrials.gov" (JStr "Acme")
                 (DTime (mkTimestamp 2023 12 31 0))
                 (JStr "Phase 3") (JStr "NCT00000001")
                 (Some JNull) (Some JNull)].
Proof.
  apply (parse_trials_one_record_per_completed_trial
           CompactDate.to_datetime
           [JDict [("NCTId", JList [JStr "NCT00000002"]);
                   ("Sponsors", JList [JStr "Beta"; JStr "Gamma"])];
            JDict [("NCTId", JList [JStr "NCT00000001"]);
                   ("Sponsors", JList [JStr "Acme"]);
                   ("CompletionDate", JList [JStr "20231231"])]]
           "Phase 3").
  reflexivity.
Defined.

(** X10.  Whatever the raw input, when a normalizer returns, every row it
    returns is tagged with its own source: the regulatory rows have source
    [FDA] and no phase or trial identifier, the trial rows have source
    [ClinicalTrials.gov] and the phase that was passed in. *)
Theorem normalizer_rows_are_tagged :
  forall (to_datetime : list date_cell -> list (option Timestamp))
         (data : json) (ph : string) (df : DataFrame),
    (Normalize.parse_fda to_datetime data = Ok df -> Forall fda_shaped df)
    /\ (Normalize.parse_trials to_datetime data ph = Ok df ->
        Forall (trial_shaped ph) df)
    /\ (Normalize.parse_trials_v1 to_datetime data ph = Ok df ->
        Forall (trial_shaped ph) df).
Proof.
  intros to_datetime data ph df. split; [|split].
  - apply parse_fda_shaped.
  - apply parse_trials_shaped.
  - apply parse_trials_v1_shaped.
Qed.

Lemma normalizer_rows_are_tagged_witness : Forall fda_shaped [acme_record].
Proof.
  apply (normalizer_rows_are_tagged
           CompactDate.to_datetime (JList [acme_entry]) "Phase 3" [acme_record]).
  reflexivity.
Defined.

(* ===================================================================== *)
(** * Further properties of the aggregator *)
(* ===================================================================== *)

Section Totals.
Variable K : Type.
Variable cmp : K -> K -> comparison.
Hypothesis cmp_eq : forall a b, cmp a b = Eq -> a = b.

Lemma total_bump k t : total (bump cmp k t) = S (total t).
Proof.
  unfold total. induction t as [|[k' n] t IH]; cbn; [reflexivity|].
  destruct (cmp k k'); cbn; [reflexivity | reflexivity |].
  rewrite IH. lia.
Qed.

Lemma total_fold keys t :
  total (fold_left (fun t k => bump cmp k t) keys t)
  = (total t + List.length keys)%nat.
Proof.
  revert t. induction keys as [|k keys IH]; intros t;
    cbn [fold_left List.length]; [lia|].
  rewrite IH, total_bump. lia.
Qed.

(** Counting neither loses nor repeats a key. *)
Lemma total_size keys : total (size cmp keys) = List.length keys.
Proof. unfold size. now rewrite total_fold. Qed.

Lemma bump_key_in k0 t k :
  In k (map fst (bump cmp k0 t)) <-> k = k0 \/ In k (map fst t).
Proof.
  induction t as [|[k' n] t IH]; cbn.
  - intuition.
  - destruct (cmp k0 k') eqn:E; cbn.
    + apply cmp_eq in E. subst. intuition.
    + intuition.
    + rewrite IH. intuition.
Qed.

Lemma fold_key_in keys t k :
  In k (map fst (fold_left (fun t k => bump cmp k t) keys t))
  <-> In k keys \/ In k (map fst t).
Proof.
  revert t. induction keys as [|k0 keys IH]; intros t; cbn.
  - intuition.
  - rewrite IH, bump_key_in. intuition.
Qed.

(** The distinct keys are the keys that occur. *)
Lemma distinct_in keys k : In k (distinct cmp keys) <-> In k keys.
Proof.
  unfold distinct, size. rewrite fold_key_in. cbn. intuition.
Qed.
End Totals.

Lemma group_keys_length df :
  Forall has_time df ->
  List.length (group_keys (map bucket df) df) = List.length df.
Proof.
  induction 1 as [|r df [t Ht] Hdf IH]; cbn; [reflexivity|].
  unfold bucket at 1. rewrite Ht. cbn. now rewrite IH.
Qed.

Lemma group_keys_in df m s :
  In (m, s) (group_keys (map bucket df) df)
  <-> exists r, In r df /\ bucket r = Some m /\ source r = s.
Proof.
  induction df as [|r df IH]; cbn.
  - split; [intros [] | intros (r & [] & _)].
  - destruct (bucket r) as [p|] eqn:Eb; cbn; rewrite IH; split.
    + intros [[= <- <-]|(r' & Hin & Hb & Hs)].
      * exists r. auto.
      * exists r'. auto.
    + intros (r' & [<-|Hin] & Hb & Hs).
      * left. congruence.
      * right. exists r'. auto.
    + intros (r' & Hin & Hb & Hs). exists r'. auto.
    + intros (r' & [<-|Hin] & Hb & Hs); [congruence|].
      exists r'. auto.
Qed.

(** X11.  On a non-empty combined table whose rows all carry a date, the
    counts of the grouped table the run computes add up to the number of
    rows: no row is lost and none is counted twice. *)
Theorem monthly_counts_add_up :
  forall (fda_df : DataFrame) (trials_dfs : list DataFrame) (tr : Trace),
    let table := fda_df ++ List.concat trials_dfs in
    table <> [] ->
    Forall has_time table ->
    exists out,
      aggregate fda_df trials_dfs tr = (Ok out, tr)
      /\ aggregate_app fda_df trials_dfs tr = (Ok out, tr)
      /\ sizes out = Some (monthly_table out)
      /\ total (monthly_table out) = List.length (combined out)
      /\ List.length (combined out)
         = (List.length fda_df
            + fold_right (fun df n => (List.length df + n)%nat) 0%nat trials_dfs)%nat.
Proof.
  intros fda_df trials_dfs tr table Hne Hdated.
  rewrite aggregate_rows, aggregate_app_rows. fold table.
  rewrite (summarize_dated table tr Hdated).
  destruct table as [|r rest] eqn:Et; [congruence|]. rewrite <- Et in *.
  eexists. split; [reflexivity|]. split; [reflexivity|].
  unfold monthly_table. cbn [combined month sizes counts].
  split; [reflexivity|]. split.
  - unfold monthly_counts. rewrite total_size.
    now apply group_keys_length.
  - unfold table. rewrite length_app. f_equal.
    clear. induction trials_dfs as [|df dfs IH]; cbn; [reflexivity|].
    now rewrite length_app, IH.
Qed.

Lemma monthly_counts_add_up_witness :
  exists out,
    aggregate scenario_fda scenario_trials [] = (Ok out, [])
    /\ total (monthly_table out) = 5%nat.
Proof.
  destruct (monthly_counts_add_up scenario_fda scenario_trials [])
    as (out & E & _ & _ & Ht & Hl).
  - discriminate.
  - repeat constructor; eexists; reflexivity.
  - exists out. split; [exact E|]. rewrite Ht, Hl. reflexivity.
Defined.

Lemma distinct_increasing (A : Type) (cmp : A -> A -> comparison) keys :
  (forall a b, cmp a b = Eq -> a = b) ->
  (forall a, cmp a a = Eq) ->
  (forall a b, cmp a b = CompOpp (cmp b a)) ->
  (forall a b c, cmp a b = Lt -> cmp b c = Lt -> cmp a c = Lt) ->
  StronglySorted (fun a b => cmp a b = Lt) (distinct cmp keys).
Proof.
  intros H1 H2 H3 H4. unfold distinct.
  pose proof (size_increasing A cmp H1 H2 H3 H4 keys) as Hs.
  unfold increasing in Hs.
  induction Hs as [|a t Hs IH Hall]; cbn; constructor; auto.
  rewrite Forall_map. exact Hall.
Qed.

(** X12.  The table handed to the chart has one row per month that occurs
    in the combined table and one column per source that occurs, both in
    strictly increasing order, and the cell of month [m] and source [s]
    holds the number of rows of that month and source, 0 when there is
    none. *)
Theorem chart_table_is_the_pivot :
  forall (fda_df : DataFrame) (trials_dfs : list DataFrame) (tr : Trace),
    let table := fda_df ++ List.concat trials_dfs in
    table <> [] ->
    Forall has_time table ->
    exists out w,
      aggregate fda_df trials_dfs tr = (Ok out, tr)
      /\ counts out = Some w
      /\ w_values w
         = map (fun m => map (fun s => rows_in m s table) (w_columns w))
               (w_index w)
      /\ StronglySorted (fun a b => period_compare a b = Lt) (w_index w)
      /\ StronglySorted (fun a b => String.compare a b = Lt) (w_columns w)
      /\ (forall m, In m (w_index w)
                    <-> exists r, In r table /\ bucket r = Some m)
      /\ (forall s, In s (w_columns w)
                    <-> exists r, In r table /\ source r = s).
Proof.
  intros fda_df trials_dfs tr table Hne Hdated.
  rewrite aggregate_rows. fold table.
  rewrite (summarize_dated table tr Hdated).
  destruct table as [|r0 rest] eqn:Et; [congruence|]. rewrite <- Et in *.
  do 2 eexists. split; [reflexivity|]. split; [reflexivity|].
  unfold unstack. cbn [w_values w_index w_columns].
  set (t := monthly_counts (map bucket table) table).
  assert (forall m s,
            In (m, s) (map fst t)
            <-> exists r, In r table /\ bucket r = Some m /\ source r = s)
    as Hkeys.
  { intros m s. unfold t, monthly_counts.
    change (map fst (size key_compare ?k)) with (distinct key_compare k).
    rewrite distinct_in by exact key_compare_eq. apply group_keys_in. }
  split; [|split; [|split; [|split]]].
  - apply map_ext. intros m. apply map_ext. intros s.
    unfold t, monthly_counts. rewrite lookup_size by key_order.
    rewrite occurrences_rows_in. now destruct (rows_in m s table).
  - apply distinct_increasing.
    + exact period_compare_eq.
    + exact period_compare_refl.
    + exact period_compare_antisym.
    + exact period_compare_trans.
  - apply distinct_increasing.
    + exact String.compare_eq_iff.
    + exact string_compare_refl.
    + exact String.compare_antisym.
    + exact string_compare_trans.
  - intros m. rewrite distinct_in by exact period_compare_eq.
    rewrite in_map_iff. split.
    + intros ([[m' s] n] & <- & Hin). cbn.
      destruct (proj1 (Hkeys m' s)) as (r & Hr & Hb & _).
      { apply in_map_iff. exists (m', s, n). auto. }
      exists r. auto.
    + intros (r & Hr & Hb).
      assert (In (m, source r) (map fst t)) as Hin
        by (apply Hkeys; exists r; auto).
      apply in_map_iff in Hin. destruct Hin as (kn & Hk & Hin).
      exists kn. split; [now rewrite Hk | exact Hin].
  - intros s. rewrite distinct_in by exact String.compare_eq_iff.
    rewrite in_map_iff. split.
    + intros ([[m s'] n] & <- & Hin). cbn.
      destruct (proj1 (Hkeys m s')) as (r & Hr & _ & Hs).
      { apply in_map_iff. exists (m, s', n). auto. }
      exists r. auto.
    + intros (r & Hr & Hs).
      rewrite Forall_forall in Hdated. destruct (Hdated r Hr) as [ts Hts].
      assert (In (to_period_M ts, s) (map fst t)) as Hin
        by (apply Hkeys; exists r; unfold bucket; rewrite Hts; auto).
      apply in_map_iff in Hin. destruct Hin as (kn & Hk & Hin).
      exists kn. split; [now rewrite Hk | exact Hin].
Qed.

Lemma chart_table_witness :
  exists out w,
    aggregate scenario_fda scenario_trials [] = (Ok out, [])
    /\ counts out = Some w
    /\ w_values w = [[1%nat; 2%nat]; [2%nat; 0%nat]].
Proof.
  destruct (chart_table_is_the_pivot scenario_fda scenario_trials [])
    as (out & w & E & Ec & Hv & _).
  - discriminate.
  - repeat constructor; eexists; reflexivity.
  - exists out, w. split; [exact E|]. split; [exact Ec|].
    rewrite Hv. unfold aggregate in E. cbn in E. injection E as <-.
    cbn in Ec. injection Ec as <-. reflexivity.
Defined.

(* ===================================================================== *)
(** * Further properties of the drivers *)
(* ===================================================================== *)

Section PhaseFrames.
Variable src : string -> M DataFrame.
Variable Q : string -> record -> Prop.
Hypothesis src_shaped :
  forall ph tr df tr1, src ph tr = (Ok df, tr1) -> Forall (Q ph) df.

(** A run over the phases has one outcome per phase, in the order of
    selection, and the rows kept are the rows of each outcome in turn. *)
Lemma source_runs_per_phase phases :
  forall tr outs tr',
    source_runs (map src phases) tr outs tr' ->
    Forall2 (fun ph out => Forall (Q ph) (rows_of out)) phases outs
    /\ successes outs = List.concat (map rows_of outs).
Proof.
  induction phases as [|ph rest IH]; intros tr outs tr' H; cbn in H.
  - inversion H; subst. split; [constructor | reflexivity].
  - inversion H as [|s ss t r tr1 tr2 outs' tr3 Es Hn Hrest]; subst.
    destruct (IH _ _ _ Hrest) as (Hall & Ef).
    split.
    + constructor; [|exact Hall].
      destruct r as [df|e]; cbn; [|constructor]. eapply src_shaped; eauto.
    + unfold successes, frames_of in *. cbn [flat_map map List.concat].
      rewrite concat_app, Ef.
      destruct r as [df|e]; cbn; [now rewrite app_nil_r | reflexivity].
Qed.
End PhaseFrames.

(** X13.  In [app_patched.py] and [pharma_dashboard_v1.py] the combined
    table is made of the outcomes of the sources, in the order they are
    run: the rows of the regulatory source first, then the rows of the
    trial source of each selected phase, phase by phase in the order of
    selection, a source that raised contributing no row.  Every
    regulatory row is tagged [FDA] and every row of a phase is tagged
    [ClinicalTrials.gov] with that phase. *)
Theorem combined_rows_regulatory_first :
  forall (to_datetime : list date_cell -> list (option Timestamp))
         (http : World) (term : string) (phases : list string)
         (fda_limit : Z) (tr : Trace),
    (exists fda_out trial_outs out tr1 tr',
       source_runs (patched_fda_source to_datetime http fda_limit
                      :: map (patched_trial_source to_datetime http term) phases)
                   tr (fda_out :: trial_outs) tr1
       /\ AppPatched.pipeline to_datetime http term phases fda_limit tr
          = (Ok out, tr')
       /\ combined out
          = rows_of fda_out ++ List.concat (map rows_of trial_outs)
       /\ Forall fda_shaped (rows_of fda_out)
       /\ Forall2 (fun ph trial_out =>
                     Forall (trial_shaped ph) (rows_of trial_out))
                  phases trial_outs)
    /\ (exists fda_out trial_outs out tr1 tr',
       source_runs (v1_fda_source to_datetime http fda_limit
                      :: map (v1_trial_source to_datetime http term) phases)
                   tr (fda_out :: trial_outs) tr1
       /\ DashboardV1.pipeline to_datetime http term phases fda_limit tr
          = (Ok out, tr')
       /\ combined out
          = rows_of fda_out ++ List.concat (map rows_of trial_outs)
       /\ Forall fda_shaped (rows_of fda_out)
       /\ Forall2 (fun ph trial_out =>
                     Forall (trial_shaped ph) (rows_of trial_out))
                  phases trial_outs).
Proof.
  intros to_datetime http term phases fda_limit tr. split.
  - destruct (patched_pipeline_runs to_datetime http term phases fda_limit tr)
      as (outs & out & tr1 & tr' & Hr & E & _ & Hc & _).
    inversion Hr as [|s ss t r t1 t2 outs' t3 Es Hn Hrest]; subst.
    destruct (source_runs_per_phase
                (patched_trial_source to_datetime http term) trial_shaped
                (fun ph t df t' H =>
                   ltac:(unfold patched_trial_source, bind, lift in H;
                         destruct (AppPatched.fetch_clinical_trials _ _ _ _ _ _)
                           as [[raw|e] t0]; [|discriminate];
                         injection H as H _;
                         exact (parse_trials_shaped to_datetime raw ph df H)))
                phases _ _ _ Hrest) as (Hall & Ef).
    exists r, outs', out, tr1, tr'.
    split; [exact Hr|]. split; [exact E|].
    split; [|split; [|exact Hall]].
    + rewrite Hc. unfold successes, frames_of in *. cbn [flat_map].
      rewrite concat_app, Ef.
      destruct r as [df|e]; cbn; [now rewrite app_nil_r | reflexivity].
    + destruct r as [df|e]; cbn; [|constructor].
      unfold patched_fda_source, bind, lift in Es.
      destruct (AppPatched.fetch_fda_approvals _ _ _ _ _) as [[raw|e] t0];
        [|discriminate].
      injection Es as Es _. eapply parse_fda_shaped; eauto.
  - destruct (v1_pipeline_runs to_datetime http term phases fda_limit tr)
      as (outs & out & tr1 & tr' & Hr & E & _ & Hc & _).
    inversion Hr as [|s ss t r t1 t2 outs' t3 Es Hn Hrest]; subst.
    destruct (source_runs_per_phase
                (v1_trial_source to_datetime http term) trial_shaped
                (fun ph t df t' H =>
                   ltac:(unfold v1_trial_source, bind, lift in H;
                         destruct (DashboardV1.fetch_clinical_trials _ _ _ _ _ _)
                           as [[raw|e] t0]; [|discriminate];
                         injection H as H _;
                         exact (parse_trials_v1_shaped to_datetime raw ph df H)))
                phases _ _ _ Hrest) as (Hall & Ef).
    exists r, outs', out, tr1, tr'.
    split; [exact Hr|]. split; [exact E|].
    split; [|split; [|exact Hall]].
    + rewrite Hc. unfold successes, frames_of in *. cbn [flat_map].
      rewrite concat_app, Ef.
      destruct r as [df|e]; cbn; [now rewrite app_nil_r | reflexivity].
    + destruct r as [df|e]; cbn; [|constructor].
      unfold v1_fda_source, bind, lift in Es.
      destruct (DashboardV1.fetch_fda_approvals _ _ _ _ _) as [[raw|e] t0];
        [|discriminate].
      injection Es as Es _. eapply parse_fda_shaped; eauto.
Qed.

Section AllDown.
Variable to_datetime : list date_cell -> list (option Timestamp).
Variable http : World.
Hypothesis all_fail : forall n req, is_failure (http n req) = true.

Lemma patched_fetch_fda_all_fail limit retries backoff tr :
  quiet_sleeps backoff retries ->
  exists e tr',
    AppPatched.fetch_fda_approvals http limit retries backoff tr = (Raise e, tr')
    /\ n_requests tr' = (n_requests tr + 2 * Z.to_nat retries)%nat.
Proof.
  intros Hq.
  unfold AppPatched.fetch_fda_approvals, AppPatched.fda_urls.
  cbn [for_each]. unfold bind.
  set (u1 := String.append _ _). set (u2 := String.append _ _).
  destruct (patched_fda_loop_fails http u1 backoff retries None tr Hq)
    as (tr1 & E1 & N1); [intros i _; apply all_fail|].
  rewrite E1.
  destruct (patched_fda_loop_fails http u2 backoff retries
              (last_after
                 (fun n => failure_exn (http n (AppPatched.fda_request u1)))
                 None (n_requests tr) (Z.to_nat retries)) tr1 Hq)
    as (tr2 & E2 & N2); [intros i _; apply all_fail|].
  rewrite E2. cbn. unfold raise. do 2 eexists. split; [reflexivity | lia].
Qed.

Lemma v1_fetch_fda_all_fail limit retries backoff tr :
  quiet_sleeps backoff retries ->
  exists e tr',
    DashboardV1.fetch_fda_approvals http limit retries backoff tr = (Raise e, tr')
    /\ n_requests tr' = (n_requests tr + 2 * Z.to_nat retries)%nat.
Proof.
  intros Hq.
  unfold DashboardV1.fetch_fda_approvals, AppPatched.fda_urls.
  cbn [for_each]. unfold bind.
  set (u1 := String.append _ _). set (u2 := String.append _ _).
  destruct (v1_fda_loop_fails http u1 backoff retries None tr Hq)
    as (tr1 & E1 & N1); [intros i _; apply all_fail|].
  rewrite E1.
  destruct (v1_fda_loop_fails http u2 backoff retries
              (last_after
                 (fun n => failure_exn (http n (AppPatched.fda_request u1)))
                 None (n_requests tr) (Z.to_nat retries)) tr1 Hq)
    as (tr2 & E2 & N2); [intros i _; apply all_fail|].
  rewrite E2. cbn. unfold raise. do 2 eexists. split; [reflexivity | lia].
Qed.

Lemma patched_fetch_trials_all_fail term ph max_studies retries tr :
  retries <= 56 ->
  exists e tr',
    AppPatched.fetch_clinical_trials http term ph max_studies retries tr
    = (Raise e, tr')
    /\ n_requests tr' = (n_requests tr + Z.to_nat retries)%nat.
Proof.
  intros Hq. apply trial_sleeps_quiet in Hq.
  unfold AppPatched.fetch_clinical_trials, bind.
  destruct (patched_trials_loop_fails http
              (AppPatched.trials_request term ph max_studies) retries None tr
              Hq)
    as (tr1 & E1 & N1); [intros i _; apply all_fail|].
  rewrite E1. unfold raise. do 2 eexists. split; [reflexivity | exact N1].
Qed.

Lemma v1_fetch_trials_all_fail term ph max_studies retries tr :
  retries <= 56 ->
  exists e tr',
    DashboardV1.fetch_clinical_trials http term ph max_studies retries tr
    = (Raise e, tr')
    /\ n_requests tr' = (n_requests tr + Z.to_nat retries)%nat.
Proof.
  intros Hq. apply trial_sleeps_quiet in Hq.
  unfold DashboardV1.fetch_clinical_trials, bind.
  destruct (v1_trials_loop_fails http
              (AppPatched.trials_request term ph max_studies) retries None tr
              Hq)
    as (tr1 & E1 & N1); [intros i _; apply all_fail|].
  rewrite E1. unfold raise. do 2 eexists. split; [reflexivity | exact N1].
Qed.

Lemma patched_load_trials_all_fail term phases :
  forall acc tr,
    exists tr',
      AppPatched.load_trials to_datetime http term phases acc tr = (Ok acc, tr')
      /\ n_requests tr' = (n_requests tr + 2 * List.length phases)%nat.
Proof.
  induction phases as [|ph rest IH]; intros acc tr.
  - exists tr. cbn. split; [reflexivity | lia].
  - cbn [AppPatched.load_trials List.length].
    unfold bind at 1, try_except, bind at 1.
    destruct (patched_fetch_trials_all_fail term ph 200 2 tr)
      as (e & tr1 & E & N); [lia|].
    rewrite E. unfold st_error, emit, bind, ret. cbn [fst snd].
    fold (@bind (list DataFrame) (list DataFrame)).
    destruct (IH acc (EvNotice Error :: tr1)) as (tr' & E' & N').
    exists tr'. split; [exact E'|].
    rewrite N', n_requests_cons, N. cbn. lia.
Qed.

Lemma v1_load_trials_all_fail term phases :
  forall acc tr,
    exists tr',
      DashboardV1.load_trials to_datetime http term phases acc tr = (Ok acc, tr')
      /\ n_requests tr' = (n_requests tr + 2 * List.length phases)%nat.
Proof.
  induction phases as [|ph rest IH]; intros acc tr.
  - exists tr. cbn. split; [reflexivity | lia].
  - cbn [DashboardV1.load_trials List.length].
    unfold bind at 1, try_except, bind at 1.
    destruct (v1_fetch_trials_all_fail term ph 200 2 tr)
      as (e & tr1 & E & N); [lia|].
    rewrite E. unfold st_error, emit, bind, ret. cbn [fst snd].
    fold (@bind (list DataFrame) (list DataFrame)).
    destruct (IH acc (EvNotice Error :: tr1)) as (tr' & E' & N').
    exists tr'. split; [exact E'|].
    rewrite N', n_requests_cons, N. cbn. lia.
Qed.
End AllDown.

(** X14.  When both upstream services fail every attempt, the run of
    [app_patched.py] and of [pharma_dashboard_v1.py] still completes: the
    combined table is empty, no chart is drawn, the last thing shown is the
    "no data" warning, and the run has issued 6 requests for the regulatory
    source and 2 for each selected phase. *)
Theorem pipeline_shows_no_data_when_upstream_is_down :
  forall (to_datetime : list date_cell -> list (option Timestamp))
         (http : World) (term : string) (phases : list string)
         (fda_limit : Z) (tr : Trace),
    (forall n req, is_failure (http n req) = true) ->
    (exists tr',
       AppPatched.pipeline to_datetime http term phases fda_limit tr
       = (Ok (mkOutput [] [] None None), EvNotice Warning :: tr')
       /\ n_requests tr' = (n_requests tr + 6 + 2 * List.length phases)%nat)
    /\ (exists tr',
       DashboardV1.pipeline to_datetime http term phases fda_limit tr
       = (Ok (mkOutput [] [] None None), EvNotice Warning :: tr')
       /\ n_requests tr' = (n_requests tr + 6 + 2 * List.length phases)%nat).
Proof.
  intros to_datetime http term phases fda_limit tr Hfail. split.
  - unfold AppPatched.pipeline, AppPatched.load_fda.
    unfold bind at 1, try_except, bind at 1.
    destruct (patched_fetch_fda_all_fail http Hfail (Some fda_limit) 3 (3 # 2) tr)
      as (e & tr1 & E & N); [apply trial_sleeps_quiet; lia|].
    rewrite E. unfold st_error, emit, bind at 1, ret. unfold bind at 1.
    destruct (patched_load_trials_all_fail to_datetime http Hfail term phases
                [] (EvNotice Error :: tr1)) as (tr2 & E2 & N2).
    rewrite E2. exists tr2. split; [reflexivity|].
    rewrite N2, n_requests_cons, N. cbn. lia.
  - unfold DashboardV1.pipeline, DashboardV1.load_fda.
    unfold bind at 1, try_except, bind at 1.
    destruct (v1_fetch_fda_all_fail http Hfail (Some fda_limit) 3 (3 # 2) tr)
      as (e & tr1 & E & N); [apply trial_sleeps_quiet; lia|].
    rewrite E. unfold st_error, emit, bind at 1, ret. unfold bind at 1.
    destruct (v1_load_trials_all_fail to_datetime http Hfail term phases
                [] (EvNotice Error :: tr1)) as (tr2 & E2 & N2).
    rewrite E2. exists tr2. split; [reflexivity|].
    rewrite N2, n_requests_cons, N. cbn. lia.
Qed.

Lemma pipeline_no_data_witness :
  exists tr',
    AppPatched.pipeline CompactDate.to_datetime down_world
      "oncology" ["Phase 2"; "Phase 3"] 50 []
    = (Ok (mkOutput [] [] None None), EvNotice Warning :: tr')
    /\ n_requests tr' = 10%nat.
Proof.
  destruct (pipeline_shows_no_data_when_upstream_is_down
              CompactDate.to_datetime down_world
              "oncology" ["Phase 2"; "Phase 3"] 50 [])
    as [(tr' & E & N) _].
  - reflexivity.
  - exists tr'. split; [exact E | exact N].
Defined.

Section RequestCeiling.
Variable to_datetime : list date_cell -> list (option Timestamp).
Variable http : World.

Lemma app_fetch_fda_one_request limit tr :
  n_requests (snd (App.fetch_fda_approvals http limit tr)) = S (n_requests tr).
Proof.
  unfold App.fetch_fda_approvals, bind, requests_get, lift.
  destruct (http (n_requests tr) _) as [status body|e]; cbn [fst snd];
    [|now rewrite n_requests_cons].
  destruct (raise_for_status status); [|cbn [snd]; now rewrite n_requests_cons].
  destruct (response_json body) as [data|e];
    [|cbn [snd]; now rewrite n_requests_cons].
  destruct (py_get data "results" (JList []));
    cbn [snd]; now rewrite n_requests_cons.
Qed.

Lemma app_fetch_trials_one_request term ph max_studies tr :
  n_requests (snd (App.fetch_clinical_trials http term ph max_studies tr))
  = S (n_requests tr).
Proof.
  unfold App.fetch_clinical_trials, bind, requests_get, lift.
  destruct (http (n_requests tr) _) as [status body|e]; cbn [fst snd];
    [|now rewrite n_requests_cons].
  destruct (raise_for_status status); [|cbn [snd]; now rewrite n_requests_cons].
  destruct (response_json body) as [data|e];
    [|cbn [snd]; now rewrite n_requests_cons].
  destruct (py_getitem data "StudyFieldsResponse") as [fields|e];
    [|cbn [snd]; now rewrite n_requests_cons].
  destruct (py_getitem fields "StudyFields");
    cbn [snd]; now rewrite n_requests_cons.
Qed.

(** [app.py]: when the phase loop completes, it has kept one record set
    per phase and issued one request per phase. *)
Lemma app_fetch_phases_complete term phases :
  forall acc tr dfs tr',
    App.fetch_phases to_datetime http term phases acc tr = (Ok dfs, tr') ->
    exists new,
      dfs = acc ++ new
      /\ source_runs (map (app_trial_source to_datetime http term) phases)
                     tr (map Ok new) tr'
      /\ n_requests tr' = (n_requests tr + List.length phases)%nat.
Proof.
  induction phases as [|ph rest IH]; intros acc tr dfs tr'.
  - cbn. unfold ret. intros [= <- <-]. exists []. rewrite app_nil_r.
    repeat split; [constructor | lia].
  - cbn [App.fetch_phases]. unfold bind at 1.
    pose proof (app_fetch_trials_one_request term ph 200 tr) as N.
    destruct (App.fetch_clinical_trials http term ph 200 tr)
      as [[raw|e] tr1] eqn:Ef; [|discriminate].
    unfold bind at 1, lift at 1.
    destruct (App.parse_trials to_datetime raw ph) as [df|e] eqn:Ep;
      [|discriminate].
    intros H. destruct (IH _ _ _ _ H) as (new & -> & Hruns & Hn).
    exists (df :: new). rewrite <- app_assoc. cbn [snd] in N.
    split; [reflexivity|]. split; [|cbn; lia].
    cbn [map]. eapply runs_cons; [|apply extends_refl | exact Hruns].
    unfold app_trial_source, bind, lift. now rewrite Ef, Ep.
Qed.

Lemma notices_requests tr tr' : notices tr tr' -> n_requests tr' = n_requests tr.
Proof.
  intros (evs & -> & Hall). induction Hall as [|e evs He Hall IH]; cbn [app].
  - reflexivity.
  - rewrite n_requests_cons, IH. destruct e; cbn in *; tauto.
Qed.

(** Sources that issue at most [c] requests each issue at most [c] per
    source over a whole run. *)
Lemma source_runs_ceiling (c : nat) srcs :
  (forall src, In src srcs ->
     forall t, (n_requests t <= n_requests (snd (src t)) <= n_requests t + c)%nat) ->
  forall tr outs tr',
    source_runs srcs tr outs tr' ->
    (n_requests tr <= n_requests tr' <= n_requests tr + c * List.length srcs)%nat.
Proof.
  intros Hsrc tr outs tr' H.
  induction H as [t|src srcs t r t1 t2 outs t3 Es Hn Hrest IH]; cbn [List.length].
  - lia.
  - pose proof (Hsrc src (or_introl eq_refl) t) as H1. rewrite Es in H1.
    cbn [snd] in H1. apply notices_requests in Hn.
    assert (forall s, In s srcs ->
              forall t', (n_requests t' <= n_requests (snd (s t'))
                          <= n_requests t' + c)%nat) as Hs
      by (intros s Hin; apply Hsrc; now right).
    specialize (IH Hs). lia.
Qed.

Lemma source_request_ceilings fda_limit term ph tr :
  (n_requests tr
   <= n_requests (snd (patched_fda_source to_datetime http fda_limit tr))
   <= n_requests tr + 6)%nat
  /\ (n_requests tr
      <= n_requests (snd (v1_fda_source to_datetime http fda_limit tr))
      <= n_requests tr + 6)%nat
  /\ (n_requests tr
      <= n_requests (snd (patched_trial_source to_datetime http term ph tr))
      <= n_requests tr + 2)%nat
  /\ (n_requests tr
      <= n_requests (snd (v1_trial_source to_datetime http term ph tr))
      <= n_requests tr + 2)%nat.
Proof.
  unfold patched_fda_source, v1_fda_source, patched_trial_source,
    v1_trial_source, bind, lift.
  destruct (fetch_request_bounds http (Some fda_limit) 3 (3 # 2) term ph 200 tr)
    as (H1 & H2 & _).
  destruct (fetch_request_bounds http (Some fda_limit) 2 (3 # 2) term ph 200 tr)
    as (_ & _ & H3 & H4).
  repeat split.
  all: match goal with
       | |- context [snd (let (_, _) := ?f in _)] =>
           destruct f as [[raw|e] t]; cbn [snd] in *; lia
       end.
Qed.

End RequestCeiling.

(** X15 (app.py).  The first version has no failure isolation: when the
    regulatory fetch raises, the run ends with that exception and issues
    no further request; and a run completes only when every source (the
    regulatory one, then one per selected phase) was run and returned a
    record set, with one request per source, and the combined table is
    then those record sets one after the other. *)
Theorem app_pipeline_is_all_or_nothing :
  forall (to_datetime : list date_cell -> list (option Timestamp))
         (http : World) (term : string) (phases : list string)
         (fda_limit : Z) (tr : Trace),
    (forall e tr1,
       App.fetch_fda_approvals http fda_limit tr = (Raise e, tr1) ->
       App.pipeline to_datetime http term phases fda_limit tr = (Raise e, tr1)
       /\ n_requests tr1 = S (n_requests tr))
    /\ (forall out tr',
       App.pipeline to_datetime http term phases fda_limit tr = (Ok out, tr') ->
       n_requests tr' = (n_requests tr + 1 + List.length phases)%nat
       /\ exists (dfs : list DataFrame) (tr1 : Trace),
            source_runs
              (app_fda_source to_datetime http fda_limit
                 :: map (app_trial_source to_datetime http term) phases)
              tr (map Ok dfs) tr1
            /\ notices tr1 tr'
            /\ List.length dfs = S (List.length phases)
            /\ combined out = List.concat dfs).
Proof.
  intros to_datetime http term phases fda_limit tr. split.
  - intros e tr1 E. unfold App.pipeline, bind at 1. rewrite E.
    split; [reflexivity|].
    pose proof (app_fetch_fda_one_request http fda_limit tr) as N.
    now rewrite E in N.
  - intros out tr'. unfold App.pipeline. unfold bind at 1.
    pose proof (app_fetch_fda_one_request http fda_limit tr) as N.
    destruct (App.fetch_fda_approvals http fda_limit tr) as [[raw|e] tr1]
      eqn:Efda; [|discriminate].
    cbn [snd] in N. unfold bind at 1, lift at 1.
    destruct (App.parse_fda to_datetime raw) as [fda_df|e] eqn:Ep;
      [|discriminate].
    unfold bind at 1.
    destruct (App.fetch_phases to_datetime http term phases [] tr1)
      as [[dfs|e] tr2] eqn:Ef; [|discriminate].
    destruct (app_fetch_phases_complete to_datetime http term phases
                [] tr1 dfs tr2 Ef) as (new & -> & Hruns & Hn).
    rewrite aggregate_app_rows. cbn [app].
    assert (Forall has_time (fda_df ++ List.concat new)) as Hd.
    { apply Forall_app. split.
      - eapply parse_fda_dated; eauto.
      - apply Forall_concat.
        eapply (app_fetch_phases_dated to_datetime http term phases [] tr1);
          [constructor | exact Ef]. }
    destruct (summarize_output _ tr2 Hd) as (out' & tr'' & Es & Hno & Ec & _).
    rewrite Es. intros [= <- <-].
    pose proof (notices_requests _ _ Hno) as Hreq. split; [lia|].
    exists (fda_df :: new), tr2.
    split; [|split; [exact Hno|split; [|exact Ec]]].
    + cbn [map]. eapply runs_cons; [|apply extends_refl | exact Hruns].
      unfold app_fda_source, bind, lift. now rewrite Efda, Ep.
    + cbn [List.length]. f_equal.
      clear - Hruns. remember (map Ok new) as outs eqn:Eo.
      assert (List.length outs = List.length phases) as Hl.
      { clear Eo. remember (map _ phases) as srcs eqn:Esrc.
        revert phases Esrc.
        induction Hruns as [|src srcs t r t1 t2 outs t3 E1 Hn1 Hr IH];
          intros phases Esrc; destruct phases; try discriminate;
          [reflexivity|].
        cbn. f_equal. apply IH. now injection Esrc. }
      rewrite <- Hl, Eo. now rewrite length_map.
Qed.

Lemma app_pipeline_all_or_nothing_witness :
  App.pipeline CompactDate.to_datetime down_world "oncology" ["Phase 3"] 50 []
  = (Raise (HTTPError 500),
     [EvGet (mkRequest
               "https://api.fda.gov/drug/drugsfda.json?search=products.marketing_status:'1'&limit=50"
               [] None)]).
Proof.
  apply (app_pipeline_is_all_or_nothing
           CompactDate.to_datetime down_world "oncology" ["Phase 3"] 50 []).
  reflexivity.
Defined.

(** X16.  A run of [app_patched.py] or of [pharma_dashboard_v1.py] always
    completes and never issues more than 6 requests for the regulatory
    source plus 2 for each selected phase, whatever the upstream
    answers. *)
Theorem pipeline_request_ceiling :
  forall (to_datetime : list date_cell -> list (option Timestamp))
         (http : World) (term : string) (phases : list string)
         (fda_limit : Z) (tr : Trace),
    (exists out tr',
       AppPatched.pipeline to_datetime http term phases fda_limit tr
       = (Ok out, tr')
       /\ (n_requests tr <= n_requests tr'
           <= n_requests tr + 6 + 2 * List.length phases)%nat)
    /\ (exists out tr',
       DashboardV1.pipeline to_datetime http term phases fda_limit tr
       = (Ok out, tr')
       /\ (n_requests tr <= n_requests tr'
           <= n_requests tr + 6 + 2 * List.length phases)%nat).
Proof.
  intros to_datetime http term phases fda_limit tr. split.
  - destruct (patched_pipeline_runs to_datetime http term phases fda_limit tr)
      as (outs & out & tr1 & tr' & Hr & E & Hn & _).
    exists out, tr'. split; [exact E|].
    apply notices_requests in Hn. rewrite Hn.
    inversion Hr as [|s ss t r t1 t2 outs' t3 Es Hno Hrest]; subst.
    apply notices_requests in Hno.
    destruct (source_request_ceilings to_datetime http fda_limit term "" tr)
      as (H1 & _). rewrite Es in H1. cbn [snd] in H1.
    pose proof (source_runs_ceiling 2
                  (map (patched_trial_source to_datetime http term) phases)) as H2.
    rewrite length_map in H2. specialize (H2 ltac:(
      intros src Hin t; apply in_map_iff in Hin;
      destruct Hin as (ph & <- & _);
      apply (source_request_ceilings to_datetime http fda_limit term ph t)) _ _ _ Hrest).
    lia.
  - destruct (v1_pipeline_runs to_datetime http term phases fda_limit tr)
      as (outs & out & tr1 & tr' & Hr & E & Hn & _).
    exists out, tr'. split; [exact E|].
    apply notices_requests in Hn. rewrite Hn.
    inversion Hr as [|s ss t r t1 t2 outs' t3 Es Hno Hrest]; subst.
    apply notices_requests in Hno.
    destruct (source_request_ceilings to_datetime http fda_limit term "" tr)
      as (_ & H1 & _). rewrite Es in H1. cbn [snd] in H1.
    pose proof (source_runs_ceiling 2
                  (map (v1_trial_source to_datetime http term) phases)) as H2.
    rewrite length_map in H2. specialize (H2 ltac:(
      intros src Hin t; apply in_map_iff in Hin;
      destruct Hin as (ph & <- & _);
      apply (source_request_ceilings to_datetime http fda_limit term ph t)) _ _ _ Hrest).
    lia.
Qed.
